(** * Archival and restoration of activity records

    A shallow embedding of the two management commands

      - [maps/management/commands/archive_old_records.py]
      - [maps/management/commands/restore_archived_records.py]

    together with the part of [maps/models.py] they operate on.  The
    commands are stateful: they read the clock, read one line from standard
    input, write to standard output and update five database tables inside
    a transaction.  They are modelled in a small state-and-exception monad
    over an explicit [World]. *)

From Stdlib Require Import ZArith List String Ascii Bool Lia Arith.
Import ListNotations.
Open Scope string_scope.
Open Scope Z_scope.

Set Implicit Arguments.

(* ===================================================================== *)
(** ** The record store ([maps/models.py]) *)
(* ===================================================================== *)

Module Store.

(** The five model classes the commands import. *)
Inductive Model : Type :=
| AssessmentRecord
| ReportRecord
| CertificateRecord
| FloodRecordActivity
| UserLog.

Definition Model_eqb (a b : Model) : bool :=
  match a, b with
  | AssessmentRecord, AssessmentRecord
  | ReportRecord, ReportRecord
  | CertificateRecord, CertificateRecord
  | FloodRecordActivity, FloodRecordActivity
  | UserLog, UserLog => true
  | _, _ => false
  end.

(** Kind-specific business columns.  Foreign keys are the referenced row's
    primary key, [DecimalField(decimal_places=6)] is the value scaled by
    10^6, [FloatField] is the 64-bit pattern of the double, [DateTimeField]
    is an instant in microseconds (see [datetime] below). *)
Record AssessmentFields : Type := {
  a_user : Z;
  a_barangay : string;
  a_latitude : Z;
  a_longitude : Z;
  a_flood_risk_code : string;
  a_flood_risk_description : string
}.

Record ReportFields : Type := {
  r_user : Z;
  r_assessment : option Z;
  r_barangay : string;
  r_latitude : Z;
  r_longitude : Z;
  r_flood_risk_code : string;
  r_flood_risk_label : string
}.

Record CertificateFields : Type := {
  c_user : Z;
  c_assessment : option Z;
  c_establishment_name : string;
  c_owner_name : string;
  c_location : string;
  c_barangay : string;
  c_latitude : Z;
  c_longitude : Z;
  c_flood_susceptibility : string;
  c_zone_status : string;
  c_issue_date : string
}.

Record FloodActivityFields : Type := {
  f_user : Z;
  f_action : string;
  f_flood_record_id : option Z;
  f_event_type : string;
  f_event_date : Z;
  f_affected_barangays : string;
  f_casualties_dead : Z;
  f_casualties_injured : Z;
  f_casualties_missing : Z;
  f_affected_persons : Z;
  f_affected_families : Z;
  f_damage_total_php : Z
}.

(** Modelled from the spec: [users/models.py] (class [UserLog]) is not among
    the sources.  Section 3 of the specification gives every kind
    "kind-specific business fields ... plus three archival-relevant fields
    shared across all kinds"; the commands use only the latter, so the
    business columns of a log entry are kept as one opaque value. *)
Record UserLogFields : Type := {
  l_business : string
}.

(** An instant: microseconds since 0001-01-01T00:00:00, the range of
    Python's [datetime]. *)
Definition datetime : Type := Z.

(** A table row: primary key, the business columns [B], and the three
    archival columns every model declares
    ([timestamp], [is_archived], [archived_at]). *)
Record Row (B : Type) : Type := mkRow {
  pk : Z;
  fields : B;
  timestamp : datetime;
  is_archived : bool;
  archived_at : option datetime
}.

Arguments mkRow {B} _ _ _ _ _.
Arguments pk {B} _.
Arguments fields {B} _.
Arguments timestamp {B} _.
Arguments is_archived {B} _.
Arguments archived_at {B} _.

Definition fields_of (m : Model) : Type :=
  match m with
  | AssessmentRecord => AssessmentFields
  | ReportRecord => ReportFields
  | CertificateRecord => CertificateFields
  | FloodRecordActivity => FloodActivityFields
  | UserLog => UserLogFields
  end.

(** The database: one table per model. *)
Record DB : Type := mkDB {
  assessments : list (Row AssessmentFields);
  reports : list (Row ReportFields);
  certificates : list (Row CertificateFields);
  flood_activities : list (Row FloodActivityFields);
  user_logs : list (Row UserLogFields)
}.

Definition table (m : Model) (d : DB) : list (Row (fields_of m)) :=
  match m with
  | AssessmentRecord => assessments d
  | ReportRecord => reports d
  | CertificateRecord => certificates d
  | FloodRecordActivity => flood_activities d
  | UserLog => user_logs d
  end.

Definition set_table (m : Model) : list (Row (fields_of m)) -> DB -> DB :=
  match m with
  | AssessmentRecord => fun rows d =>
      mkDB rows (reports d) (certificates d) (flood_activities d) (user_logs d)
  | ReportRecord => fun rows d =>
      mkDB (assessments d) rows (certificates d) (flood_activities d) (user_logs d)
  | CertificateRecord => fun rows d =>
      mkDB (assessments d) (reports d) rows (flood_activities d) (user_logs d)
  | FloodRecordActivity => fun rows d =>
      mkDB (assessments d) (reports d) (certificates d) rows (user_logs d)
  | UserLog => fun rows d =>
      mkDB (assessments d) (reports d) (certificates d) (flood_activities d) rows
  end.

(** *** Query sets

    A Django [QuerySet] is lazy: [Model.objects.filter(...)] and further
    [.filter(...)] calls only accumulate lookups; [.count()] and
    [.update(...)] evaluate them against the table. *)
Inductive Lookup : Type :=
| is_archived_eq (b : bool)          (* is_archived=b *)
| timestamp__lt (t : datetime)       (* timestamp__lt=t *)
| timestamp__gte (t : datetime)      (* timestamp__gte=t *)
| timestamp__lte (t : datetime).     (* timestamp__lte=t *)

Record QuerySet : Type := mkQS {
  model : Model;
  lookups : list Lookup
}.

Definition objects_filter (m : Model) (ls : list Lookup) : QuerySet :=
  mkQS m ls.

Definition qs_filter (qs : QuerySet) (ls : list Lookup) : QuerySet :=
  mkQS (model qs) (lookups qs ++ ls).

Definition holds {B} (r : Row B) (l : Lookup) : bool :=
  match l with
  | is_archived_eq b => Bool.eqb (is_archived r) b
  | timestamp__lt t => timestamp r <? t
  | timestamp__gte t => t <=? timestamp r
  | timestamp__lte t => timestamp r <=? t
  end.

Definition matches {B} (ls : list Lookup) (r : Row B) : bool :=
  forallb (holds r) ls.

(** [.update(is_archived=b, archived_at=a)] on one row: a single write of
    both columns; nothing else is assigned. *)
Definition assign {B} (b : bool) (a : option datetime) (r : Row B) : Row B :=
  mkRow (pk r) (fields r) (timestamp r) b a.

(** The complete bulk update of a table. *)
Definition update_rows {B} (ls : list Lookup) (b : bool) (a : option datetime)
    (rows : list (Row B)) : list (Row B) :=
  map (fun r => if matches ls r then assign b a r else r) rows.

(** A bulk update the store abandons after having written [n] rows. *)
Fixpoint update_rows_upto {B} (n : nat) (ls : list Lookup) (b : bool)
    (a : option datetime) (rows : list (Row B)) : list (Row B) :=
  match n, rows with
  | O, _ => rows
  | _, [] => []
  | S n', r :: rest =>
      if matches ls r
      then assign b a r :: update_rows_upto n' ls b a rest
      else r :: update_rows_upto n ls b a rest
  end.

Definition count_rows {B} (ls : list Lookup) (rows : list (Row B)) : nat :=
  List.length (filter (matches ls) rows).

(** *** Dictionaries of counts

    The commands keep their counts in a [dict] keyed by strings; insertion
    order is kept, assigning an existing key overwrites in place. *)
Definition dict : Type := list (string * nat).

Fixpoint dict_set (k : string) (v : nat) (d : dict) : dict :=
  match d with
  | [] => [(k, v)]
  | (k', v') :: rest =>
      if String.eqb k' k then (k, v) :: rest else (k', v') :: dict_set k v rest
  end.

Fixpoint dict_get (k : string) (d : dict) : option nat :=
  match d with
  | [] => None
  | (k', v') :: rest => if String.eqb k' k then Some v' else dict_get k rest
  end.

(** [sum(d.values())] *)
Definition sum_values (d : dict) : nat :=
  fold_right Nat.add O (map snd d).

(** *** The world and the command monad *)

(** What a command writes to standard output.  The text of each message is
    fixed by the source; only the values formatted into it are kept. *)
Inductive Line : Type :=
| Banner (title : string) (cutoff : option datetime) (dry_run : bool)
| Text (s : string)
| Count (s : string) (n : nat)
| Years (n : Z).

Inductive Exc : Type :=
| CommandError (msg : string)
| OverflowError
| EOFError
| KeyError (key : string)
| DatabaseError (m : Model).

Record World : Type := mkWorld {
  db : DB;                 (* committed and in-transaction table contents *)
  ticks : nat;             (* number of clock readings made so far *)
  stdin : list string;     (* lines still to be read *)
  stdout : list Line       (* lines written, newest first *)
}.

Definition M (A : Type) : Type := World -> (Exc + A) * World.

Definition ret {A} (a : A) : M A := fun w => (inr a, w).

Definition bind {A B} (c : M A) (k : A -> M B) : M B :=
  fun w =>
    match c w with
    | (inl e, w') => (inl e, w')
    | (inr a, w') => k a w'
    end.

Definition raise {A} (e : Exc) : M A := fun w => (inl e, w).

Definition with_db (d : DB) (w : World) : World :=
  mkWorld d (ticks w) (stdin w) (stdout w).

(** [self.stdout.write(...)] *)
Definition write (l : Line) : M unit :=
  fun w => (inr tt, mkWorld (db w) (ticks w) (stdin w) (l :: stdout w)).

(** [input(prompt)]: writes the prompt, reads one line without its newline;
    [EOFError] when standard input is exhausted. *)
Definition input (prompt : string) : M string :=
  fun w =>
    let out := Text prompt :: stdout w in
    match stdin w with
    | [] => (inl EOFError, mkWorld (db w) (ticks w) [] out)
    | l :: rest => (inr l, mkWorld (db w) (ticks w) rest out)
    end.

(** [dict[key]] *)
Definition getitem (d : dict) (key : string) : M nat :=
  match dict_get key d with
  | Some v => ret v
  | None => raise (KeyError key)
  end.

(** [@transaction.atomic]: the body runs on the current tables; when it
    raises, the tables are put back as they were on entry and the exception
    propagates.  Output already written stays written. *)
Definition atomic {A} (body : M A) : M A :=
  fun w =>
    match body w with
    | (inl e, w') => (inl e, with_db (db w) w')
    | (inr a, w') => (inr a, w')
    end.

Section Environment.

  (** The wall clock: [clock n] is what the [n]-th call of [timezone.now()]
      returns. *)
Variable clock : nat -> datetime.

  (** Store failures: [fault m = Some n] makes the bulk update of model [m]
      fail with a database error after [n] rows have been written. *)
Variable fault : Model -> option nat.

Definition timezone_now : M datetime :=
    fun w => (inr (clock (ticks w)),
              mkWorld (db w) (S (ticks w)) (stdin w) (stdout w)).

  (** [qs.count()] *)
Definition qs_count (qs : QuerySet) : M nat :=
    fun w => (inr (count_rows (lookups qs) (table (model qs) (db w))), w).

  (** [qs.update(is_archived=b, archived_at=a)]: returns the number of rows
      matched. *)
Definition qs_update (qs : QuerySet) (b : bool) (a : option datetime) : M nat :=
    fun w =>
      let rows := table (model qs) (db w) in
      match fault (model qs) with
      | None =>
          (inr (count_rows (lookups qs) rows),
           with_db (set_table (model qs) (update_rows (lookups qs) b a rows) (db w)) w)
      | Some n =>
          (inl (DatabaseError (model qs)),
           with_db (set_table (model qs) (update_rows_upto n (lookups qs) b a rows) (db w)) w)
      end.

End Environment.

(** *** [datetime] arithmetic *)

Definition us_per_day : Z := 86400000000.

(** [datetime.min] and [datetime.max] *)
Definition datetime_min : datetime := 0.
Definition datetime_max : datetime := 3652059 * us_per_day - 1.

(** [t - timedelta(days=d)]: [OverflowError] when the number of days is
    beyond what a [timedelta] holds or the result leaves the range of
    [datetime]. *)
Definition minus_days (t : datetime) (d : Z) : M datetime :=
  if (d <? -999999999) || (999999999 <? d) then raise OverflowError
  else
    let r := t - d * us_per_day in
    if (r <? datetime_min) || (datetime_max <? r) then raise OverflowError
    else ret r.

(** [str.lower()] on one character and on a string (the letters A-Z; no
    other character lower-cases to one of [y], [e], [s]). *)
Definition lower_ascii (c : ascii) : ascii :=
  let n := nat_of_ascii c in
  if (andb (Nat.leb 65 n) (Nat.leb n 90)) then ascii_of_nat (n + 32) else c.

Fixpoint lower (s : string) : string :=
  match s with
  | EmptyString => EmptyString
  | String c rest => String (lower_ascii c) (lower rest)
  end.

(** The prompt of both commands: Type "yes" to proceed, or "no" to cancel: *)
Definition dquote : string := String (ascii_of_nat 34) EmptyString.
Definition confirm_prompt : string :=
  "Type " ++ dquote ++ "yes" ++ dquote ++ " to proceed, or "
          ++ dquote ++ "no" ++ dquote ++ " to cancel: ".

(** Truth value of an optional command-line string ([None] and [''] are
    false). *)
Definition truthy (o : option string) : bool :=
  match o with
  | None => false
  | Some s => negb (String.eqb s "")
  end.

(** [o == lit] for an optional string. *)
Definition str_eq (o : option string) (lit : string) : bool :=
  match o with
  | None => false
  | Some s => String.eqb s lit
  end.

End Store.

Module MNotations.
Notation "x <- c ;; k" := (Store.bind c (fun x => k))
    (at level 61, c at next level, right associativity).
Notation "c ;;; k" := (Store.bind c (fun _ => k))
    (at level 61, right associativity).
End MNotations.

(* ===================================================================== *)
(** ** [archive_old_records.py] *)
(* ===================================================================== *)

Module archive_old_records.
Import Store MNotations.

(** The parsed command line ([add_arguments]). *)
Record Options : Type := mkOptions {
  years : Z;              (* --years, type=int, default 2 *)
  dry_run : bool;         (* --dry-run *)
  execute : bool;         (* --execute *)
  include_logs : bool     (* --include-logs *)
}.

Section Command.

Variable clock : nat -> datetime.
Variable fault : Model -> option nat.

  (** The filter both the counting and the updating step build:
      [filter(timestamp__lt=cutoff_date, is_archived=False)]. *)
Definition old_unarchived (m : Model) (cutoff_date : datetime) : QuerySet :=
    objects_filter m [timestamp__lt cutoff_date; is_archived_eq false].

Definition _count_records (cutoff_date : datetime) (include_logs : bool) : M dict :=
    n_a <- qs_count (old_unarchived AssessmentRecord cutoff_date) ;;
    n_r <- qs_count (old_unarchived ReportRecord cutoff_date) ;;
    n_c <- qs_count (old_unarchived CertificateRecord cutoff_date) ;;
    n_f <- qs_count (old_unarchived FloodRecordActivity cutoff_date) ;;
    let counts := [("assessments", n_a); ("reports", n_r);
                   ("certificates", n_c); ("flood_activities", n_f)] in
    counts <-
      (if include_logs
       then n_l <- qs_count (old_unarchived UserLog cutoff_date) ;;
            ret (dict_set "user_logs" n_l counts)
       else ret (dict_set "user_logs" O counts)) ;;
    let counts := dict_set "total" (sum_values counts) counts in
    ret counts.

Definition _display_summary (counts : dict) (cutoff_date : datetime) (years : Z)
      : M unit :=
    write (Years years) ;;;
    n <- getitem counts "assessments" ;; write (Count "Assessment Records" n) ;;;
    n <- getitem counts "reports" ;; write (Count "Report Records" n) ;;;
    n <- getitem counts "certificates" ;; write (Count "Certificate Records" n) ;;;
    n <- getitem counts "flood_activities" ;; write (Count "Flood Record Activities" n) ;;;
    n <- getitem counts "user_logs" ;; write (Count "User Activity Logs" n) ;;;
    write (Text "-----------------------------------") ;;;
    n <- getitem counts "total" ;; write (Count "TOTAL" n).

Definition _confirm_archiving (counts : dict) : M bool :=
    total <- getitem counts "total" ;;
    if Nat.eqb total O then
      write (Text "No records to archive.") ;;;
      ret false
    else
      total <- getitem counts "total" ;;
      write (Count "You are about to archive records." total) ;;;
      response <- input confirm_prompt ;;
      ret (String.eqb (lower response) "yes").

Definition _archive_records (cutoff_date : datetime) (include_logs : bool) : M dict :=
    atomic (
      now <- timezone_now clock ;;
      let archived_counts : dict := [] in
      assessment_count <-
        qs_update fault (old_unarchived AssessmentRecord cutoff_date) true (Some now) ;;
      let archived_counts := dict_set "assessments" assessment_count archived_counts in
      write (Count "Archived assessment records" assessment_count) ;;;
      report_count <-
        qs_update fault (old_unarchived ReportRecord cutoff_date) true (Some now) ;;
      let archived_counts := dict_set "reports" report_count archived_counts in
      write (Count "Archived report records" report_count) ;;;
      certificate_count <-
        qs_update fault (old_unarchived CertificateRecord cutoff_date) true (Some now) ;;
      let archived_counts := dict_set "certificates" certificate_count archived_counts in
      write (Count "Archived certificate records" certificate_count) ;;;
      flood_count <-
        qs_update fault (old_unarchived FloodRecordActivity cutoff_date) true (Some now) ;;
      let archived_counts := dict_set "flood_activities" flood_count archived_counts in
      write (Count "Archived flood record activities" flood_count) ;;;
      archived_counts <-
        (if include_logs
         then
           log_count <-
             qs_update fault (old_unarchived UserLog cutoff_date) true (Some now) ;;
           write (Count "Archived user activity logs" log_count) ;;;
           ret (dict_set "user_logs" log_count archived_counts)
         else ret (dict_set "user_logs" O archived_counts)) ;;
      let archived_counts := dict_set "total" (sum_values archived_counts) archived_counts in
      ret archived_counts).

Definition _display_results (counts : dict) : M unit :=
    total <- getitem counts "total" ;;
    write (Count "ARCHIVING COMPLETE. Total records archived" total).

Definition handle (options : Options) : M unit :=
    let years := years options in
    let dry_run := dry_run options in
    let execute := execute options in
    let include_logs := include_logs options in
    if negb dry_run && negb execute then
      raise (CommandError "You must specify either --dry-run or --execute. Use --dry-run first to preview what will be archived.")
    else if dry_run && execute then
      raise (CommandError "Cannot use both --dry-run and --execute together.")
    else if years <? 1 then
      raise (CommandError "Years must be at least 1.")
    else
      t <- timezone_now clock ;;
      cutoff_date <- minus_days t (365 * years) ;;
      write (Banner "ARCHIVING RECORDS OLDER THAN" (Some cutoff_date) dry_run) ;;;
      counts <- _count_records cutoff_date include_logs ;;
      _display_summary counts cutoff_date years ;;;
      if dry_run then
        write (Text "Dry run complete. No records were modified. Run with --execute to perform the archiving.")
      else
        confirmed <- _confirm_archiving counts ;;
        if negb confirmed then
          write (Text "Archiving cancelled.")
        else
          write (Text "Archiving records...") ;;;
          archived_counts <- _archive_records cutoff_date include_logs ;;
          _display_results archived_counts.

End Command.

End archive_old_records.

(* ===================================================================== *)
(** ** [restore_archived_records.py] *)
(* ===================================================================== *)

Module restore_archived_records.
Import Store MNotations.

(** The parsed command line ([add_arguments]).  [--type] is a string (one of
    the five choices when it comes through the argument parser). *)
Record Options : Type := mkOptions {
  all : bool;                     (* --all *)
  type : option string;           (* --type *)
  date_from : option string;      (* --date-from *)
  date_to : option string;        (* --date-to *)
  dry_run : bool;                 (* --dry-run *)
  execute : bool                  (* --execute *)
}.

Section Command.

Variable fault : Model -> option nat.

  (** [datetime.strptime(s, '%Y-%m-%d')] of the Python library: the instant
      at midnight that starts the day written in [s], or [None] where Python
      raises [ValueError]. *)
Variable strptime : string -> option datetime.

Definition _get_queryset (m : Model) (date_from date_to : option datetime)
      : QuerySet :=
    let qs := objects_filter m [is_archived_eq true] in
    let qs := match date_from with
              | Some d => qs_filter qs [timestamp__gte d]
              | None => qs
              end in
    let qs := match date_to with
              | Some d => qs_filter qs [timestamp__lte d]
              | None => qs
              end in
    qs.

Definition _count_records (restore_all : bool) (record_type : option string)
      (date_from date_to : option datetime) : M dict :=
    let counts := [("assessments", O); ("reports", O); ("certificates", O);
                   ("flood_activities", O); ("user_logs", O)] in
    counts <-
      (if restore_all || str_eq record_type "assessments"
       then n <- qs_count (_get_queryset AssessmentRecord date_from date_to) ;;
            ret (dict_set "assessments" n counts)
       else ret counts) ;;
    counts <-
      (if restore_all || str_eq record_type "reports"
       then n <- qs_count (_get_queryset ReportRecord date_from date_to) ;;
            ret (dict_set "reports" n counts)
       else ret counts) ;;
    counts <-
      (if restore_all || str_eq record_type "certificates"
       then n <- qs_count (_get_queryset CertificateRecord date_from date_to) ;;
            ret (dict_set "certificates" n counts)
       else ret counts) ;;
    counts <-
      (if restore_all || str_eq record_type "flood_activities"
       then n <- qs_count (_get_queryset FloodRecordActivity date_from date_to) ;;
            ret (dict_set "flood_activities" n counts)
       else ret counts) ;;
    counts <-
      (if restore_all || str_eq record_type "user_logs"
       then n <- qs_count (_get_queryset UserLog date_from date_to) ;;
            ret (dict_set "user_logs" n counts)
       else ret counts) ;;
    let counts := dict_set "total" (sum_values counts) counts in
    ret counts.

Definition _display_summary (counts : dict) : M unit :=
    write (Text "Records to restore:") ;;;
    n <- getitem counts "assessments" ;; write (Count "Assessment Records" n) ;;;
    n <- getitem counts "reports" ;; write (Count "Report Records" n) ;;;
    n <- getitem counts "certificates" ;; write (Count "Certificate Records" n) ;;;
    n <- getitem counts "flood_activities" ;; write (Count "Flood Record Activities" n) ;;;
    n <- getitem counts "user_logs" ;; write (Count "User Activity Logs" n) ;;;
    write (Text "-----------------------------------") ;;;
    n <- getitem counts "total" ;; write (Count "TOTAL" n).

Definition _confirm_restoration (counts : dict) : M bool :=
    total <- getitem counts "total" ;;
    if Nat.eqb total O then
      write (Text "No records to restore.") ;;;
      ret false
    else
      total <- getitem counts "total" ;;
      write (Count "You are about to restore archived records." total) ;;;
      response <- input confirm_prompt ;;
      ret (String.eqb (lower response) "yes").

Definition _restore_records (restore_all : bool) (record_type : option string)
      (date_from date_to : option datetime) : M dict :=
    atomic (
      let restored_counts : dict := [] in
      restored_counts <-
        (if restore_all || str_eq record_type "assessments"
         then count <- qs_update fault (_get_queryset AssessmentRecord date_from date_to)
                         false None ;;
              write (Count "Restored assessment records" count) ;;;
              ret (dict_set "assessments" count restored_counts)
         else ret restored_counts) ;;
      restored_counts <-
        (if restore_all || str_eq record_type "reports"
         then count <- qs_update fault (_get_queryset ReportRecord date_from date_to)
                         false None ;;
              write (Count "Restored report records" count) ;;;
              ret (dict_set "reports" count restored_counts)
         else ret restored_counts) ;;
      restored_counts <-
        (if restore_all || str_eq record_type "certificates"
         then count <- qs_update fault (_get_queryset CertificateRecord date_from date_to)
                         false None ;;
              write (Count "Restored certificate records" count) ;;;
              ret (dict_set "certificates" count restored_counts)
         else ret restored_counts) ;;
      restored_counts <-
        (if restore_all || str_eq record_type "flood_activities"
         then count <- qs_update fault (_get_queryset FloodRecordActivity date_from date_to)
                         false None ;;
              write (Count "Restored flood record activities" count) ;;;
              ret (dict_set "flood_activities" count restored_counts)
         else ret restored_counts) ;;
      restored_counts <-
        (if restore_all || str_eq record_type "user_logs"
         then count <- qs_update fault (_get_queryset UserLog date_from date_to)
                         false None ;;
              write (Count "Restored user activity logs" count) ;;;
              ret (dict_set "user_logs" count restored_counts)
         else ret restored_counts) ;;
      let restored_counts :=
        dict_set "total" (sum_values restored_counts) restored_counts in
      ret restored_counts).

Definition _display_results (counts : dict) : M unit :=
    total <- getitem counts "total" ;;
    write (Count "RESTORATION COMPLETE. Total records restored" total).

(** The two [try: ... strptime ... except ValueError: raise CommandError]
    blocks of [handle]: an absent or empty argument leaves the bound [None]. *)
Definition parse_date (arg : option string) (msg : string) : M (option datetime) :=
    match arg with
    | Some s =>
        if truthy arg then
          match strptime s with
          | Some d => ret (Some d)
          | None => raise (CommandError msg)
          end
        else ret None
    | None => ret None
    end.

Definition handle (options : Options) : M unit :=
    let dry_run := dry_run options in
    let execute := execute options in
    let restore_all := all options in
    let record_type := type options in
    let date_from := date_from options in
    let date_to := date_to options in
    if negb dry_run && negb execute then
      raise (CommandError "You must specify either --dry-run or --execute. Use --dry-run first to preview what will be restored.")
    else if dry_run && execute then
      raise (CommandError "Cannot use both --dry-run and --execute together.")
    else if negb restore_all && negb (truthy record_type) && negb (truthy date_from) then
      raise (CommandError "You must specify either --all, --type, or --date-from/--date-to")
    else
      date_from_obj <- parse_date date_from "Invalid date-from format. Use YYYY-MM-DD" ;;
      date_to_obj <- parse_date date_to "Invalid date-to format. Use YYYY-MM-DD" ;;
      write (Banner "RESTORING ARCHIVED RECORDS" None dry_run) ;;;
      counts <- _count_records restore_all record_type date_from_obj date_to_obj ;;
      _display_summary counts ;;;
      if dry_run then
        write (Text "Dry run complete. No records were modified. Run with --execute to perform the restoration.")
      else
        confirmed <- _confirm_restoration counts ;;
        if negb confirmed then
          write (Text "Restoration cancelled.")
        else
          write (Text "Restoring records...") ;;;
          restored_counts <- _restore_records restore_all record_type
                               date_from_obj date_to_obj ;;
          _display_results restored_counts.

End Command.

End restore_archived_records.

(* ===================================================================== *)
(** ** Vocabulary of the statements *)
(* ===================================================================== *)

Module Terms.
Import Store.

(** A store that never fails. *)
Definition no_fault : Model -> option nat := fun _ => None.

(** The value of [--type] that names a model. *)
Definition kind_name (m : Model) : string :=
  match m with
  | AssessmentRecord => "assessments"
  | ReportRecord => "reports"
  | CertificateRecord => "certificates"
  | FloodRecordActivity => "flood_activities"
  | UserLog => "user_logs"
  end.

(** Which models the archive command updates. *)
Definition participates (include_logs : bool) (m : Model) : bool :=
  match m with
  | UserLog => include_logs
  | _ => true
  end.

(** Which models the restore command updates: the guard in front of each
    of its five blocks. *)
Definition selected (restore_all : bool) (record_type : option string) (m : Model)
    : bool :=
  restore_all || str_eq record_type (kind_name m).

(** A row that qualifies for archiving: older than the cutoff, not archived. *)
Definition qualifies {B} (cutoff : datetime) (r : Row B) : bool :=
  (timestamp r <? cutoff) && negb (is_archived r).

(** An archived row inside the optional bounds. *)
Definition in_window {B} (date_from date_to : option datetime) (r : Row B) : bool :=
  is_archived r
  && match date_from with Some d => d <=? timestamp r | None => true end
  && match date_to with Some d => timestamp r <=? d | None => true end.

(** The two transitions of a row. *)
Definition archive_row {B} (cutoff now : datetime) (r : Row B) : Row B :=
  if qualifies cutoff r then mkRow (pk r) (fields r) (timestamp r) true (Some now) else r.

Definition restore_row {B} (date_from date_to : option datetime) (r : Row B) : Row B :=
  if in_window date_from date_to r
  then mkRow (pk r) (fields r) (timestamp r) false None else r.

(** The pairing of the two archival columns. *)
Definition paired {B} (r : Row B) : bool :=
  Bool.eqb (is_archived r) (match archived_at r with Some _ => true | None => false end).

Definition pairing_invariant (d : DB) : Prop :=
  forall m r, In r (table m d) -> paired r = true.

(** The database after every selected table went through a row transition. *)
Definition map_tables (sel : Model -> bool)
    (f : forall B : Type, Row B -> Row B) (d : DB) : DB :=
  mkDB (if sel AssessmentRecord then map (f _) (assessments d) else assessments d)
       (if sel ReportRecord then map (f _) (reports d) else reports d)
       (if sel CertificateRecord then map (f _) (certificates d) else certificates d)
       (if sel FloodRecordActivity then map (f _) (flood_activities d) else flood_activities d)
       (if sel UserLog then map (f _) (user_logs d) else user_logs d).

Definition archive_db (cutoff now : datetime) (include_logs : bool) (d : DB) : DB :=
  map_tables (participates include_logs) (fun B => archive_row cutoff now) d.

Definition restore_db (restore_all : bool) (record_type : option string)
    (date_from date_to : option datetime) (d : DB) : DB :=
  map_tables (selected restore_all record_type)
             (fun B => restore_row date_from date_to) d.

(** The total a command previews, read off the dictionary it counted. *)
Definition previewed_total (count : M dict) (w : World) : option nat :=
  match fst (count w) with
  | inr counts => dict_get "total" counts
  | inl _ => None
  end.

(** The dictionary of counts both commands preview: the five kinds in
    this order, then their sum. *)
Definition tally (n_a n_r n_c n_f n_l : nat) : dict :=
  [("assessments", n_a); ("reports", n_r); ("certificates", n_c);
   ("flood_activities", n_f); ("user_logs", n_l);
   ("total", (n_a + (n_r + (n_c + (n_f + (n_l + 0)))))%nat)].

(** What [archive_old_records._count_records] returns on database [d]. *)
Definition archive_tally (cutoff : datetime) (include_logs : bool) (d : DB) : dict :=
  tally (count_rows [timestamp__lt cutoff; is_archived_eq false] (assessments d))
        (count_rows [timestamp__lt cutoff; is_archived_eq false] (reports d))
        (count_rows [timestamp__lt cutoff; is_archived_eq false] (certificates d))
        (count_rows [timestamp__lt cutoff; is_archived_eq false] (flood_activities d))
        (if include_logs
         then count_rows [timestamp__lt cutoff; is_archived_eq false] (user_logs d)
         else O).

(** The lookups [restore_archived_records._get_queryset] accumulates. *)
Definition window_lookups (date_from date_to : option datetime) : list Lookup :=
  ([is_archived_eq true]
     ++ match date_from with Some d => [timestamp__gte d] | None => [] end)
     ++ match date_to with Some d => [timestamp__lte d] | None => [] end.

(** What [restore_archived_records._count_records] returns on database [d]. *)
Definition restore_tally (restore_all : bool) (record_type : option string)
    (date_from date_to : option datetime) (d : DB) : dict :=
  let ls := window_lookups date_from date_to in
  tally (if selected restore_all record_type AssessmentRecord
         then count_rows ls (assessments d) else O)
        (if selected restore_all record_type ReportRecord
         then count_rows ls (reports d) else O)
        (if selected restore_all record_type CertificateRecord
         then count_rows ls (certificates d) else O)
        (if selected restore_all record_type FloodRecordActivity
         then count_rows ls (flood_activities d) else O)
        (if selected restore_all record_type UserLog
         then count_rows ls (user_logs d) else O).

(** The lines [_display_summary] writes after its heading, newest first. *)
Definition summary_lines (n_a n_r n_c n_f n_l : nat) : list Line :=
  [Count "TOTAL" (n_a + (n_r + (n_c + (n_f + (n_l + 0)))))%nat;
   Text "-----------------------------------";
   Count "User Activity Logs" n_l;
   Count "Flood Record Activities" n_f;
   Count "Certificate Records" n_c;
   Count "Report Records" n_r;
   Count "Assessment Records" n_a].

(** The world with more lines written (given newest first). *)
Definition written (ls : list Line) (w : World) : World :=
  mkWorld (db w) (ticks w) (stdin w) (ls ++ stdout w).

(** The cutoff [handle] computes from a clock reading. *)
Definition cutoff_of (now : datetime) (years : Z) : datetime :=
  now - 365 * years * us_per_day.

(** The bound [handle] of the restore command derives from a date argument:
    [Some None] for an absent or empty argument, [Some (Some d)] for a date
    that parses, [None] where the command stops with [CommandError]. *)
Definition parsed (strptime : string -> option datetime) (arg : option string)
    : option (option datetime) :=
  match arg with
  | Some s =>
      if truthy arg then
        match strptime s with
        | Some d => Some (Some d)
        | None => None
        end
      else Some None
  | None => Some None
  end.

(** The answers that spell [yes], in every mix of upper and lower case. *)
Definition yes_in_any_case : list string :=
  ["yes"; "Yes"; "yEs"; "yeS"; "YEs"; "YeS"; "yES"; "YES"].

(** A store on which no bulk update fails. *)
Definition reliable (fault : Model -> option nat) : Prop :=
  forall m, fault m = None.

(** The lines [archive_old_records._archive_records] writes, newest first. *)
Definition archived_lines (cutoff : datetime) (include_logs : bool) (d : DB)
    : list Line :=
  (if include_logs
   then [Count "Archived user activity logs"
           (count_rows [timestamp__lt cutoff; is_archived_eq false] (user_logs d))]
   else [])
  ++ [Count "Archived flood record activities"
        (count_rows [timestamp__lt cutoff; is_archived_eq false] (flood_activities d));
      Count "Archived certificate records"
        (count_rows [timestamp__lt cutoff; is_archived_eq false] (certificates d));
      Count "Archived report records"
        (count_rows [timestamp__lt cutoff; is_archived_eq false] (reports d));
      Count "Archived assessment records"
        (count_rows [timestamp__lt cutoff; is_archived_eq false] (assessments d))].

(** A command step is stable for a relation on databases when the database
    it leaves is related to the one it found, whatever else it does. *)
Definition stable (R : DB -> DB -> Prop) {A} (c : M A) : Prop :=
  forall w, R (db w) (db (snd (c w))).

(** The relation behind the pairing invariant. *)
Definition keeps_pairing (d d' : DB) : Prop :=
  pairing_invariant d -> pairing_invariant d'.

(** *** Sample data *)

Definition day (n : Z) : datetime := n * us_per_day.

(** A clock that starts on day 739000 (in the year 2024) and advances by one
    microsecond per reading. *)
Definition sample_clock (n : nat) : datetime := day 739000 + Z.of_nat n.

Definition sample_assessment (id : Z) (t : datetime) (arch : bool)
    (at_ : option datetime) : Row AssessmentFields :=
  mkRow id (Build_AssessmentFields 1 "Mambulac" 10800000 122970000 "HF" "High") t arch at_.

Definition sample_report (id : Z) (t : datetime) (arch : bool)
    (at_ : option datetime) : Row ReportFields :=
  mkRow id (Build_ReportFields 1 None "Guinhalaran" 10790000 122960000 "MF" "Moderate")
        t arch at_.

Definition sample_log (id : Z) (t : datetime) (arch : bool)
    (at_ : option datetime) : Row UserLogFields :=
  mkRow id (Build_UserLogFields "login") t arch at_.

(** Three assessments aged three years, one year and six months, one old
    report and one old log entry; nothing archived. *)
Definition sample_db : DB :=
  mkDB [sample_assessment 1 (day (739000 - 1095)) false None;
        sample_assessment 2 (day (739000 - 365)) false None;
        sample_assessment 3 (day (739000 - 180)) false None]
       [sample_report 1 (day (739000 - 1000)) false None]
       [] []
       [sample_log 1 (day (739000 - 2000)) false None].

Definition sample_world (d : DB) (answers : list string) : World :=
  mkWorld d O answers [].

(** [sample_db] after a confirmed [--years=2 --execute] run of the archive
    command under [sample_clock]: assessment 1 and report 1 are archived. *)
Definition sample_db_archived : DB :=
  Eval vm_compute in
    db (snd (archive_old_records.handle sample_clock no_fault
               (archive_old_records.mkOptions 2 false true false)
               (sample_world sample_db ["yes"]))).

(** A store that fails on the bulk update of reports after [n] rows, and
    on nothing else. *)
Definition reports_fail_after (n : nat) : Model -> option nat :=
  fun m => match m with ReportRecord => Some n | _ => None end.

(** Reports archived at some earlier time, spread around the year 2023,
    which runs from day 738520 to day 738884, and one archived assessment
    inside it. *)
Definition archived_db : DB :=
  mkDB [sample_assessment 1 (day 738600) true (Some (day 738900))]
       [sample_report 1 (day 738519) true (Some (day 738900));
        sample_report 2 (day 738520) true (Some (day 738900));
        sample_report 3 (day 738700) true (Some (day 738900));
        sample_report 4 (day 738884) true (Some (day 738900));
        sample_report 5 (day 738884 + 1) true (Some (day 738900));
        sample_report 6 (day 738700) false None]
       [] [] [].

(** A stand-in for [strptime]: the first and the last day of 2023 are known
    (midnight of day 738520 and of day 738884 after 0001-01-01), everything
    else is rejected. *)
Definition sample_strptime (s : string) : option datetime :=
  if String.eqb s "2023-01-01" then Some (day 738520)
  else if String.eqb s "2023-12-31" then Some (day 738884)
  else None.

(** A second stand-in for [strptime], for the year 2021. *)
Definition sample_strptime_2021 (s : string) : option datetime :=
  if String.eqb s "2021-01-01" then Some (day 737790)
  else if String.eqb s "2021-12-31" then Some (day 738154)
  else None.

End Terms.

(* ===================================================================== *)
(** ** [users/validators.py] *)
(* ===================================================================== *)

Module validators.

(** A Python [str] is a sequence of Unicode code points. *)
Definition char : Type := N.
Definition str : Type := list char.

(** The code points of a literal written in the source (ASCII only). *)
Definition literal (s : string) : str :=
  map N_of_ascii (list_ascii_of_string s).

(** [raise ValueError(msg)] or a normal return. *)
Definition result (A : Type) : Type := (string + A)%type.

Section PasswordStrengthValidator.

(** [char.isupper()], [char.islower()] and [char.isdigit()] of the Python
    library on a string of one character: they follow the Unicode
    character database, which is taken as given. *)
Variable isupper : char -> bool.
Variable islower : char -> bool.
Variable isdigit : char -> bool.

(** The characters of the literal in the last test of [validate]. *)
Definition special_characters : str := literal "!@#$%^&*()_+-=[]{}|;:,.<>?".

(** [char in "..."] for a one-character [char]. *)
Definition is_special (c : char) : bool :=
  existsb (N.eqb c) special_characters.

(** [PasswordStrengthValidator.validate(password)]; [any(... for char in
    password)] is [existsb]. *)
Definition validate (password : str) : result unit :=
  if negb (existsb isupper password) then
    inl "Password must contain at least one uppercase letter."
  else if negb (existsb islower password) then
    inl "Password must contain at least one lowercase letter."
  else if negb (existsb isdigit password) then
    inl "Password must contain at least one number."
  else if negb (existsb is_special password) then
    inl "Password must contain at least one special character."
  else inr tt.

End PasswordStrengthValidator.

(** *** The regular expression of [StaffIDValidator]

    The fragment of Python's [re] syntax the pattern uses: the two anchors,
    a set of characters, a fixed repetition and concatenation.  There is
    no alternative and no open repetition, so matching never backtracks. *)
Inductive Regex : Type :=
| Bol                               (* ^ *)
| Eol                               (* $ *)
| Set_ (p : char -> bool)           (* [...] or \d *)
| Times (n : nat) (r : Regex)       (* r{n} *)
| Cat (r1 r2 : Regex).              (* r1 r2 *)

(** Matching from a position: the number of characters consumed so far and
    the rest of the subject.  Without [re.MULTILINE], [^] holds at the start
    of the string and [$] holds at its end and just before a newline that
    ends it. *)
Fixpoint re_run (r : Regex) (pos : nat) (rest : str) : option (nat * str) :=
  match r with
  | Bol => if Nat.eqb pos O then Some (pos, rest) else None
  | Eol =>
      match rest with
      | [] => Some (pos, rest)
      | [c] => if N.eqb c 10 then Some (pos, rest) else None
      | _ => None
      end
  | Set_ p =>
      match rest with
      | c :: rest' => if p c then Some (S pos, rest') else None
      | [] => None
      end
  | Times n r' =>
      (fix go (n : nat) (pos : nat) (rest : str) : option (nat * str) :=
         match n with
         | O => Some (pos, rest)
         | S n' =>
             match re_run r' pos rest with
             | Some (pos', rest') => go n' pos' rest'
             | None => None
             end
         end) n pos rest
  | Cat r1 r2 =>
      match re_run r1 pos rest with
      | Some (pos', rest') => re_run r2 pos' rest'
      | None => None
      end
  end.

(** [re.match(pattern, value)] as a truth value: a match that starts at the
    beginning of [value]. *)
Definition re_match (r : Regex) (value : str) : bool :=
  match re_run r O value with
  | Some _ => true
  | None => false
  end.

Section StaffIDValidator.

(** [\d] in a [str] pattern: the decimal digits of the Unicode character
    database, taken as given. *)
Variable unicode_decimal : char -> bool.

(** [[A-Z]]: the code points 65 to 90. *)
Definition A_to_Z (c : char) : bool := (65 <=? c)%N && (c <=? 90)%N.

(** [r'^[A-Z]{2}\d{4}$'] *)
Definition staff_id_pattern : Regex :=
  Cat Bol (Cat (Times 2 (Set_ A_to_Z)) (Cat (Times 4 (Set_ unicode_decimal)) Eol)).

(** [StaffIDValidator.__call__(value)] *)
Definition call (value : str) : result str :=
  if negb (re_match staff_id_pattern value) then
    inl "Staff ID must be in format: 2 uppercase letters followed by 4 digits (e.g., AB1234)"
  else inr value.

End StaffIDValidator.

(** The digits 0 to 9, the part of [\d] inside ASCII; used for sample
    runs. *)
Definition ascii_digit (c : char) : bool := (48 <=? c)%N && (c <=? 57)%N.
Definition ascii_upper (c : char) : bool := (65 <=? c)%N && (c <=? 90)%N.
Definition ascii_lower (c : char) : bool := (97 <=? c)%N && (c <=? 122)%N.

End validators.

(* ===================================================================== *)
(** ** [FloodSusceptibility] of [maps/models.py] *)
(* ===================================================================== *)

Module flood_susceptibility.

(** The columns of the model; [haz_area_ha] is the decimal scaled by 10^8,
    [geometry] the text of the boundary. *)
Record FloodSusceptibility : Type := mkFloodSusceptibility {
  lgu : string;
  psgc_lgu : string;
  haz_class : string;
  haz_code : string;
  haz_desc : string;
  haz_area_ha : Z;
  geometry : string
}.

(** [choices] of the [haz_code] column. *)
Definition haz_code_choices : list (string * string) :=
  [("VHF", "Very High Flood Susceptibility");
   ("HF", "High Flood Susceptibility");
   ("MF", "Moderate Flood Susceptibility");
   ("LF", "Low Flood Susceptibility")].

(** The dictionary literal inside [save]. *)
Definition haz_desc_map : list (string * string) :=
  [("VHF", "Very High Flood Susceptibility");
   ("HF", "High Flood Susceptibility");
   ("MF", "Moderate Flood Susceptibility");
   ("LF", "Low Flood Susceptibility")].

(** [d.get(key, default)] *)
Fixpoint dict_get_default (d : list (string * string)) (key default : string)
    : string :=
  match d with
  | [] => default
  | (k, v) :: rest => if String.eqb k key then v else dict_get_default rest key default
  end.

(** [FloodSusceptibility.save]: the instance as it is handed to
    [super().save()]. *)
Definition save (self : FloodSusceptibility) : FloodSusceptibility :=
  mkFloodSusceptibility (lgu self) (psgc_lgu self) (haz_class self) (haz_code self)
    (dict_get_default haz_desc_map (haz_code self) "Unknown")
    (haz_area_ha self) (geometry self).

End flood_susceptibility.

(* ===================================================================== *)
(** ** Relations between the database before and after a run *)
(* ===================================================================== *)

Module Frames.
Import Store.

(** What a row is apart from its two archival columns. *)
Definition skeleton {B} (r : Row B) : Z * B * datetime :=
  (pk r, fields r, timestamp r).

(** No row was added, removed or moved, and no primary key, business column
    or timestamp was written. *)
Definition same_rows (d d' : DB) : Prop :=
  forall m, map skeleton (table m d') = map skeleton (table m d).

(** Every row whose [is_archived] is [flag] is still in its place, with all
    its columns. *)
Definition untouched_where (flag : bool) (d d' : DB) : Prop :=
  forall m i (r : Row (fields_of m)),
    nth_error (table m d) i = Some r ->
    is_archived r = flag ->
    nth_error (table m d') i = Some r.

(** A step that reads nothing from standard input. *)
Definition keeps_stdin {A} (c : M A) : Prop :=
  forall w, stdin (snd (c w)) = stdin w.

(** A step whose exceptions all satisfy [P]. *)
Definition raises_only (P : Exc -> Prop) {A} (c : M A) : Prop :=
  forall w e w', c w = (inl e, w') -> P e.

(** Not a [CommandError]. *)
Definition not_command_error (e : Exc) : Prop :=
  forall msg, e <> CommandError msg.

(** A step that, when it raises, leaves the database as it found it. *)
Definition fails_clean {A} (c : M A) : Prop :=
  forall w e w', c w = (inl e, w') -> db w' = db w.

(** A database in which nothing has been archived yet. *)
Definition all_active (d : DB) : Prop :=
  forall m (r : Row (fields_of m)),
    In r (table m d) -> is_archived r = false /\ archived_at r = None.

End Frames.

(* ===================================================================== *)
(** ** Properties *)
(* ===================================================================== *)

Import Store Terms MNotations.

(** *** Tables *)

Lemma table_set_table (m : Model) (rows : list (Row (fields_of m))) (d : DB) :
  table m (set_table m rows d) = rows.
Proof. destruct m; reflexivity. Qed.

Lemma table_set_table_other (m m' : Model) (rows : list (Row (fields_of m'))) (d : DB) :
  m <> m' -> table m (set_table m' rows d) = table m d.
Proof. destruct m, m'; intros H; try reflexivity; congruence. Qed.

Lemma table_map_tables (sel : Model -> bool) (f : forall B : Type, Row B -> Row B)
    (m : Model) (d : DB) :
  table m (map_tables sel f d)
  = if sel m then map (f _) (table m d) else table m d.
Proof. destruct m; reflexivity. Qed.

Lemma DB_ext (d d' : DB) :
  (forall m, table m d = table m d') -> d = d'.
Proof.
  intros H. destruct d, d'.
  pose proof (H AssessmentRecord). pose proof (H ReportRecord).
  pose proof (H CertificateRecord). pose proof (H FloodRecordActivity).
  pose proof (H UserLog). simpl in *. congruence.
Qed.

(** *** Lookups and the two row transitions *)

Lemma matches_old_unarchived {B} (cutoff : datetime) (r : Row B) :
  matches [timestamp__lt cutoff; is_archived_eq false] r = qualifies cutoff r.
Proof.
  unfold matches, qualifies. simpl.
  destruct (timestamp r <? cutoff), (is_archived r); reflexivity.
Qed.

Lemma matches_window {B} (date_from date_to : option datetime) (r : Row B) :
  matches (window_lookups date_from date_to) r = in_window date_from date_to r.
Proof.
  unfold matches, window_lookups, in_window.
  rewrite !forallb_app. simpl.
  destruct (is_archived r), date_from, date_to; simpl;
    rewrite ?andb_true_r; reflexivity.
Qed.

Lemma update_rows_archive {B} (cutoff now : datetime) (rows : list (Row B)) :
  update_rows [timestamp__lt cutoff; is_archived_eq false] true (Some now) rows
  = map (archive_row cutoff now) rows.
Proof.
  unfold update_rows. apply map_ext. intros r.
  rewrite matches_old_unarchived. reflexivity.
Qed.

Lemma update_rows_restore {B} (date_from date_to : option datetime)
    (rows : list (Row B)) :
  update_rows (window_lookups date_from date_to) false None rows
  = map (restore_row date_from date_to) rows.
Proof.
  unfold update_rows. apply map_ext. intros r.
  rewrite matches_window. reflexivity.
Qed.

Lemma lookups_get_queryset (m : Model) (date_from date_to : option datetime) :
  restore_archived_records._get_queryset m date_from date_to
  = mkQS m (window_lookups date_from date_to).
Proof. destruct date_from, date_to; reflexivity. Qed.

Lemma count_rows_zero_update {B} (ls : list Lookup) (b : bool)
    (a : option datetime) (rows : list (Row B)) :
  count_rows ls rows = O -> update_rows ls b a rows = rows.
Proof.
  unfold count_rows, update_rows.
  induction rows as [|r rows IH]; simpl; [reflexivity|].
  destruct (matches ls r); simpl; [discriminate|].
  intros H. rewrite IH by exact H. reflexivity.
Qed.

(** Whatever a bulk update leaves in a table, complete or abandoned, is an
    old row or an old row with the two columns assigned. *)
Lemma In_update_rows {B} (ls : list Lookup) (b : bool) (a : option datetime)
    (rows : list (Row B)) (r' : Row B) :
  In r' (update_rows ls b a rows) ->
  In r' rows \/ exists r, In r rows /\ r' = assign b a r.
Proof.
  unfold update_rows. rewrite in_map_iff. intros [r [E Hin]].
  destruct (matches ls r); subst; eauto.
Qed.

Lemma In_update_rows_upto {B} (n : nat) (ls : list Lookup) (b : bool)
    (a : option datetime) (rows : list (Row B)) (r' : Row B) :
  In r' (update_rows_upto n ls b a rows) ->
  In r' rows \/ exists r, In r rows /\ r' = assign b a r.
Proof.
  revert n. induction rows as [|r rows IH]; intros n H.
  - destruct n; simpl in H; contradiction.
  - destruct n as [|n]; simpl in H; [left; exact H|].
    destruct (matches ls r); simpl in H; destruct H as [H|H].
    + right. exists r. split; [left; reflexivity | symmetry; exact H].
    + destruct (IH _ H) as [?|[r0 [? ?]]]; [left; right; assumption|].
      right. exists r0. split; [right; assumption | assumption].
    + left. left. exact H.
    + destruct (IH _ H) as [?|[r0 [? ?]]]; [left; right; assumption|].
      right. exists r0. split; [right; assumption | assumption].
Qed.

(** *** Stability of command steps

    Both commands are sequences of a few primitive steps.  For a reflexive
    and transitive relation on databases it is enough to look at the steps
    that write to the store. *)

Create HintDb stable discriminated.

Section Stability.

Variable R : DB -> DB -> Prop.
Hypothesis R_refl : forall d, R d d.
Hypothesis R_trans : forall a b c, R a b -> R b c -> R a c.

Lemma stable_ret {A} (a : A) : stable R (ret a).
Proof. intros w. apply R_refl. Qed.

Lemma stable_raise {A} (e : Exc) : stable R (@raise A e).
Proof. intros w. apply R_refl. Qed.

Lemma stable_write (l : Line) : stable R (write l).
Proof. intros w. apply R_refl. Qed.

Lemma stable_input (prompt : string) : stable R (input prompt).
Proof. intros w. unfold input. destruct (stdin w); apply R_refl. Qed.

Lemma stable_getitem (d : dict) (key : string) : stable R (getitem d key).
Proof. intros w. unfold getitem. destruct (dict_get key d); apply R_refl. Qed.

Lemma stable_timezone_now (clock : nat -> datetime) : stable R (timezone_now clock).
Proof. intros w. apply R_refl. Qed.

Lemma stable_qs_count (qs : QuerySet) : stable R (qs_count qs).
Proof. intros w. apply R_refl. Qed.

Lemma stable_minus_days (t : datetime) (d : Z) : stable R (minus_days t d).
Proof.
  intros w. unfold minus_days.
  destruct ((d <? -999999999) || (999999999 <? d)); [apply R_refl|].
  destruct ((t - d * us_per_day <? datetime_min)
            || (datetime_max <? t - d * us_per_day)); apply R_refl.
Qed.

Lemma stable_bind {A B} (c : M A) (k : A -> M B) :
  stable R c -> (forall a, stable R (k a)) -> stable R (bind c k).
Proof.
  intros Hc Hk w. unfold bind.
  specialize (Hc w). destruct (c w) as [[e|a] w1]; simpl in *; [exact Hc|].
  eapply R_trans; [exact Hc | apply Hk].
Qed.

Lemma stable_atomic {A} (body : M A) :
  stable R body -> stable R (atomic body).
Proof.
  intros Hb w. unfold atomic.
  specialize (Hb w). destruct (body w) as [[e|a] w1]; simpl in *.
  - apply R_refl.
  - exact Hb.
Qed.

End Stability.

#[local] Hint Resolve stable_ret stable_raise stable_write stable_input
  stable_getitem stable_timezone_now stable_qs_count stable_minus_days
  stable_atomic : stable.

(** Splits a command into its steps: binds, conditionals and matches on
    optional values are opened, leaves are closed from the hint database. *)
Ltac stable_steps :=
  repeat first
    [ solve [auto with stable]
    | apply stable_bind; [assumption | | intros ?]
    | match goal with
      | |- stable _ (if ?c then _ else _) => destruct c
      | |- stable _ (match ?o with Some _ => _ | None => _ end) => destruct o
      end ].

(** *** Steps that only read the store *)

Section Readers.

Variable R : DB -> DB -> Prop.
Hypothesis R_refl : forall d, R d d.
Hypothesis R_trans : forall a b c, R a b -> R b c -> R a c.

Lemma archive_count_reads (cutoff : datetime) (include_logs : bool) :
  stable R (archive_old_records._count_records cutoff include_logs).
Proof. unfold archive_old_records._count_records. stable_steps. Qed.

Lemma archive_summary_reads (counts : dict) (cutoff : datetime) (years : Z) :
  stable R (archive_old_records._display_summary counts cutoff years).
Proof. unfold archive_old_records._display_summary. stable_steps. Qed.

Lemma archive_confirm_reads (counts : dict) :
  stable R (archive_old_records._confirm_archiving counts).
Proof. unfold archive_old_records._confirm_archiving. stable_steps. Qed.

Lemma archive_results_reads (counts : dict) :
  stable R (archive_old_records._display_results counts).
Proof. unfold archive_old_records._display_results. stable_steps. Qed.

Lemma restore_count_reads (restore_all : bool) (record_type : option string)
    (date_from date_to : option datetime) :
  stable R (restore_archived_records._count_records restore_all record_type
              date_from date_to).
Proof. unfold restore_archived_records._count_records. stable_steps. Qed.

Lemma restore_summary_reads (counts : dict) :
  stable R (restore_archived_records._display_summary counts).
Proof. unfold restore_archived_records._display_summary. stable_steps. Qed.

Lemma restore_confirm_reads (counts : dict) :
  stable R (restore_archived_records._confirm_restoration counts).
Proof. unfold restore_archived_records._confirm_restoration. stable_steps. Qed.

Lemma restore_results_reads (counts : dict) :
  stable R (restore_archived_records._display_results counts).
Proof. unfold restore_archived_records._display_results. stable_steps. Qed.

Lemma parse_date_reads (strptime : string -> option datetime)
    (arg : option string) (msg : string) :
  stable R (restore_archived_records.parse_date strptime arg msg).
Proof.
  unfold restore_archived_records.parse_date.
  destruct arg as [s|]; [|stable_steps].
  destruct (truthy (Some s)); [|stable_steps].
  destruct (strptime s); stable_steps.
Qed.

(** The part of [handle] in front of the updating step, for a relation the
    updating step itself is stable for. *)
Lemma archive_handle_stable clock fault (options : archive_old_records.Options) :
  (forall cutoff include_logs,
      stable R (archive_old_records._archive_records clock fault cutoff include_logs)) ->
  stable R (archive_old_records.handle clock fault options).
Proof.
  intros Hupd. unfold archive_old_records.handle.
  destruct (negb (archive_old_records.dry_run options)
            && negb (archive_old_records.execute options)); [stable_steps|].
  destruct (archive_old_records.dry_run options
            && archive_old_records.execute options); [stable_steps|].
  destruct (archive_old_records.years options <? 1); [stable_steps|].
  apply stable_bind; [assumption | stable_steps | intros t].
  apply stable_bind; [assumption | stable_steps | intros c].
  apply stable_bind; [assumption | stable_steps | intros _].
  apply stable_bind; [assumption | apply archive_count_reads | intros counts].
  apply stable_bind; [assumption | apply archive_summary_reads | intros _].
  destruct (archive_old_records.dry_run options); [stable_steps|].
  apply stable_bind; [assumption | apply archive_confirm_reads | intros ok].
  destruct (negb ok); [stable_steps|].
  apply stable_bind; [assumption | stable_steps | intros _].
  apply stable_bind; [assumption | apply Hupd | intros counts'].
  apply archive_results_reads.
Qed.

Lemma restore_handle_stable fault strptime
    (options : restore_archived_records.Options) :
  (forall restore_all record_type date_from date_to,
      stable R (restore_archived_records._restore_records fault restore_all
                  record_type date_from date_to)) ->
  stable R (restore_archived_records.handle fault strptime options).
Proof.
  intros Hupd. unfold restore_archived_records.handle.
  destruct (negb (restore_archived_records.dry_run options)
            && negb (restore_archived_records.execute options)); [stable_steps|].
  destruct (restore_archived_records.dry_run options
            && restore_archived_records.execute options); [stable_steps|].
  destruct (negb (restore_archived_records.all options)
            && negb (truthy (restore_archived_records.type options))
            && negb (truthy (restore_archived_records.date_from options)));
    [stable_steps|].
  apply stable_bind; [assumption | apply parse_date_reads | intros a].
  apply stable_bind; [assumption | apply parse_date_reads | intros b].
  apply stable_bind; [assumption | stable_steps | intros _].
  apply stable_bind; [assumption | apply restore_count_reads | intros counts].
  apply stable_bind; [assumption | apply restore_summary_reads | intros _].
  destruct (restore_archived_records.dry_run options); [stable_steps|].
  apply stable_bind; [assumption | apply restore_confirm_reads | intros ok].
  destruct (negb ok); [stable_steps|].
  apply stable_bind; [assumption | stable_steps | intros _].
  apply stable_bind; [assumption | apply Hupd | intros counts'].
  apply restore_results_reads.
Qed.

End Readers.

(** C4.  A dry run of either command, on any command line, clock, store
    behaviour, console input and database, ends with every table exactly as
    it found it: no row is added, removed or changed in any column. *)
Theorem dry_run_never_mutates :
  (forall clock fault (options : archive_old_records.Options) (w : World),
      archive_old_records.dry_run options = true ->
      db (snd (archive_old_records.handle clock fault options w)) = db w)
  /\
  (forall fault strptime (options : restore_archived_records.Options) (w : World),
      restore_archived_records.dry_run options = true ->
      db (snd (restore_archived_records.handle fault strptime options w)) = db w).
Proof.
  assert (Hr : forall d : DB, d = d) by reflexivity.
  assert (Ht : forall a b c : DB, a = b -> b = c -> a = c) by (intros; congruence).
  split.
  - intros clock fault [y d e il] w Hd. simpl in Hd. subst d.
    symmetry. revert w.
    change (stable eq (archive_old_records.handle clock fault
                         (archive_old_records.mkOptions y true e il))).
    unfold archive_old_records.handle. simpl.
    destruct e; simpl; [stable_steps|].
    destruct (y <? 1); [stable_steps|].
    apply stable_bind; [assumption | stable_steps | intros t].
    apply stable_bind; [assumption | stable_steps | intros c].
    apply stable_bind; [assumption | stable_steps | intros _].
    apply stable_bind;
      [assumption | apply archive_count_reads; assumption | intros counts].
    apply stable_bind;
      [assumption | apply archive_summary_reads; assumption | intros _].
    stable_steps.
  - intros fault strptime [al ty df dt d e] w Hd. simpl in Hd. subst d.
    symmetry. revert w.
    change (stable eq (restore_archived_records.handle fault strptime
                         (restore_archived_records.mkOptions al ty df dt true e))).
    unfold restore_archived_records.handle. simpl.
    destruct e; simpl; [stable_steps|].
    destruct (negb al && negb (truthy ty) && negb (truthy df)); [stable_steps|].
    apply stable_bind;
      [assumption | apply parse_date_reads; assumption | intros a].
    apply stable_bind;
      [assumption | apply parse_date_reads; assumption | intros b].
    apply stable_bind; [assumption | stable_steps | intros _].
    apply stable_bind;
      [assumption | apply restore_count_reads; assumption | intros counts].
    apply stable_bind;
      [assumption | apply restore_summary_reads; assumption | intros _].
    stable_steps.
Qed.

Lemma dry_run_never_mutates_witness :
  db (snd (archive_old_records.handle sample_clock no_fault
             (archive_old_records.mkOptions 2 true false true)
             (sample_world sample_db ["yes"]))) = sample_db
  /\ db (snd (restore_archived_records.handle no_fault sample_strptime
                (restore_archived_records.mkOptions true None None None true false)
                (sample_world archived_db ["yes"]))) = archived_db.
Proof.
  split.
  - apply (proj1 dry_run_never_mutates). reflexivity.
  - apply (proj2 dry_run_never_mutates). reflexivity.
Defined.

(** *** The pairing invariant *)

Lemma Model_eq_dec (a b : Model) : {a = b} + {a <> b}.
Proof. decide equality. Defined.

Lemma keeps_pairing_refl (d : DB) : keeps_pairing d d.
Proof. intros H. exact H. Qed.

Lemma keeps_pairing_trans (a b c : DB) :
  keeps_pairing a b -> keeps_pairing b c -> keeps_pairing a c.
Proof. unfold keeps_pairing. auto. Qed.

Lemma paired_assign {B} (b : bool) (a : option datetime) (r : Row B) :
  paired (assign b a r)
  = Bool.eqb b (match a with Some _ => true | None => false end).
Proof. reflexivity. Qed.

(** One bulk update that writes a flag together with a matching
    [archived_at], complete or abandoned half-way, keeps the pairing. *)
Lemma qs_update_keeps_pairing fault (qs : QuerySet) (b : bool)
    (a : option datetime) :
  Bool.eqb b (match a with Some _ => true | None => false end) = true ->
  stable keeps_pairing (qs_update fault qs b a).
Proof.
  intros Hab w Hinv m r Hin.
  assert (Hold : forall m0 r0, In r0 (table m0 (db w)) -> paired r0 = true)
    by exact Hinv.
  unfold qs_update in Hin.
  destruct (Model_eq_dec m (model qs)) as [E|NE].
  - subst m.
    destruct (fault (model qs)) as [n|]; simpl in Hin;
      rewrite table_set_table in Hin;
      [apply In_update_rows_upto in Hin | apply In_update_rows in Hin];
      (destruct Hin as [Hin|[r0 [Hin ->]]];
       [eapply Hold; exact Hin | rewrite paired_assign; exact Hab]).
  - destruct (fault (model qs)) as [n|]; simpl in Hin;
      rewrite table_set_table_other in Hin by exact NE;
      eapply Hold; exact Hin.
Qed.

Lemma archive_records_keeps_pairing clock fault cutoff include_logs :
  stable keeps_pairing
    (archive_old_records._archive_records clock fault cutoff include_logs).
Proof.
  pose proof keeps_pairing_refl. pose proof keeps_pairing_trans.
  unfold archive_old_records._archive_records.
  apply stable_atomic; [assumption|].
  repeat first
    [ solve [auto with stable]
    | apply qs_update_keeps_pairing; reflexivity
    | apply stable_bind; [assumption | | intros ?]
    | match goal with
      | |- stable _ (if ?c then _ else _) => destruct c
      end ].
Qed.

Lemma restore_records_keeps_pairing fault restore_all record_type date_from date_to :
  stable keeps_pairing
    (restore_archived_records._restore_records fault restore_all record_type
       date_from date_to).
Proof.
  pose proof keeps_pairing_refl. pose proof keeps_pairing_trans.
  unfold restore_archived_records._restore_records.
  apply stable_atomic; [assumption|].
  repeat first
    [ solve [auto with stable]
    | apply qs_update_keeps_pairing; reflexivity
    | apply stable_bind; [assumption | | intros ?]
    | match goal with
      | |- stable _ (if ?c then _ else _) => destruct c
      end ].
Qed.

(** C6.  If, before a run of the archive or of the restore command, every
    row of every table has [archived_at] non-null exactly when [is_archived]
    is true, then so it is after the run, on every command line and
    whatever the clock, the console input and the store do: the archive
    update writes [is_archived=True] with [archived_at=now] and the restore
    update writes [is_archived=False] with [archived_at=None], each pair in
    one assignment. *)
Theorem pairing_invariant_preserved :
  (forall clock fault (options : archive_old_records.Options) (w : World),
      pairing_invariant (db w) ->
      pairing_invariant (db (snd (archive_old_records.handle clock fault options w))))
  /\
  (forall fault strptime (options : restore_archived_records.Options) (w : World),
      pairing_invariant (db w) ->
      pairing_invariant
        (db (snd (restore_archived_records.handle fault strptime options w))))
  /\
  (forall B (now : datetime) (r : Row B),
      paired (assign true (Some now) r) = true
      /\ paired (assign false None r) = true).
Proof.
  split; [|split].
  - intros clock fault options w.
    apply (archive_handle_stable keeps_pairing_refl keeps_pairing_trans).
    intros. apply archive_records_keeps_pairing.
  - intros fault strptime options w.
    apply (restore_handle_stable keeps_pairing_refl keeps_pairing_trans).
    intros. apply restore_records_keeps_pairing.
  - intros B now r. split; reflexivity.
Qed.

Lemma sample_db_paired : pairing_invariant sample_db.
Proof.
  intros m r H. destruct m; simpl in H;
    repeat (destruct H as [H|H]; [subst r; reflexivity|]); contradiction.
Qed.

Lemma pairing_invariant_preserved_witness :
  pairing_invariant sample_db
  /\ pairing_invariant
       (db (snd (archive_old_records.handle sample_clock no_fault
                   (archive_old_records.mkOptions 2 false true true)
                   (sample_world sample_db ["yes"])))).
Proof.
  split.
  - exact sample_db_paired.
  - apply (proj1 pairing_invariant_preserved). exact sample_db_paired.
Defined.

(** *** What each step computes *)

Lemma archive_count_run (cutoff : datetime) (include_logs : bool) (w : World) :
  archive_old_records._count_records cutoff include_logs w
  = (inr (archive_tally cutoff include_logs (db w)), w).
Proof. destruct include_logs; reflexivity. Qed.

Lemma restore_count_run (restore_all : bool) (record_type : option string)
    (date_from date_to : option datetime) (w : World) :
  restore_archived_records._count_records restore_all record_type
    date_from date_to w
  = (inr (restore_tally restore_all record_type date_from date_to (db w)), w).
Proof.
  unfold restore_archived_records._count_records, restore_tally, selected.
  rewrite !lookups_get_queryset. simpl kind_name.
  destruct (restore_all || str_eq record_type "assessments"),
           (restore_all || str_eq record_type "reports"),
           (restore_all || str_eq record_type "certificates"),
           (restore_all || str_eq record_type "flood_activities"),
           (restore_all || str_eq record_type "user_logs"); reflexivity.
Qed.

Lemma bind_run {A B} (c : M A) (k : A -> M B) (w w1 : World) (a : A) :
  c w = (inr a, w1) -> bind c k w = k a w1.
Proof. intros H. unfold bind. rewrite H. reflexivity. Qed.

Lemma bind_err {A B} (c : M A) (k : A -> M B) (w w1 : World) (e : Exc) :
  c w = (inl e, w1) -> bind c k w = (inl e, w1).
Proof. intros H. unfold bind. rewrite H. reflexivity. Qed.

Lemma archive_summary_run (n_a n_r n_c n_f n_l : nat) (cutoff : datetime)
    (years : Z) (w : World) :
  archive_old_records._display_summary (tally n_a n_r n_c n_f n_l) cutoff years w
  = (inr tt, written (summary_lines n_a n_r n_c n_f n_l ++ [Years years]) w).
Proof. reflexivity. Qed.

Lemma restore_summary_run (n_a n_r n_c n_f n_l : nat) (w : World) :
  restore_archived_records._display_summary (tally n_a n_r n_c n_f n_l) w
  = (inr tt, written (summary_lines n_a n_r n_c n_f n_l
                        ++ [Text "Records to restore:"]) w).
Proof. reflexivity. Qed.

Lemma tally_total (n_a n_r n_c n_f n_l : nat) :
  dict_get "total" (tally n_a n_r n_c n_f n_l)
  = Some (n_a + (n_r + (n_c + (n_f + (n_l + 0)))))%nat.
Proof. reflexivity. Qed.

(** The confirmation step, by cases on the previewed total and on what
    standard input holds. *)
Lemma archive_confirm_run (counts : dict) (total : nat) (w : World) :
  dict_get "total" counts = Some total ->
  archive_old_records._confirm_archiving counts w
  = if Nat.eqb total O
    then (inr false, written [Text "No records to archive."] w)
    else match stdin w with
         | [] => (inl EOFError,
                  mkWorld (db w) (ticks w) []
                    (Text confirm_prompt
                       :: Count "You are about to archive records." total
                       :: stdout w))
         | response :: rest =>
             (inr (String.eqb (lower response) "yes"),
              mkWorld (db w) (ticks w) rest
                (Text confirm_prompt
                   :: Count "You are about to archive records." total
                   :: stdout w))
         end.
Proof.
  intros H. unfold archive_old_records._confirm_archiving, getitem, bind.
  rewrite H. simpl. destruct (Nat.eqb total O); [reflexivity|].
  unfold input. simpl. destruct (stdin w); reflexivity.
Qed.

Lemma restore_confirm_run (counts : dict) (total : nat) (w : World) :
  dict_get "total" counts = Some total ->
  restore_archived_records._confirm_restoration counts w
  = if Nat.eqb total O
    then (inr false, written [Text "No records to restore."] w)
    else match stdin w with
         | [] => (inl EOFError,
                  mkWorld (db w) (ticks w) []
                    (Text confirm_prompt
                       :: Count "You are about to restore archived records." total
                       :: stdout w))
         | response :: rest =>
             (inr (String.eqb (lower response) "yes"),
              mkWorld (db w) (ticks w) rest
                (Text confirm_prompt
                   :: Count "You are about to restore archived records." total
                   :: stdout w))
         end.
Proof.
  intros H. unfold restore_archived_records._confirm_restoration, getitem, bind.
  rewrite H. simpl. destruct (Nat.eqb total O); [reflexivity|].
  unfold input. simpl. destruct (stdin w); reflexivity.
Qed.

(** The updating steps on a store that does not fail. *)
Lemma archive_records_run clock fault (cutoff : datetime) (include_logs : bool)
    (w : World) :
  reliable fault ->
  archive_old_records._archive_records clock fault cutoff include_logs w
  = (inr (archive_tally cutoff include_logs (db w)),
     mkWorld (archive_db cutoff (clock (ticks w)) include_logs (db w))
             (S (ticks w)) (stdin w)
             (archived_lines cutoff include_logs (db w) ++ stdout w)).
Proof.
  intros Hf.
  unfold archive_old_records._archive_records, atomic, bind, qs_update,
    timezone_now, archive_db, map_tables, archive_tally, archived_lines.
  destruct include_logs; repeat (simpl; rewrite Hf); simpl;
    rewrite !update_rows_archive; reflexivity.
Qed.

Lemma restore_records_run fault (restore_all : bool) (record_type : option string)
    (date_from date_to : option datetime) (w : World) :
  reliable fault ->
  exists counts out,
    restore_archived_records._restore_records fault restore_all record_type
      date_from date_to w
    = (inr counts,
       mkWorld (restore_db restore_all record_type date_from date_to (db w))
               (ticks w) (stdin w) out)
    /\ dict_get "total" counts <> None.
Proof.
  intros Hf.
  unfold restore_archived_records._restore_records, atomic, bind, qs_update,
    restore_db, map_tables, selected.
  rewrite !lookups_get_queryset. simpl kind_name.
  destruct (restore_all || str_eq record_type "assessments"),
           (restore_all || str_eq record_type "reports"),
           (restore_all || str_eq record_type "certificates"),
           (restore_all || str_eq record_type "flood_activities"),
           (restore_all || str_eq record_type "user_logs");
    simpl; rewrite ?Hf; simpl; rewrite ?update_rows_restore;
    destruct w as [[ta tr tc tf tl] tk si so]; simpl;
    eexists; eexists; (split; [reflexivity | discriminate]).
Qed.

(** *** A bulk update that matches a row changes the table *)

Lemma update_rows_changes {B} (ls : list Lookup) (b : bool) (a : option datetime)
    (rows : list (Row B)) :
  (forall r : Row B, matches ls r = true -> is_archived r <> b) ->
  (0 < count_rows ls rows)%nat ->
  update_rows ls b a rows <> rows.
Proof.
  intros Hflip. unfold count_rows, update_rows.
  induction rows as [|r rows IH]; simpl; [lia|].
  destruct (matches ls r) eqn:E; simpl; intros Hpos Heq.
  - injection Heq as Hr _. apply (Hflip r E).
    rewrite <- Hr. reflexivity.
  - injection Heq as Hrows. exact (IH Hpos Hrows).
Qed.

Lemma old_unarchived_flips {B} (cutoff : datetime) (r : Row B) :
  matches [timestamp__lt cutoff; is_archived_eq false] r = true ->
  is_archived r <> true.
Proof.
  rewrite matches_old_unarchived. unfold qualifies.
  destruct (is_archived r); [rewrite andb_false_r|]; discriminate.
Qed.

Lemma window_flips {B} (date_from date_to : option datetime) (r : Row B) :
  matches (window_lookups date_from date_to) r = true ->
  is_archived r <> false.
Proof.
  rewrite matches_window. unfold in_window.
  destruct (is_archived r); simpl; discriminate.
Qed.

Lemma archive_db_changes (cutoff now : datetime) (include_logs : bool) (d : DB)
    (total : nat) :
  dict_get "total" (archive_tally cutoff include_logs d) = Some total ->
  (0 < total)%nat ->
  archive_db cutoff now include_logs d <> d.
Proof.
  unfold archive_tally. rewrite tally_total. intros [= <-] Hpos Heq.
  pose proof (f_equal assessments Heq) as Ha.
  pose proof (f_equal reports Heq) as Hr.
  pose proof (f_equal certificates Heq) as Hc.
  pose proof (f_equal flood_activities Heq) as Hf.
  pose proof (f_equal user_logs Heq) as Hl.
  unfold archive_db, map_tables in Ha, Hr, Hc, Hf, Hl. simpl in Ha, Hr, Hc, Hf, Hl.
  pose proof (@update_rows_changes _ _ true (Some now) (assessments d)
                (@old_unarchived_flips _ cutoff)) as Ca.
  pose proof (@update_rows_changes _ _ true (Some now) (reports d)
                (@old_unarchived_flips _ cutoff)) as Cr.
  pose proof (@update_rows_changes _ _ true (Some now) (certificates d)
                (@old_unarchived_flips _ cutoff)) as Cc.
  pose proof (@update_rows_changes _ _ true (Some now) (flood_activities d)
                (@old_unarchived_flips _ cutoff)) as Cf.
  pose proof (@update_rows_changes _ _ true (Some now) (user_logs d)
                (@old_unarchived_flips _ cutoff)) as Cl.
  rewrite update_rows_archive in Ca. rewrite update_rows_archive in Cr.
  rewrite update_rows_archive in Cc. rewrite update_rows_archive in Cf.
  rewrite update_rows_archive in Cl.
  destruct include_logs;
    (destruct (count_rows _ (assessments d)); [|apply Ca; [lia|exact Ha]]);
    (destruct (count_rows _ (reports d)); [|apply Cr; [lia|exact Hr]]);
    (destruct (count_rows _ (certificates d)); [|apply Cc; [lia|exact Hc]]);
    (destruct (count_rows _ (flood_activities d)); [|apply Cf; [lia|exact Hf]]).
  - destruct (count_rows _ (user_logs d)); [lia|apply Cl; [lia|exact Hl]].
  - lia.
Qed.

Lemma restore_db_changes (restore_all : bool) (record_type : option string)
    (date_from date_to : option datetime) (d : DB) (total : nat) :
  dict_get "total" (restore_tally restore_all record_type date_from date_to d)
  = Some total ->
  (0 < total)%nat ->
  restore_db restore_all record_type date_from date_to d <> d.
Proof.
  unfold restore_tally. rewrite tally_total. intros [= <-] Hpos Heq.
  pose proof (f_equal assessments Heq) as Ha.
  pose proof (f_equal reports Heq) as Hr.
  pose proof (f_equal certificates Heq) as Hc.
  pose proof (f_equal flood_activities Heq) as Hf.
  pose proof (f_equal user_logs Heq) as Hl.
  unfold restore_db, map_tables in Ha, Hr, Hc, Hf, Hl. simpl in Ha, Hr, Hc, Hf, Hl.
  pose proof (@update_rows_changes _ _ false None (assessments d)
                (@window_flips _ date_from date_to)) as Ca.
  pose proof (@update_rows_changes _ _ false None (reports d)
                (@window_flips _ date_from date_to)) as Cr.
  pose proof (@update_rows_changes _ _ false None (certificates d)
                (@window_flips _ date_from date_to)) as Cc.
  pose proof (@update_rows_changes _ _ false None (flood_activities d)
                (@window_flips _ date_from date_to)) as Cf.
  pose proof (@update_rows_changes _ _ false None (user_logs d)
                (@window_flips _ date_from date_to)) as Cl.
  rewrite update_rows_restore in Ca. rewrite update_rows_restore in Cr.
  rewrite update_rows_restore in Cc. rewrite update_rows_restore in Cf.
  rewrite update_rows_restore in Cl.
  (destruct (selected restore_all record_type AssessmentRecord);
    [destruct (count_rows _ (assessments d)); [|apply Ca; [lia|exact Ha]]|]);
    (destruct (selected restore_all record_type ReportRecord);
     [destruct (count_rows _ (reports d)); [|apply Cr; [lia|exact Hr]]|]);
    (destruct (selected restore_all record_type CertificateRecord);
     [destruct (count_rows _ (certificates d)); [|apply Cc; [lia|exact Hc]]|]);
    (destruct (selected restore_all record_type FloodRecordActivity);
     [destruct (count_rows _ (flood_activities d)); [|apply Cf; [lia|exact Hf]]|]);
    (destruct (selected restore_all record_type UserLog);
     [destruct (count_rows _ (user_logs d)); [|apply Cl; [lia|exact Hl]]|]);
    simpl in Hpos; lia.
Qed.

(** *** The archive command in execute mode *)

Lemma minus_days_run (t y : Z) (w : World) :
  1 <= y -> t <= datetime_max -> datetime_min <= cutoff_of t y ->
  minus_days t (365 * y) w = (inr (cutoff_of t y), w).
Proof.
  unfold minus_days, cutoff_of, datetime_max, datetime_min, us_per_day.
  intros Hy Ht Hc.
  replace ((365 * y <? -999999999) || (999999999 <? 365 * y)) with false
    by (symmetry; apply orb_false_iff; split; apply Z.ltb_ge; lia).
  replace ((t - 365 * y * 86400000000 <? 0)
           || (3652059 * 86400000000 - 1 <? t - 365 * y * 86400000000))
    with false
    by (symmetry; apply orb_false_iff; split; apply Z.ltb_ge; lia).
  reflexivity.
Qed.

(** Up to the confirmation step: validation passes, the cutoff is computed
    from the first clock reading, the rows are counted and the summary is
    written; the database is not touched. *)
Lemma archive_handle_execute clock fault (y : Z) (il : bool) (w : World) :
  1 <= y -> clock (ticks w) <= datetime_max ->
  datetime_min <= cutoff_of (clock (ticks w)) y ->
  exists head,
    archive_old_records.handle clock fault
      (archive_old_records.mkOptions y false true il) w
    = bind (archive_old_records._confirm_archiving
              (archive_tally (cutoff_of (clock (ticks w)) y) il (db w)))
        (fun confirmed =>
           if negb confirmed then write (Text "Archiving cancelled.")
           else
             bind (write (Text "Archiving records..."))
               (fun _ =>
                  bind (archive_old_records._archive_records clock fault
                          (cutoff_of (clock (ticks w)) y) il)
                    (fun archived_counts =>
                       archive_old_records._display_results archived_counts)))
        (mkWorld (db w) (S (ticks w)) (stdin w) (head ++ stdout w)).
Proof.
  intros Hy Ht Hc. unfold archive_old_records.handle. simpl.
  replace (y <? 1) with false by (symmetry; apply Z.ltb_ge; lia).
  unfold bind at 1. simpl.
  unfold bind at 1. rewrite (minus_days_run _ Hy Ht Hc).
  unfold bind at 1. simpl.
  unfold bind at 1. rewrite archive_count_run. simpl db.
  unfold bind at 1. unfold archive_tally at 1. rewrite archive_summary_run.
  unfold written. simpl.
  eexists (_ :: _ :: _ :: _ :: _ :: _ :: _ :: _ :: _ :: nil). simpl.
  reflexivity.
Qed.

Lemma archive_tally_total (cutoff : datetime) (il : bool) (d : DB) :
  exists total, dict_get "total" (archive_tally cutoff il d) = Some total.
Proof. unfold archive_tally. rewrite tally_total. eexists. reflexivity. Qed.

Lemma archive_previewed_total (cutoff : datetime) (il : bool) (w : World) :
  previewed_total (archive_old_records._count_records cutoff il) w
  = dict_get "total" (archive_tally cutoff il (db w)).
Proof. unfold previewed_total. rewrite archive_count_run. reflexivity. Qed.

Lemma display_results_run (counts : dict) (w : World) :
  dict_get "total" counts <> None ->
  exists out,
    archive_old_records._display_results counts w
    = (inr tt, mkWorld (db w) (ticks w) (stdin w) out).
Proof.
  intros H. unfold archive_old_records._display_results, bind, getitem.
  destruct (dict_get "total" counts); [|congruence].
  eexists. reflexivity.
Qed.

(** The three ways the run ends once the preview is done. *)
Lemma archive_nothing_to_do clock fault (y : Z) (il : bool) (w : World) :
  1 <= y -> clock (ticks w) <= datetime_max ->
  datetime_min <= cutoff_of (clock (ticks w)) y ->
  previewed_total
    (archive_old_records._count_records (cutoff_of (clock (ticks w)) y) il) w
  = Some O ->
  exists out,
    archive_old_records.handle clock fault
      (archive_old_records.mkOptions y false true il) w
    = (inr tt,
       mkWorld (db w) (S (ticks w)) (stdin w)
         (Text "Archiving cancelled." :: Text "No records to archive." :: out)).
Proof.
  intros Hy Ht Hc Htot. rewrite archive_previewed_total in Htot.
  destruct (archive_handle_execute clock fault il w Hy Ht Hc) as [head ->].
  unfold bind at 1. rewrite (@archive_confirm_run _ _ _ Htot). simpl.
  eexists. reflexivity.
Qed.

Lemma archive_declined clock fault (y : Z) (il : bool) (w : World)
    (total : nat) (response : string) (rest : list string) :
  1 <= y -> clock (ticks w) <= datetime_max ->
  datetime_min <= cutoff_of (clock (ticks w)) y ->
  previewed_total
    (archive_old_records._count_records (cutoff_of (clock (ticks w)) y) il) w
  = Some total ->
  (0 < total)%nat ->
  stdin w = response :: rest ->
  lower response <> "yes" ->
  exists out,
    archive_old_records.handle clock fault
      (archive_old_records.mkOptions y false true il) w
    = (inr tt,
       mkWorld (db w) (S (ticks w)) rest (Text "Archiving cancelled." :: out)).
Proof.
  intros Hy Ht Hc Htot Hpos Hin Hno. rewrite archive_previewed_total in Htot.
  destruct (archive_handle_execute clock fault il w Hy Ht Hc) as [head ->].
  unfold bind at 1. rewrite (@archive_confirm_run _ _ _ Htot).
  destruct total as [|n]; [lia|]. simpl. rewrite Hin.
  destruct (String.eqb_spec (lower response) "yes") as [E|_]; [contradiction|].
  simpl. eexists. reflexivity.
Qed.

Lemma archive_accepted clock fault (y : Z) (il : bool) (w : World)
    (total : nat) (response : string) (rest : list string) :
  reliable fault ->
  1 <= y -> clock (ticks w) <= datetime_max ->
  datetime_min <= cutoff_of (clock (ticks w)) y ->
  previewed_total
    (archive_old_records._count_records (cutoff_of (clock (ticks w)) y) il) w
  = Some total ->
  (0 < total)%nat ->
  stdin w = response :: rest ->
  lower response = "yes" ->
  exists out,
    archive_old_records.handle clock fault
      (archive_old_records.mkOptions y false true il) w
    = (inr tt,
       mkWorld (archive_db (cutoff_of (clock (ticks w)) y)
                  (clock (S (ticks w))) il (db w))
               (S (S (ticks w))) rest out).
Proof.
  intros Hf Hy Ht Hc Htot Hpos Hin Hyes. rewrite archive_previewed_total in Htot.
  destruct (archive_handle_execute clock fault il w Hy Ht Hc) as [head ->].
  unfold bind at 1. rewrite (@archive_confirm_run _ _ _ Htot).
  destruct total as [|n]; [lia|]. simpl. rewrite Hin, Hyes. simpl.
  unfold bind at 1. simpl.
  match goal with
  | |- context [bind (archive_old_records._archive_records ?c ?f ?k ?i) _ ?W] =>
      rewrite (@bind_run _ _ _ _ _ _ _ (@archive_records_run c f k i W Hf))
  end.
  simpl.
  match goal with
  | |- context [archive_old_records._display_results ?cs ?W] =>
      destruct (@display_results_run cs W) as [out' ->];
      [destruct (archive_tally_total (cutoff_of (clock (ticks w)) y) il (db w))
         as [t0 Ht0]; rewrite Ht0; discriminate|]
  end.
  eexists. reflexivity.
Qed.

(** *** The restore command in execute mode *)

Lemma parse_date_run strptime (arg : option string) (msg : string)
    (a : option datetime) (w : World) :
  parsed strptime arg = Some a ->
  restore_archived_records.parse_date strptime arg msg w = (inr a, w).
Proof.
  unfold parsed, restore_archived_records.parse_date.
  destruct arg as [s|]; [|intros [= <-]; reflexivity].
  destruct (truthy (Some s)); [|intros [= <-]; reflexivity].
  destruct (strptime s); [intros [= <-]; reflexivity | discriminate].
Qed.

Lemma parse_date_fail strptime (arg : option string) (msg : string) (w : World) :
  parsed strptime arg = None ->
  restore_archived_records.parse_date strptime arg msg w
  = (inl (CommandError msg), w).
Proof.
  unfold parsed, restore_archived_records.parse_date.
  destruct arg as [s|]; [|discriminate].
  destruct (truthy (Some s)); [|discriminate].
  destruct (strptime s); [discriminate | reflexivity].
Qed.

Lemma restore_handle_execute fault strptime (al : bool) (ty df dt : option string)
    (a b : option datetime) (w : World) :
  al || truthy ty || truthy df = true ->
  parsed strptime df = Some a ->
  parsed strptime dt = Some b ->
  exists head,
    restore_archived_records.handle fault strptime
      (restore_archived_records.mkOptions al ty df dt false true) w
    = bind (restore_archived_records._confirm_restoration
              (restore_tally al ty a b (db w)))
        (fun confirmed =>
           if negb confirmed then write (Text "Restoration cancelled.")
           else
             bind (write (Text "Restoring records..."))
               (fun _ =>
                  bind (restore_archived_records._restore_records fault
                          al ty a b)
                    (fun restored_counts =>
                       restore_archived_records._display_results restored_counts)))
        (mkWorld (db w) (ticks w) (stdin w) (head ++ stdout w)).
Proof.
  intros Hsel Ha Hb. unfold restore_archived_records.handle. simpl.
  replace (negb al && negb (truthy ty) && negb (truthy df)) with false
    by (destruct al, (truthy ty), (truthy df); simpl in *; congruence).
  rewrite (@bind_run _ _ _ _ _ _ _ (@parse_date_run strptime df _ a w Ha)).
  rewrite (@bind_run _ _ _ _ _ _ _ (@parse_date_run strptime dt _ b w Hb)).
  unfold bind at 1. simpl.
  unfold bind at 1. rewrite restore_count_run. simpl db.
  unfold bind at 1. unfold restore_tally at 1. rewrite restore_summary_run.
  unfold written. simpl.
  eexists (_ :: _ :: _ :: _ :: _ :: _ :: _ :: _ :: _ :: nil). simpl.
  reflexivity.
Qed.

Lemma restore_previewed_total (al : bool) (ty : option string)
    (a b : option datetime) (w : World) :
  previewed_total (restore_archived_records._count_records al ty a b) w
  = dict_get "total" (restore_tally al ty a b (db w)).
Proof. unfold previewed_total. rewrite restore_count_run. reflexivity. Qed.

Lemma restore_results_run (counts : dict) (w : World) :
  dict_get "total" counts <> None ->
  exists out,
    restore_archived_records._display_results counts w
    = (inr tt, mkWorld (db w) (ticks w) (stdin w) out).
Proof.
  intros H. unfold restore_archived_records._display_results, bind, getitem.
  destruct (dict_get "total" counts); [|congruence].
  eexists. reflexivity.
Qed.

Lemma restore_nothing_to_do fault strptime (al : bool) (ty df dt : option string)
    (a b : option datetime) (w : World) :
  al || truthy ty || truthy df = true ->
  parsed strptime df = Some a ->
  parsed strptime dt = Some b ->
  previewed_total (restore_archived_records._count_records al ty a b) w = Some O ->
  exists out,
    restore_archived_records.handle fault strptime
      (restore_archived_records.mkOptions al ty df dt false true) w
    = (inr tt,
       mkWorld (db w) (ticks w) (stdin w)
         (Text "Restoration cancelled." :: Text "No records to restore." :: out)).
Proof.
  intros Hsel Ha Hb Htot. rewrite restore_previewed_total in Htot.
  destruct (@restore_handle_execute fault strptime al ty df dt a b w Hsel Ha Hb)
    as [head ->].
  unfold bind at 1. rewrite (@restore_confirm_run _ _ _ Htot). simpl.
  eexists. reflexivity.
Qed.

Lemma restore_declined fault strptime (al : bool) (ty df dt : option string)
    (a b : option datetime) (w : World)
    (total : nat) (response : string) (rest : list string) :
  al || truthy ty || truthy df = true ->
  parsed strptime df = Some a ->
  parsed strptime dt = Some b ->
  previewed_total (restore_archived_records._count_records al ty a b) w
  = Some total ->
  (0 < total)%nat ->
  stdin w = response :: rest ->
  lower response <> "yes" ->
  exists out,
    restore_archived_records.handle fault strptime
      (restore_archived_records.mkOptions al ty df dt false true) w
    = (inr tt,
       mkWorld (db w) (ticks w) rest (Text "Restoration cancelled." :: out)).
Proof.
  intros Hsel Ha Hb Htot Hpos Hin Hno. rewrite restore_previewed_total in Htot.
  destruct (@restore_handle_execute fault strptime al ty df dt a b w Hsel Ha Hb)
    as [head ->].
  unfold bind at 1. rewrite (@restore_confirm_run _ _ _ Htot).
  destruct total as [|n]; [lia|]. simpl. rewrite Hin.
  destruct (String.eqb_spec (lower response) "yes") as [E|_]; [contradiction|].
  simpl. eexists. reflexivity.
Qed.

Lemma restore_accepted fault strptime (al : bool) (ty df dt : option string)
    (a b : option datetime) (w : World)
    (total : nat) (response : string) (rest : list string) :
  reliable fault ->
  al || truthy ty || truthy df = true ->
  parsed strptime df = Some a ->
  parsed strptime dt = Some b ->
  previewed_total (restore_archived_records._count_records al ty a b) w
  = Some total ->
  (0 < total)%nat ->
  stdin w = response :: rest ->
  lower response = "yes" ->
  exists out,
    restore_archived_records.handle fault strptime
      (restore_archived_records.mkOptions al ty df dt false true) w
    = (inr tt,
       mkWorld (restore_db al ty a b (db w)) (ticks w) rest out).
Proof.
  intros Hf Hsel Ha Hb Htot Hpos Hin Hyes. rewrite restore_previewed_total in Htot.
  destruct (@restore_handle_execute fault strptime al ty df dt a b w Hsel Ha Hb)
    as [head ->].
  unfold bind at 1. rewrite (@restore_confirm_run _ _ _ Htot).
  destruct total as [|n]; [lia|]. simpl. rewrite Hin, Hyes. simpl.
  unfold bind at 1. simpl.
  match goal with
  | |- context [bind (restore_archived_records._restore_records ?f ?x ?t ?p ?q) _ ?W] =>
      destruct (@restore_records_run f x t p q W Hf) as [counts [out [Hrun Hkey]]];
      rewrite (@bind_run _ _ _ _ _ _ _ Hrun)
  end.
  simpl.
  match goal with
  | |- context [restore_archived_records._display_results ?cs ?W] =>
      destruct (@restore_results_run cs W Hkey) as [out' ->]
  end.
  eexists. reflexivity.
Qed.

(** *** Nothing previewed, nothing to change *)

Lemma map_tables_id (sel : Model -> bool) (f : forall B : Type, Row B -> Row B)
    (d : DB) :
  (forall m, sel m = true -> map (f _) (table m d) = table m d) ->
  map_tables sel f d = d.
Proof.
  intros H. apply DB_ext. intros m. rewrite table_map_tables.
  destruct (sel m) eqn:E; [apply H; exact E | reflexivity].
Qed.

Lemma archive_db_unchanged (cutoff now : datetime) (il : bool) (d : DB) :
  dict_get "total" (archive_tally cutoff il d) = Some O ->
  archive_db cutoff now il d = d.
Proof.
  unfold archive_tally. rewrite tally_total. intros [= H].
  apply map_tables_id. intros m Hm.
  rewrite <- update_rows_archive. apply count_rows_zero_update.
  assert (Hz := H).
  apply Nat.eq_add_0 in H. destruct H as [Ha H].
  apply Nat.eq_add_0 in H. destruct H as [Hr H].
  apply Nat.eq_add_0 in H. destruct H as [Hc H].
  apply Nat.eq_add_0 in H. destruct H as [Hf H].
  apply Nat.eq_add_0 in H. destruct H as [Hl _].
  destruct m, il; simpl in *; try discriminate; assumption.
Qed.

Lemma restore_db_unchanged (al : bool) (ty : option string)
    (a b : option datetime) (d : DB) :
  dict_get "total" (restore_tally al ty a b d) = Some O ->
  restore_db al ty a b d = d.
Proof.
  unfold restore_tally. rewrite tally_total. intros [= H].
  apply map_tables_id. intros m Hm.
  rewrite <- update_rows_restore. apply count_rows_zero_update.
  apply Nat.eq_add_0 in H. destruct H as [Ha H].
  apply Nat.eq_add_0 in H. destruct H as [Hr H].
  apply Nat.eq_add_0 in H. destruct H as [Hc H].
  apply Nat.eq_add_0 in H. destruct H as [Hf H].
  apply Nat.eq_add_0 in H. destruct H as [Hl _].
  destruct m; simpl table;
    [rewrite Hm in Ha | rewrite Hm in Hr | rewrite Hm in Hc
     | rewrite Hm in Hf | rewrite Hm in Hl]; assumption.
Qed.

(** *** The database a confirmed execute run leaves *)

Lemma archive_execute_db clock fault (y : Z) (il : bool) (w : World)
    (response : string) (rest : list string) :
  reliable fault ->
  1 <= y -> clock (ticks w) <= datetime_max ->
  datetime_min <= cutoff_of (clock (ticks w)) y ->
  stdin w = response :: rest ->
  lower response = "yes" ->
  fst (archive_old_records.handle clock fault
         (archive_old_records.mkOptions y false true il) w) = inr tt
  /\ db (snd (archive_old_records.handle clock fault
                (archive_old_records.mkOptions y false true il) w))
     = archive_db (cutoff_of (clock (ticks w)) y) (clock (S (ticks w))) il (db w).
Proof.
  intros Hf Hy Ht Hc Hin Hyes.
  destruct (archive_tally_total (cutoff_of (clock (ticks w)) y) il (db w))
    as [total Htot].
  pose proof Htot as Hprev. rewrite <- archive_previewed_total in Hprev.
  destruct total as [|n].
  - destruct (archive_nothing_to_do clock fault il w Hy Ht Hc Hprev) as [out ->].
    simpl. split; [reflexivity|]. symmetry. apply archive_db_unchanged. exact Htot.
  - destruct (@archive_accepted clock fault y il w (S n) response rest
                Hf Hy Ht Hc Hprev ltac:(lia) Hin Hyes) as [out ->].
    simpl. split; reflexivity.
Qed.

Lemma restore_total_exists (al : bool) (ty : option string)
    (a b : option datetime) (d : DB) :
  exists total, dict_get "total" (restore_tally al ty a b d) = Some total.
Proof. unfold restore_tally. rewrite tally_total. eexists. reflexivity. Qed.

Lemma restore_execute_db fault strptime (al : bool) (ty df dt : option string)
    (a b : option datetime) (w : World) (response : string) (rest : list string) :
  reliable fault ->
  al || truthy ty || truthy df = true ->
  parsed strptime df = Some a ->
  parsed strptime dt = Some b ->
  stdin w = response :: rest ->
  lower response = "yes" ->
  fst (restore_archived_records.handle fault strptime
         (restore_archived_records.mkOptions al ty df dt false true) w) = inr tt
  /\ db (snd (restore_archived_records.handle fault strptime
                (restore_archived_records.mkOptions al ty df dt false true) w))
     = restore_db al ty a b (db w).
Proof.
  intros Hf Hsel Ha Hb Hin Hyes.
  destruct (restore_total_exists al ty a b (db w)) as [total Htot].
  pose proof Htot as Hprev. rewrite <- restore_previewed_total in Hprev.
  destruct total as [|n].
  - destruct (@restore_nothing_to_do fault strptime al ty df dt a b w
                Hsel Ha Hb Hprev) as [out ->].
    simpl. split; [reflexivity|]. symmetry. apply restore_db_unchanged. exact Htot.
  - destruct (@restore_accepted fault strptime al ty df dt a b w (S n) response
                rest Hf Hsel Ha Hb Hprev ltac:(lia) Hin Hyes) as [out ->].
    simpl. split; reflexivity.
Qed.

(** C2 (as amended).  After a confirmed execute run of the archive command
    on a store that does not fail, with [years] at least 1 and a cutoff that
    [datetime] can hold: for the four kinds assessments, reports,
    certificates and flood activities, and for user logs when
    [--include-logs] is given, every row whose timestamp is strictly before
    the cutoff (the first clock reading minus [365 * years] days) and whose
    [is_archived] was false has [is_archived] true and [archived_at] set to
    one instant, which is not before the run start when the clock does not
    run backwards; every other row of these kinds, and without
    [--include-logs] every user log row, is unchanged. *)
Theorem archive_execute_postcondition clock fault (years : Z)
    (include_logs : bool) (w : World) (response : string) (rest : list string) :
  reliable fault ->
  1 <= years ->
  clock (ticks w) <= datetime_max ->
  datetime_min <= cutoff_of (clock (ticks w)) years ->
  stdin w = response :: rest ->
  lower response = "yes" ->
  clock (ticks w) <= clock (S (ticks w)) ->
  fst (archive_old_records.handle clock fault
         (archive_old_records.mkOptions years false true include_logs) w) = inr tt
  /\ exists t,
       clock (ticks w) <= t
       /\ forall m,
            table m (db (snd (archive_old_records.handle clock fault
                                (archive_old_records.mkOptions years false true
                                   include_logs) w)))
            = if participates include_logs m
              then map (fun r =>
                          if (timestamp r <? cutoff_of (clock (ticks w)) years)
                             && negb (is_archived r)
                          then mkRow (pk r) (fields r) (timestamp r) true (Some t)
                          else r)
                       (table m (db w))
              else table m (db w).
Proof.
  intros Hf Hy Ht Hc Hin Hyes Hmono.
  destruct (@archive_execute_db clock fault years include_logs w response rest
              Hf Hy Ht Hc Hin Hyes) as [Hres Hdb].
  split; [exact Hres|].
  exists (clock (S (ticks w))). split; [exact Hmono|].
  intros m. rewrite Hdb. unfold archive_db. rewrite table_map_tables.
  reflexivity.
Qed.

Lemma archive_execute_postcondition_witness :
  fst (archive_old_records.handle sample_clock no_fault
         (archive_old_records.mkOptions 2 false true false)
         (sample_world sample_db ["Yes"])) = inr tt
  /\ exists t,
       sample_clock 0 <= t
       /\ forall m,
            table m (db (snd (archive_old_records.handle sample_clock no_fault
                                (archive_old_records.mkOptions 2 false true false)
                                (sample_world sample_db ["Yes"]))))
            = if participates false m
              then map (fun r =>
                          if (timestamp r <? cutoff_of (sample_clock 0) 2)
                             && negb (is_archived r)
                          then mkRow (pk r) (fields r) (timestamp r) true (Some t)
                          else r)
                       (table m sample_db)
              else table m sample_db.
Proof.
  apply (@archive_execute_postcondition sample_clock no_fault 2 false
           (sample_world sample_db ["Yes"]) "Yes" []).
  - intros m. reflexivity.
  - lia.
  - vm_compute. discriminate.
  - vm_compute. discriminate.
  - reflexivity.
  - reflexivity.
  - vm_compute. discriminate.
Defined.

(** C2 as stated fails for the user log kind: a confirmed execute run
    without [--include-logs] leaves an old, unarchived log entry
    unarchived. *)
Lemma archive_every_kind_counterexample :
  fst (archive_old_records.handle sample_clock no_fault
         (archive_old_records.mkOptions 2 false true false)
         (sample_world sample_db ["yes"])) = inr tt
  /\
  ~ (forall (m : Model) (r : Row (fields_of m)),
        In r (table m sample_db) ->
        timestamp r < cutoff_of (sample_clock 0) 2 ->
        is_archived r = false ->
        exists r',
          In r' (table m (db (snd (archive_old_records.handle sample_clock no_fault
                                     (archive_old_records.mkOptions 2 false true false)
                                     (sample_world sample_db ["yes"])))))
          /\ pk r' = pk r /\ is_archived r' = true).
Proof.
  split; [vm_compute; reflexivity|].
  intros H.
  destruct (H UserLog (sample_log 1 (day (739000 - 2000)) false None))
    as [r' [Hin [_ Harch]]].
  - left. reflexivity.
  - vm_compute. reflexivity.
  - reflexivity.
  - vm_compute in Hin. destruct Hin as [<-|[]]. discriminate.
Qed.

(** *** What [lower] accepts *)

Lemma lower_ascii_y (c : ascii) :
  lower_ascii c = "y"%char -> c = "y"%char \/ c = "Y"%char.
Proof.
  destruct c as [[] [] [] [] [] [] [] []]; vm_compute; intros H;
    try discriminate H; auto.
Qed.

Lemma lower_ascii_e (c : ascii) :
  lower_ascii c = "e"%char -> c = "e"%char \/ c = "E"%char.
Proof.
  destruct c as [[] [] [] [] [] [] [] []]; vm_compute; intros H;
    try discriminate H; auto.
Qed.

Lemma lower_ascii_s (c : ascii) :
  lower_ascii c = "s"%char -> c = "s"%char \/ c = "S"%char.
Proof.
  destruct c as [[] [] [] [] [] [] [] []]; vm_compute; intros H;
    try discriminate H; auto.
Qed.

(** The test [response.lower() == 'yes'] holds for the eight spellings of
    [yes] and for no other answer: not for [no], [y], an empty line, or
    [yes] with a blank around it. *)
Lemma lower_yes_iff (response : string) :
  lower response = "yes" <-> In response yes_in_any_case.
Proof.
  split.
  - destruct response as [|c1 [|c2 [|c3 [|c4 rest]]]]; simpl;
      try discriminate.
    intros H. injection H as H1 H2 H3.
    destruct (lower_ascii_y _ H1) as [-> | ->],
             (lower_ascii_e _ H2) as [-> | ->],
             (lower_ascii_s _ H3) as [-> | ->]; tauto.
  - intros H. simpl in H.
    repeat (destruct H as [H|H]; [subst response; reflexivity|]).
    contradiction.
Qed.

(** C5.  In execute mode, once validation has passed and the preview is
    made: when the previewed total is 0 the command writes its
    nothing-to-do message, does not read the console, changes no table and
    returns normally; when the total is positive it reads one response, and
    the database is changed exactly when the response is [yes] in some mix
    of upper and lower case (on a store that does not fail); with any other
    response, [no] or [y] or a padded [ yes] included, it writes its
    cancellation message, leaves every table as it was and returns
    normally.  This holds for the archive command and for the restore
    command. *)
Theorem confirmation_gate :
  (forall clock fault (years : Z) (include_logs : bool) (w : World) (total : nat),
      reliable fault ->
      1 <= years ->
      clock (ticks w) <= datetime_max ->
      datetime_min <= cutoff_of (clock (ticks w)) years ->
      previewed_total
        (archive_old_records._count_records
           (cutoff_of (clock (ticks w)) years) include_logs) w = Some total ->
      let run := archive_old_records.handle clock fault
                   (archive_old_records.mkOptions years false true include_logs) w in
      (total = O ->
         fst run = inr tt /\ db (snd run) = db w /\ stdin (snd run) = stdin w
         /\ In (Text "No records to archive.") (stdout (snd run)))
      /\ ((0 < total)%nat ->
          forall response rest, stdin w = response :: rest ->
            fst run = inr tt
            /\ (db (snd run) <> db w <-> In response yes_in_any_case)
            /\ (In response yes_in_any_case ->
                db (snd run)
                = archive_db (cutoff_of (clock (ticks w)) years)
                    (clock (S (ticks w))) include_logs (db w))
            /\ (~ In response yes_in_any_case ->
                db (snd run) = db w
                /\ In (Text "Archiving cancelled.") (stdout (snd run)))))
  /\
  (forall fault strptime (all : bool) (type date_from date_to : option string)
          (a b : option datetime) (w : World) (total : nat),
      reliable fault ->
      all || truthy type || truthy date_from = true ->
      parsed strptime date_from = Some a ->
      parsed strptime date_to = Some b ->
      previewed_total
        (restore_archived_records._count_records all type a b) w = Some total ->
      let run := restore_archived_records.handle fault strptime
                   (restore_archived_records.mkOptions all type date_from date_to
                      false true) w in
      (total = O ->
         fst run = inr tt /\ db (snd run) = db w /\ stdin (snd run) = stdin w
         /\ In (Text "No records to restore.") (stdout (snd run)))
      /\ ((0 < total)%nat ->
          forall response rest, stdin w = response :: rest ->
            fst run = inr tt
            /\ (db (snd run) <> db w <-> In response yes_in_any_case)
            /\ (In response yes_in_any_case ->
                db (snd run) = restore_db all type a b (db w))
            /\ (~ In response yes_in_any_case ->
                db (snd run) = db w
                /\ In (Text "Restoration cancelled.") (stdout (snd run))))).
Proof.
  split.
  - intros clock fault y il w total Hf Hy Ht Hc Hprev run. subst run. split.
    + intros ->.
      destruct (archive_nothing_to_do clock fault il w Hy Ht Hc Hprev) as [out ->].
      simpl. repeat split. right. left. reflexivity.
    + intros Hpos response rest Hin.
      destruct (String.eqb_spec (lower response) "yes") as [Hyes|Hno].
      * pose proof (proj1 (lower_yes_iff response) Hyes) as Hspell.
        destruct (@archive_accepted clock fault y il w total response rest
                    Hf Hy Ht Hc Hprev Hpos Hin Hyes) as [out ->].
        simpl. split; [reflexivity|].
        split; [|split; [intros _; reflexivity | intros Hn; contradiction]].
        split; [intros _; exact Hspell|]. intros _.
        rewrite archive_previewed_total in Hprev.
        exact (@archive_db_changes _ _ _ _ _ Hprev Hpos).
      * assert (Hspell : ~ In response yes_in_any_case).
        { intros Hs. apply Hno. apply lower_yes_iff. exact Hs. }
        destruct (@archive_declined clock fault y il w total response rest
                    Hy Ht Hc Hprev Hpos Hin Hno) as [out ->].
        simpl. split; [reflexivity|].
        split; [|split; [intros Hs; contradiction
                        | intros _; split; [reflexivity | left; reflexivity]]].
        split; [intros Hd; exfalso; apply Hd; reflexivity
               | intros Hs; contradiction].
  - intros fault strptime al ty df dt a b w total Hf Hsel Ha Hb Hprev run.
    subst run. split.
    + intros ->.
      destruct (@restore_nothing_to_do fault strptime al ty df dt a b w
                  Hsel Ha Hb Hprev) as [out ->].
      simpl. repeat split. right. left. reflexivity.
    + intros Hpos response rest Hin.
      destruct (String.eqb_spec (lower response) "yes") as [Hyes|Hno].
      * pose proof (proj1 (lower_yes_iff response) Hyes) as Hspell.
        destruct (@restore_accepted fault strptime al ty df dt a b w total
                    response rest Hf Hsel Ha Hb Hprev Hpos Hin Hyes) as [out ->].
        simpl. split; [reflexivity|].
        split; [|split; [intros _; reflexivity | intros Hn; contradiction]].
        split; [intros _; exact Hspell|]. intros _.
        rewrite restore_previewed_total in Hprev.
        exact (@restore_db_changes _ _ _ _ _ _ Hprev Hpos).
      * assert (Hspell : ~ In response yes_in_any_case).
        { intros Hs. apply Hno. apply lower_yes_iff. exact Hs. }
        destruct (@restore_declined fault strptime al ty df dt a b w total
                    response rest Hsel Ha Hb Hprev Hpos Hin Hno) as [out ->].
        simpl. split; [reflexivity|].
        split; [|split; [intros Hs; contradiction
                        | intros _; split; [reflexivity | left; reflexivity]]].
        split; [intros Hd; exfalso; apply Hd; reflexivity
               | intros Hs; contradiction].
Qed.

(** The gate on sample runs: the archive command proceeds on [YES] and
    leaves the database alone on [no]; the restore command proceeds on
    [Yes] and leaves the database alone on [yes] with a blank in front. *)
Lemma confirmation_gate_witness :
  (db (snd (archive_old_records.handle sample_clock no_fault
              (archive_old_records.mkOptions 2 false true false)
              (sample_world sample_db ["YES"])))
   = archive_db (cutoff_of (sample_clock 0) 2) (sample_clock 1) false sample_db
   /\ db (snd (archive_old_records.handle sample_clock no_fault
                 (archive_old_records.mkOptions 2 false true false)
                 (sample_world sample_db ["no"]))) = sample_db)
  /\
  (db (snd (restore_archived_records.handle no_fault sample_strptime
              (restore_archived_records.mkOptions true None None None false true)
              (sample_world archived_db ["Yes"])))
   = restore_db true None None None archived_db
   /\ db (snd (restore_archived_records.handle no_fault sample_strptime
                 (restore_archived_records.mkOptions true None None None false true)
                 (sample_world archived_db [" yes"]))) = archived_db).
Proof.
  assert (Hrel : reliable no_fault) by (intros m; reflexivity).
  split; split.
  - refine (proj1 (proj2 (proj2
              (proj2 (proj1 confirmation_gate sample_clock no_fault 2 false
                        (sample_world sample_db ["YES"]) 2%nat Hrel _ _ _ _)
                 _ "YES" [] _))) _).
    + lia.
    + vm_compute. discriminate.
    + vm_compute. discriminate.
    + vm_compute. reflexivity.
    + lia.
    + reflexivity.
    + simpl. tauto.
  - refine (proj1 (proj2 (proj2 (proj2
              (proj2 (proj1 confirmation_gate sample_clock no_fault 2 false
                        (sample_world sample_db ["no"]) 2%nat Hrel _ _ _ _)
                 _ "no" [] _))) _)).
    + lia.
    + vm_compute. discriminate.
    + vm_compute. discriminate.
    + vm_compute. reflexivity.
    + lia.
    + reflexivity.
    + simpl. intuition discriminate.
  - refine (proj1 (proj2 (proj2
              (proj2 (proj2 confirmation_gate no_fault sample_strptime true None
                        None None None None (sample_world archived_db ["Yes"])
                        6%nat Hrel _ _ _ _)
                 _ "Yes" [] _))) _).
    + reflexivity.
    + reflexivity.
    + reflexivity.
    + vm_compute. reflexivity.
    + lia.
    + reflexivity.
    + simpl. tauto.
  - refine (proj1 (proj2 (proj2 (proj2
              (proj2 (proj2 confirmation_gate no_fault sample_strptime true None
                        None None None None (sample_world archived_db [" yes"])
                        6%nat Hrel _ _ _ _)
                 _ " yes" [] _))) _)).
    + reflexivity.
    + reflexivity.
    + reflexivity.
    + vm_compute. reflexivity.
    + lia.
    + reflexivity.
    + simpl. intuition discriminate.
Defined.

(** The same four runs, computed: the rows of the kind the run touches,
    with their archival flag afterwards. *)
Example gate_sample_runs :
  map (fun r => (pk r, is_archived r))
      (assessments
         (db (snd (archive_old_records.handle sample_clock no_fault
                     (archive_old_records.mkOptions 2 false true false)
                     (sample_world sample_db ["YES"])))))
  = [(1, true); (2, false); (3, false)]
  /\ map (fun r => (pk r, is_archived r))
         (assessments
            (db (snd (archive_old_records.handle sample_clock no_fault
                        (archive_old_records.mkOptions 2 false true false)
                        (sample_world sample_db ["no"])))))
     = [(1, false); (2, false); (3, false)]
  /\ map (fun r => (pk r, is_archived r))
         (reports
            (db (snd (restore_archived_records.handle no_fault sample_strptime
                        (restore_archived_records.mkOptions true None None None
                           false true)
                        (sample_world archived_db ["Yes"])))))
     = [(1, false); (2, false); (3, false); (4, false); (5, false); (6, false)]
  /\ map (fun r => (pk r, is_archived r))
         (reports
            (db (snd (restore_archived_records.handle no_fault sample_strptime
                        (restore_archived_records.mkOptions true None None None
                           false true)
                        (sample_world archived_db [" yes"])))))
     = [(1, true); (2, true); (3, true); (4, true); (5, true); (6, false)].
Proof. vm_compute. repeat split. Qed.

(** C7.  A confirmed execute run of the restore command with
    [--type=reports], a [--date-from] that parses to the instant [a] and a
    [--date-to] that parses to the instant [b], on a store that does not
    fail, returns normally; it leaves in the report table every row with
    [is_archived] true and [a <= timestamp <= b] restored ([is_archived]
    false, [archived_at] null, other columns as they were) and every other
    report row as it was; the four other tables are untouched. *)
Theorem restore_reports_in_window fault strptime (s_from s_to : string)
    (a b : datetime) (w : World) (response : string) (rest : list string) :
  reliable fault ->
  s_from <> "" -> s_to <> "" ->
  strptime s_from = Some a ->
  strptime s_to = Some b ->
  stdin w = response :: rest ->
  lower response = "yes" ->
  fst (restore_archived_records.handle fault strptime
         (restore_archived_records.mkOptions false (Some "reports")
            (Some s_from) (Some s_to) false true) w) = inr tt
  /\ forall m,
       table m (db (snd (restore_archived_records.handle fault strptime
                           (restore_archived_records.mkOptions false (Some "reports")
                              (Some s_from) (Some s_to) false true) w)))
       = if Model_eqb m ReportRecord
         then map (fun r =>
                     if is_archived r && (a <=? timestamp r) && (timestamp r <=? b)
                     then mkRow (pk r) (fields r) (timestamp r) false None
                     else r)
                  (table m (db w))
         else table m (db w).
Proof.
  intros Hf Hs1 Hs2 Ha Hb Hin Hyes.
  assert (Hpa : parsed strptime (Some s_from) = Some (Some a)).
  { unfold parsed, truthy. destruct (String.eqb_spec s_from ""); [contradiction|].
    simpl. rewrite Ha. reflexivity. }
  assert (Hpb : parsed strptime (Some s_to) = Some (Some b)).
  { unfold parsed, truthy. destruct (String.eqb_spec s_to ""); [contradiction|].
    simpl. rewrite Hb. reflexivity. }
  destruct (@restore_execute_db fault strptime false (Some "reports")
              (Some s_from) (Some s_to) (Some a) (Some b) w response rest
              Hf eq_refl Hpa Hpb Hin Hyes) as [Hres Hdb].
  split; [exact Hres|].
  intros m. rewrite Hdb. unfold restore_db. rewrite table_map_tables.
  destruct m; reflexivity.
Qed.

Lemma restore_reports_in_window_witness :
  fst (restore_archived_records.handle no_fault sample_strptime
         (restore_archived_records.mkOptions false (Some "reports")
            (Some "2023-01-01") (Some "2023-12-31") false true)
         (sample_world archived_db ["yes"])) = inr tt
  /\ forall m,
       table m (db (snd (restore_archived_records.handle no_fault sample_strptime
                           (restore_archived_records.mkOptions false (Some "reports")
                              (Some "2023-01-01") (Some "2023-12-31") false true)
                           (sample_world archived_db ["yes"]))))
       = if Model_eqb m ReportRecord
         then map (fun r =>
                     if is_archived r && (day 738520 <=? timestamp r)
                        && (timestamp r <=? day 738884)
                     then mkRow (pk r) (fields r) (timestamp r) false None
                     else r)
                  (table m archived_db)
         else table m archived_db.
Proof.
  apply (@restore_reports_in_window no_fault sample_strptime
           "2023-01-01" "2023-12-31" (day 738520) (day 738884)
           (sample_world archived_db ["yes"]) "yes" []).
  - intros m. reflexivity.
  - discriminate.
  - discriminate.
  - reflexivity.
  - reflexivity.
  - reflexivity.
  - reflexivity.
Defined.

(** The sample run of C7, row by row: reports 2, 3 and 4 lie in the window
    and are restored; report 1 is older, report 5 is one microsecond past
    the upper bound, report 6 is not archived; the archived assessment
    inside the window stays archived. *)
Example reports_of_2023_sample :
  let d := db (snd (restore_archived_records.handle no_fault sample_strptime
                      (restore_archived_records.mkOptions false (Some "reports")
                         (Some "2023-01-01") (Some "2023-12-31") false true)
                      (sample_world archived_db ["yes"]))) in
  map (fun r => (pk r, is_archived r)) (reports d)
  = [(1, true); (2, false); (3, false); (4, false); (5, true); (6, false)]
  /\ assessments d = assessments archived_db.
Proof. vm_compute. split; reflexivity. Qed.

(** *** Round trip *)

Lemma restore_row_archive_row {B} (cutoff now : datetime)
    (a b : option datetime) (r : Row B) :
  qualifies cutoff r = true ->
  (forall d, a = Some d -> d <= timestamp r) ->
  (forall d, b = Some d -> timestamp r <= d) ->
  restore_row a b (archive_row cutoff now r)
  = mkRow (pk r) (fields r) (timestamp r) false None.
Proof.
  intros Hq Ha Hb. unfold archive_row. rewrite Hq.
  unfold restore_row, in_window. simpl.
  replace (match a with Some d => d <=? timestamp r | None => true end) with true
    by (destruct a as [d|]; [symmetry; apply Z.leb_le; apply Ha|]; reflexivity).
  replace (match b with Some d => timestamp r <=? d | None => true end) with true
    by (destruct b as [d|]; [symmetry; apply Z.leb_le; apply Hb|]; reflexivity).
  reflexivity.
Qed.

(** The round trip where the selector reaches the row's kind through
    [--all] or [--type].  Take any row that a confirmed archive run archives
    (it is older than the cutoff, not archived, and of a kind that takes
    part), and run a confirmed restore on the database that run left, with
    [--all] or the row's kind as [--type], and bounds, if any, around its
    timestamp.  Afterwards the row, at the same position of its table, has
    [is_archived] false and [archived_at] null, and its primary key,
    business columns and timestamp are those it had before the archive
    run. *)
Theorem archive_then_restore_round_trip clock fault strptime
    (years : Z) (include_logs : bool)
    (all : bool) (type date_from date_to : option string) (a b : option datetime)
    (w w1 : World) (yes1 yes2 : string) (rest1 rest2 : list string)
    (m : Model) (i : nat) (r : Row (fields_of m)) :
  reliable fault ->
  1 <= years ->
  clock (ticks w) <= datetime_max ->
  datetime_min <= cutoff_of (clock (ticks w)) years ->
  stdin w = yes1 :: rest1 -> lower yes1 = "yes" ->
  nth_error (table m (db w)) i = Some r ->
  timestamp r < cutoff_of (clock (ticks w)) years ->
  is_archived r = false ->
  participates include_logs m = true ->
  db w1 = db (snd (archive_old_records.handle clock fault
                     (archive_old_records.mkOptions years false true include_logs)
                     w)) ->
  stdin w1 = yes2 :: rest2 -> lower yes2 = "yes" ->
  all || truthy type || truthy date_from = true ->
  parsed strptime date_from = Some a ->
  parsed strptime date_to = Some b ->
  selected all type m = true ->
  (forall d, a = Some d -> d <= timestamp r) ->
  (forall d, b = Some d -> timestamp r <= d) ->
  fst (restore_archived_records.handle fault strptime
         (restore_archived_records.mkOptions all type date_from date_to false true)
         w1) = inr tt
  /\ nth_error
       (table m (db (snd (restore_archived_records.handle fault strptime
                            (restore_archived_records.mkOptions all type
                               date_from date_to false true) w1)))) i
     = Some (mkRow (pk r) (fields r) (timestamp r) false None).
Proof.
  intros Hf Hy Ht Hc Hin1 Hyes1 Hnth Hold Hact Hpart Hdb1 Hin2 Hyes2
         Hsel Hpa Hpb Hm Hlo Hhi.
  destruct (@archive_execute_db clock fault years include_logs w yes1 rest1
              Hf Hy Ht Hc Hin1 Hyes1) as [_ Harch].
  destruct (@restore_execute_db fault strptime all type date_from date_to a b w1
              yes2 rest2 Hf Hsel Hpa Hpb Hin2 Hyes2) as [Hres Hrest].
  split; [exact Hres|].
  rewrite Hrest, Hdb1, Harch.
  unfold restore_db, archive_db. rewrite !table_map_tables, Hm, Hpart.
  rewrite !nth_error_map, Hnth. simpl. f_equal.
  apply restore_row_archive_row; [|exact Hlo|exact Hhi].
  unfold qualifies. rewrite Hact.
  replace (timestamp r <? cutoff_of (clock (ticks w)) years) with true
    by (symmetry; apply Z.ltb_lt; exact Hold).
  reflexivity.
Qed.

Lemma archive_then_restore_round_trip_witness :
  fst (restore_archived_records.handle no_fault sample_strptime
         (restore_archived_records.mkOptions false (Some "assessments") None None
            false true)
         (sample_world sample_db_archived ["yes"])) = inr tt
  /\ nth_error
       (table AssessmentRecord
          (db (snd (restore_archived_records.handle no_fault sample_strptime
                      (restore_archived_records.mkOptions false (Some "assessments")
                         None None false true)
                      (sample_world sample_db_archived ["yes"]))))) 0
     = Some (sample_assessment 1 (day (739000 - 1095)) false None).
Proof.
  refine (@archive_then_restore_round_trip sample_clock no_fault sample_strptime
            2 false false (Some "assessments") None None None None
            (sample_world sample_db ["yes"])
            (sample_world sample_db_archived ["yes"])
            "yes" "yes" [] [] AssessmentRecord 0%nat
            (sample_assessment 1 (day (739000 - 1095)) false None)
            _ _ _ _ _ _ _ _ _ _ _ _ _ _ _ _ _ _ _).
  - intros m. reflexivity.
  - lia.
  - vm_compute. discriminate.
  - vm_compute. discriminate.
  - reflexivity.
  - reflexivity.
  - reflexivity.
  - vm_compute. reflexivity.
  - reflexivity.
  - reflexivity.
  - vm_compute. reflexivity.
  - reflexivity.
  - reflexivity.
  - reflexivity.
  - reflexivity.
  - reflexivity.
  - reflexivity.
  - intros d H. discriminate H.
  - intros d H. discriminate H.
Defined.

(** C8 (the code where it departs from the claim).  Take any row that a
    confirmed archive run archives, and run the restore command in execute
    mode on the database that run left with a date range alone as the
    selector ([--date-from], with or without [--date-to], no [--all] and no
    [--type]), the range holding the row's timestamp.  The command line
    passes validation, but no kind's guard [restore_all or record_type ==
    ...] holds: the preview totals 0, the command writes its nothing-to-do
    message without asking, and the row is still archived, with the
    [archived_at] the archive run gave it. *)
Theorem date_range_alone_breaks_round_trip clock fault strptime
    (years : Z) (include_logs : bool)
    (s_from : string) (date_to : option string) (a : datetime)
    (b : option datetime)
    (w w1 : World) (yes1 : string) (rest1 : list string)
    (m : Model) (i : nat) (r : Row (fields_of m)) :
  reliable fault ->
  1 <= years ->
  clock (ticks w) <= datetime_max ->
  datetime_min <= cutoff_of (clock (ticks w)) years ->
  stdin w = yes1 :: rest1 -> In yes1 yes_in_any_case ->
  nth_error (table m (db w)) i = Some r ->
  timestamp r < cutoff_of (clock (ticks w)) years ->
  is_archived r = false ->
  participates include_logs m = true ->
  db w1 = db (snd (archive_old_records.handle clock fault
                     (archive_old_records.mkOptions years false true include_logs)
                     w)) ->
  s_from <> "" ->
  strptime s_from = Some a ->
  parsed strptime date_to = Some b ->
  a <= timestamp r ->
  (forall d, b = Some d -> timestamp r <= d) ->
  fst (restore_archived_records.handle fault strptime
         (restore_archived_records.mkOptions false None (Some s_from) date_to
            false true) w1) = inr tt
  /\ stdin (snd (restore_archived_records.handle fault strptime
                   (restore_archived_records.mkOptions false None (Some s_from)
                      date_to false true) w1)) = stdin w1
  /\ In (Text "No records to restore.")
        (stdout (snd (restore_archived_records.handle fault strptime
                        (restore_archived_records.mkOptions false None
                           (Some s_from) date_to false true) w1)))
  /\ nth_error
       (table m (db (snd (restore_archived_records.handle fault strptime
                            (restore_archived_records.mkOptions false None
                               (Some s_from) date_to false true) w1)))) i
     = Some (mkRow (pk r) (fields r) (timestamp r) true
               (Some (clock (S (ticks w))))).
Proof.
  intros Hf Hy Ht Hc Hin1 Hyes1 Hnth Hold Hact Hpart Hdb1 Hs Ha Hpb Hlo Hhi.
  apply lower_yes_iff in Hyes1.
  destruct (@archive_execute_db clock fault years include_logs w yes1 rest1
              Hf Hy Ht Hc Hin1 Hyes1) as [_ Harch].
  assert (Hpa : parsed strptime (Some s_from) = Some (Some a)).
  { unfold parsed, truthy. destruct (String.eqb_spec s_from ""); [contradiction|].
    simpl. rewrite Ha. reflexivity. }
  assert (Hsel : false || truthy None || truthy (Some s_from) = true).
  { unfold truthy. destruct (String.eqb_spec s_from ""); [contradiction|].
    reflexivity. }
  assert (Htot : previewed_total
                   (restore_archived_records._count_records false None (Some a) b)
                   w1 = Some O).
  { rewrite restore_previewed_total. reflexivity. }
  destruct (@restore_nothing_to_do fault strptime false None (Some s_from) date_to
              (Some a) b w1 Hsel Hpa Hpb Htot) as [out ->].
  simpl. split; [reflexivity|]. split; [reflexivity|].
  split; [right; left; reflexivity|].
  rewrite Hdb1, Harch. unfold archive_db. rewrite table_map_tables, Hpart.
  rewrite nth_error_map, Hnth. simpl. f_equal.
  unfold archive_row, qualifies. rewrite Hact.
  replace (timestamp r <? cutoff_of (clock (ticks w)) years) with true
    by (symmetry; apply Z.ltb_lt; exact Hold).
  reflexivity.
Qed.

Lemma date_range_alone_breaks_round_trip_witness :
  fst (restore_archived_records.handle no_fault sample_strptime_2021
         (restore_archived_records.mkOptions false None (Some "2021-01-01")
            (Some "2021-12-31") false true)
         (sample_world sample_db_archived ["yes"])) = inr tt
  /\ stdin (snd (restore_archived_records.handle no_fault sample_strptime_2021
                   (restore_archived_records.mkOptions false None (Some "2021-01-01")
                      (Some "2021-12-31") false true)
                   (sample_world sample_db_archived ["yes"])))
     = stdin (sample_world sample_db_archived ["yes"])
  /\ In (Text "No records to restore.")
        (stdout (snd (restore_archived_records.handle no_fault sample_strptime_2021
                        (restore_archived_records.mkOptions false None
                           (Some "2021-01-01") (Some "2021-12-31") false true)
                        (sample_world sample_db_archived ["yes"]))))
  /\ nth_error
       (table AssessmentRecord
          (db (snd (restore_archived_records.handle no_fault sample_strptime_2021
                      (restore_archived_records.mkOptions false None
                         (Some "2021-01-01") (Some "2021-12-31") false true)
                      (sample_world sample_db_archived ["yes"]))))) 0
     = Some (sample_assessment 1 (day (739000 - 1095)) true (Some (sample_clock 1))).
Proof.
  refine (@date_range_alone_breaks_round_trip sample_clock no_fault
            sample_strptime_2021 2 false "2021-01-01" (Some "2021-12-31")
            (day 737790) (Some (day 738154))
            (sample_world sample_db ["yes"])
            (sample_world sample_db_archived ["yes"])
            "yes" [] AssessmentRecord 0%nat
            (sample_assessment 1 (day (739000 - 1095)) false None)
            _ _ _ _ _ _ _ _ _ _ _ _ _ _ _ _).
  - intros m. reflexivity.
  - lia.
  - vm_compute. discriminate.
  - vm_compute. discriminate.
  - reflexivity.
  - simpl. tauto.
  - reflexivity.
  - vm_compute. reflexivity.
  - reflexivity.
  - reflexivity.
  - vm_compute. reflexivity.
  - discriminate.
  - reflexivity.
  - reflexivity.
  - vm_compute. discriminate.
  - intros d H. injection H as <-. vm_compute. discriminate.
Defined.

(** The failing run of C8 on sample data:
    [restore_archived_records --date-from=2021-01-01 --date-to=2021-12-31
    --execute] after the archive run; assessment 1, created in April 2021
    and archived by that run, is previewed as 0 rows and stays archived. *)
Example date_range_alone_sample :
  map (fun r => (pk r, is_archived r))
      (assessments
         (db (snd (restore_archived_records.handle no_fault sample_strptime_2021
                     (restore_archived_records.mkOptions false None
                        (Some "2021-01-01") (Some "2021-12-31") false true)
                     (sample_world sample_db_archived ["yes"])))))
  = [(1, true); (2, false); (3, false)]
  /\ hd_error
       (stdout (snd (restore_archived_records.handle no_fault sample_strptime_2021
                       (restore_archived_records.mkOptions false None
                          (Some "2021-01-01") (Some "2021-12-31") false true)
                       (sample_world sample_db_archived ["yes"]))))
     = Some (Text "Restoration cancelled.").
Proof. vm_compute. split; reflexivity. Qed.

(** C10.  With [--all], the restore command behaves the same whatever
    [--type] says: the count, the update and the whole run do not depend on
    it; every one of the five kinds is counted, and on a store that does not
    fail every one of the five tables has its archived rows inside the
    bounds restored. *)
Theorem restore_all_ignores_type fault strptime
    (type date_from date_to : option string) (dry_run execute : bool)
    (a b : option datetime) (w : World) :
  restore_archived_records.handle fault strptime
    (restore_archived_records.mkOptions true type date_from date_to dry_run execute) w
  = restore_archived_records.handle fault strptime
      (restore_archived_records.mkOptions true None date_from date_to dry_run execute) w
  /\ restore_archived_records._count_records true type a b w
     = restore_archived_records._count_records true None a b w
  /\ restore_archived_records._restore_records fault true type a b w
     = restore_archived_records._restore_records fault true None a b w
  /\ fst (restore_archived_records._count_records true type a b w)
     = inr (tally (count_rows (window_lookups a b) (assessments (db w)))
                  (count_rows (window_lookups a b) (reports (db w)))
                  (count_rows (window_lookups a b) (certificates (db w)))
                  (count_rows (window_lookups a b) (flood_activities (db w)))
                  (count_rows (window_lookups a b) (user_logs (db w))))
  /\ (reliable fault ->
      forall m,
        table m (db (snd (restore_archived_records._restore_records fault true
                            type a b w)))
        = map (restore_row a b) (table m (db w))).
Proof.
  split; [reflexivity|]. split; [reflexivity|]. split; [reflexivity|]. split.
  - rewrite restore_count_run. reflexivity.
  - intros Hf m.
    destruct (@restore_records_run fault true type a b w Hf)
      as [counts [out [-> _]]].
    simpl. unfold restore_db. rewrite table_map_tables. reflexivity.
Qed.

Lemma restore_all_ignores_type_witness :
  table AssessmentRecord
    (db (snd (restore_archived_records._restore_records no_fault true
                (Some "reports") None None (sample_world archived_db []))))
  = map (restore_row None None) (table AssessmentRecord archived_db).
Proof.
  refine (proj2 (proj2 (proj2 (proj2
            (@restore_all_ignores_type no_fault sample_strptime (Some "reports")
               None None false true None None (sample_world archived_db []))))) _
            AssessmentRecord).
  intros m. reflexivity.
Defined.

(** *** Idempotence of the archive update *)

Lemma count_after_archive {B} (cutoff now : datetime) (rows : list (Row B)) :
  count_rows [timestamp__lt cutoff; is_archived_eq false]
    (map (archive_row cutoff now) rows) = O.
Proof.
  unfold count_rows. induction rows as [|r rows IH]; [reflexivity|].
  cbn [map filter]. rewrite matches_old_unarchived.
  replace (qualifies cutoff (archive_row cutoff now r)) with false; [exact IH|].
  unfold archive_row. destruct (qualifies cutoff r) eqn:E.
  - unfold qualifies. simpl. rewrite andb_false_r. reflexivity.
  - symmetry. exact E.
Qed.

Lemma archive_row_idempotent {B} (cutoff now now' : datetime) (r : Row B) :
  archive_row cutoff now' (archive_row cutoff now r) = archive_row cutoff now r.
Proof.
  unfold archive_row at 2 3. destruct (qualifies cutoff r) eqn:E.
  - unfold archive_row, qualifies. simpl. rewrite andb_false_r. reflexivity.
  - unfold archive_row. rewrite E. reflexivity.
Qed.

Lemma archive_db_idempotent (cutoff now now' : datetime) (il : bool) (d : DB) :
  archive_db cutoff now' il (archive_db cutoff now il d) = archive_db cutoff now il d.
Proof.
  apply DB_ext. intros m. unfold archive_db. rewrite !table_map_tables.
  destruct (participates il m); [|reflexivity].
  rewrite map_map. apply map_ext. intros r. apply archive_row_idempotent.
Qed.

Lemma archive_tally_after_archive (cutoff now : datetime) (il : bool) (d : DB) :
  archive_tally cutoff il (archive_db cutoff now il d) = tally 0 0 0 0 0.
Proof.
  unfold archive_tally, archive_db, map_tables. simpl.
  rewrite !count_after_archive. destruct il; [rewrite count_after_archive|];
    reflexivity.
Qed.

Lemma archived_lines_after_archive (cutoff now : datetime) (il : bool) (d : DB) :
  archived_lines cutoff il (archive_db cutoff now il d)
  = ((if il then [Count "Archived user activity logs" O] else [])
     ++ [Count "Archived flood record activities" O;
         Count "Archived certificate records" O;
         Count "Archived report records" O;
         Count "Archived assessment records" O])%list.
Proof.
  unfold archived_lines, archive_db, map_tables. simpl.
  rewrite !count_after_archive. destruct il; [rewrite count_after_archive|];
    reflexivity.
Qed.

(** C9.  On a store that does not fail, a second run of the archive update
    with the same cutoff, made on what the first run left: returns the count
    0 for every kind and for the total, writes a line with the count 0 for
    every kind it updates, and leaves every table as the first run left
    it.  The preview with the same cutoff, made on what the first run left,
    gives a total of 0. *)
Theorem archive_twice_mutates_nothing clock fault (cutoff : datetime)
    (include_logs : bool) (w : World) :
  reliable fault ->
  exists counts1 w1 w2,
    archive_old_records._archive_records clock fault cutoff include_logs w
    = (inr counts1, w1)
    /\ archive_old_records._archive_records clock fault cutoff include_logs w1
       = (inr (tally 0 0 0 0 0), w2)
    /\ db w2 = db w1
    /\ stdout w2
       = ((if include_logs then [Count "Archived user activity logs" O] else [])
          ++ [Count "Archived flood record activities" O;
              Count "Archived certificate records" O;
              Count "Archived report records" O;
              Count "Archived assessment records" O]
          ++ stdout w1)%list
    /\ previewed_total
         (archive_old_records._count_records cutoff include_logs) w1 = Some O.
Proof.
  intros Hf.
  rewrite (@archive_records_run clock fault cutoff include_logs w Hf).
  eexists. eexists. eexists. split; [reflexivity|].
  rewrite archive_records_run by exact Hf. simpl db. simpl ticks.
  simpl stdin. simpl stdout.
  rewrite archive_tally_after_archive, archive_db_idempotent,
    archived_lines_after_archive.
  split; [reflexivity|]. split; [reflexivity|]. split.
  - simpl. rewrite <- app_assoc. reflexivity.
  - rewrite archive_previewed_total. simpl db.
    rewrite archive_tally_after_archive. reflexivity.
Qed.

Lemma archive_twice_mutates_nothing_witness :
  exists counts1 w1 w2,
    archive_old_records._archive_records sample_clock no_fault
      (cutoff_of (sample_clock 0) 2) true (sample_world sample_db [])
    = (inr counts1, w1)
    /\ archive_old_records._archive_records sample_clock no_fault
         (cutoff_of (sample_clock 0) 2) true w1
       = (inr (tally 0 0 0 0 0), w2)
    /\ db w2 = db w1
    /\ stdout w2
       = ((if true then [Count "Archived user activity logs" O] else [])
          ++ [Count "Archived flood record activities" O;
              Count "Archived certificate records" O;
              Count "Archived report records" O;
              Count "Archived assessment records" O]
          ++ stdout w1)%list
    /\ previewed_total
         (archive_old_records._count_records (cutoff_of (sample_clock 0) 2) true)
         w1 = Some O.
Proof.
  apply (@archive_twice_mutates_nothing sample_clock no_fault
           (cutoff_of (sample_clock 0) 2) true (sample_world sample_db [])).
  intros m. reflexivity.
Defined.

(** *** Store failures and the transaction *)

Lemma atomic_rollback {A} (body : M A) (w w' : World) (e : Exc) :
  atomic body w = (inl e, w') -> db w' = db w.
Proof.
  unfold atomic. destruct (body w) as [[e0|a] w0]; intros [= <- <-]; reflexivity.
Qed.

(** The update step of the archive command when the store fails on a kind
    that takes part: the first such kind raises, and the tables are those
    found on entry, also the ones updated before the failure. *)
Lemma archive_records_fault clock fault (cutoff : datetime) (il : bool)
    (w : World) (m : Model) :
  participates il m = true -> fault m <> None ->
  exists m' out,
    archive_old_records._archive_records clock fault cutoff il w
    = (inl (DatabaseError m'), mkWorld (db w) (S (ticks w)) (stdin w) out).
Proof.
  intros Hp Hm.
  unfold archive_old_records._archive_records, atomic, bind, qs_update,
    timezone_now.
  simpl.
  destruct (fault AssessmentRecord) eqn:Fa; simpl;
    [eexists; eexists; reflexivity|].
  destruct (fault ReportRecord) eqn:Fr; simpl;
    [eexists; eexists; reflexivity|].
  destruct (fault CertificateRecord) eqn:Fc; simpl;
    [eexists; eexists; reflexivity|].
  destruct (fault FloodRecordActivity) eqn:Ff; simpl;
    [eexists; eexists; reflexivity|].
  destruct il; simpl.
  - destruct (fault UserLog) eqn:Fl; simpl; [eexists; eexists; reflexivity|].
    destruct m; congruence.
  - destruct m; simpl in Hp; congruence.
Qed.

Lemma restore_records_fault fault (al : bool) (ty : option string)
    (a b : option datetime) (w : World) (m : Model) :
  selected al ty m = true -> fault m <> None ->
  exists m' out,
    restore_archived_records._restore_records fault al ty a b w
    = (inl (DatabaseError m'), mkWorld (db w) (ticks w) (stdin w) out).
Proof.
  intros Hp Hm.
  unfold restore_archived_records._restore_records, atomic, bind, qs_update.
  rewrite !lookups_get_queryset.
  unfold selected in Hp.
  repeat match goal with
         | |- context [if ?c then _ else _] => destruct c eqn:?; simpl
         | |- context [fault ?k] =>
             lazymatch goal with
             | H : fault k = _ |- _ => rewrite H
             | _ => destruct (fault k) eqn:?
             end; simpl
         end;
    try (eexists; eexists; reflexivity);
    destruct m; simpl in Hp; congruence.
Qed.

Lemma archive_handle_fault clock fault (y : Z) (il : bool) (w : World)
    (total : nat) (response : string) (rest : list string) (m : Model) :
  1 <= y -> clock (ticks w) <= datetime_max ->
  datetime_min <= cutoff_of (clock (ticks w)) y ->
  previewed_total
    (archive_old_records._count_records (cutoff_of (clock (ticks w)) y) il) w
  = Some total ->
  (0 < total)%nat ->
  stdin w = response :: rest ->
  lower response = "yes" ->
  participates il m = true -> fault m <> None ->
  exists m' out,
    archive_old_records.handle clock fault
      (archive_old_records.mkOptions y false true il) w
    = (inl (DatabaseError m'), mkWorld (db w) (S (S (ticks w))) rest out).
Proof.
  intros Hy Ht Hc Htot Hpos Hin Hyes Hp Hm.
  rewrite archive_previewed_total in Htot.
  destruct (archive_handle_execute clock fault il w Hy Ht Hc) as [head ->].
  unfold bind at 1. rewrite (@archive_confirm_run _ _ _ Htot).
  destruct total as [|n]; [lia|]. simpl. rewrite Hin, Hyes. simpl.
  unfold bind at 1. simpl.
  match goal with
  | |- context [bind (archive_old_records._archive_records ?c ?f ?k ?i) _ ?W] =>
      destruct (@archive_records_fault c f k i W m Hp Hm) as [m' [out Hrun]];
      rewrite (@bind_err _ _ _ _ _ _ _ Hrun)
  end.
  simpl. eexists. eexists. reflexivity.
Qed.

Lemma restore_handle_fault fault strptime (al : bool) (ty df dt : option string)
    (a b : option datetime) (w : World)
    (total : nat) (response : string) (rest : list string) (m : Model) :
  al || truthy ty || truthy df = true ->
  parsed strptime df = Some a ->
  parsed strptime dt = Some b ->
  previewed_total (restore_archived_records._count_records al ty a b) w
  = Some total ->
  (0 < total)%nat ->
  stdin w = response :: rest ->
  lower response = "yes" ->
  selected al ty m = true -> fault m <> None ->
  exists m' out,
    restore_archived_records.handle fault strptime
      (restore_archived_records.mkOptions al ty df dt false true) w
    = (inl (DatabaseError m'), mkWorld (db w) (ticks w) rest out).
Proof.
  intros Hsel Ha Hb Htot Hpos Hin Hyes Hp Hm.
  rewrite restore_previewed_total in Htot.
  destruct (@restore_handle_execute fault strptime al ty df dt a b w Hsel Ha Hb)
    as [head ->].
  unfold bind at 1. rewrite (@restore_confirm_run _ _ _ Htot).
  destruct total as [|n]; [lia|]. simpl. rewrite Hin, Hyes. simpl.
  unfold bind at 1. simpl.
  match goal with
  | |- context [bind (restore_archived_records._restore_records ?f ?x ?t ?p ?q) _ ?W] =>
      destruct (@restore_records_fault f x t p q W m Hp Hm) as [m' [out Hrun]];
      rewrite (@bind_err _ _ _ _ _ _ _ Hrun)
  end.
  simpl. eexists. eexists. reflexivity.
Qed.

(** C1 (as amended).  In every confirmed execute run of the archive or of
    the restore command the bulk updates of all kinds run inside one
    transaction, the one [@transaction.atomic] opens around the whole
    updating method.  If the store fails during the update of any kind that
    takes part, the run ends with that database error and every table,
    those of the kinds updated earlier in the run included, is as it was
    before the run.  Whenever one of the two updating methods raises, no
    table has changed. *)
Theorem one_transaction_spans_all_kinds :
  (forall clock fault (years : Z) (include_logs : bool) (w : World)
          (total : nat) (response : string) (rest : list string) (m : Model),
      1 <= years ->
      clock (ticks w) <= datetime_max ->
      datetime_min <= cutoff_of (clock (ticks w)) years ->
      previewed_total
        (archive_old_records._count_records
           (cutoff_of (clock (ticks w)) years) include_logs) w = Some total ->
      (0 < total)%nat ->
      stdin w = response :: rest ->
      lower response = "yes" ->
      participates include_logs m = true ->
      fault m <> None ->
      exists m',
        fst (archive_old_records.handle clock fault
               (archive_old_records.mkOptions years false true include_logs) w)
        = inl (DatabaseError m')
        /\ db (snd (archive_old_records.handle clock fault
                      (archive_old_records.mkOptions years false true include_logs)
                      w)) = db w)
  /\
  (forall fault strptime (all : bool) (type date_from date_to : option string)
          (a b : option datetime) (w : World)
          (total : nat) (response : string) (rest : list string) (m : Model),
      all || truthy type || truthy date_from = true ->
      parsed strptime date_from = Some a ->
      parsed strptime date_to = Some b ->
      previewed_total
        (restore_archived_records._count_records all type a b) w = Some total ->
      (0 < total)%nat ->
      stdin w = response :: rest ->
      lower response = "yes" ->
      selected all type m = true ->
      fault m <> None ->
      exists m',
        fst (restore_archived_records.handle fault strptime
               (restore_archived_records.mkOptions all type date_from date_to
                  false true) w)
        = inl (DatabaseError m')
        /\ db (snd (restore_archived_records.handle fault strptime
                      (restore_archived_records.mkOptions all type date_from date_to
                         false true) w)) = db w)
  /\
  (forall clock fault cutoff include_logs (w w' : World) (e : Exc),
      archive_old_records._archive_records clock fault cutoff include_logs w
      = (inl e, w') ->
      db w' = db w)
  /\
  (forall fault all type a b (w w' : World) (e : Exc),
      restore_archived_records._restore_records fault all type a b w
      = (inl e, w') ->
      db w' = db w).
Proof.
  split; [|split; [|split]].
  - intros clock fault y il w total response rest m
           Hy Ht Hc Htot Hpos Hin Hyes Hp Hm.
    destruct (@archive_handle_fault clock fault y il w total response rest m
                Hy Ht Hc Htot Hpos Hin Hyes Hp Hm) as [m' [out ->]].
    exists m'. split; reflexivity.
  - intros fault strptime al ty df dt a b w total response rest m
           Hsel Ha Hb Htot Hpos Hin Hyes Hp Hm.
    destruct (@restore_handle_fault fault strptime al ty df dt a b w total
                response rest m Hsel Ha Hb Htot Hpos Hin Hyes Hp Hm)
      as [m' [out ->]].
    exists m'. split; reflexivity.
  - intros clock fault cutoff il w w' e H.
    unfold archive_old_records._archive_records in H.
    exact (atomic_rollback _ _ H).
  - intros fault al ty a b w w' e H.
    unfold restore_archived_records._restore_records in H.
    exact (atomic_rollback _ _ H).
Qed.

Lemma one_transaction_spans_all_kinds_witness :
  exists m',
    fst (archive_old_records.handle sample_clock (reports_fail_after 1)
           (archive_old_records.mkOptions 2 false true false)
           (sample_world sample_db ["yes"]))
    = inl (DatabaseError m')
    /\ db (snd (archive_old_records.handle sample_clock (reports_fail_after 1)
                  (archive_old_records.mkOptions 2 false true false)
                  (sample_world sample_db ["yes"]))) = sample_db.
Proof.
  refine (proj1 one_transaction_spans_all_kinds sample_clock (reports_fail_after 1)
            2 false (sample_world sample_db ["yes"]) 2%nat "yes" [] ReportRecord
            _ _ _ _ _ _ _ _ _).
  - lia.
  - vm_compute. discriminate.
  - vm_compute. discriminate.
  - vm_compute. reflexivity.
  - lia.
  - reflexivity.
  - reflexivity.
  - reflexivity.
  - discriminate.
Defined.

(** C1 as stated fails: the store fails on the report update of a confirmed
    archive run, after the assessment update of the same run went through
    (its line is on standard output); the run ends with the database error,
    and the assessment table is the one from before the run, not the
    archived one the claim says stays committed. *)
Lemma per_kind_transactions_counterexample :
  fst (archive_old_records.handle sample_clock (reports_fail_after 1)
         (archive_old_records.mkOptions 2 false true false)
         (sample_world sample_db ["yes"]))
  = inl (DatabaseError ReportRecord)
  /\ In (Count "Archived assessment records" 1)
        (stdout (snd (archive_old_records.handle sample_clock (reports_fail_after 1)
                        (archive_old_records.mkOptions 2 false true false)
                        (sample_world sample_db ["yes"]))))
  /\ assessments
       (db (snd (archive_old_records.handle sample_clock (reports_fail_after 1)
                   (archive_old_records.mkOptions 2 false true false)
                   (sample_world sample_db ["yes"]))))
     = assessments sample_db
  /\ ~ (assessments
          (db (snd (archive_old_records.handle sample_clock (reports_fail_after 1)
                      (archive_old_records.mkOptions 2 false true false)
                      (sample_world sample_db ["yes"]))))
        = map (archive_row (cutoff_of (sample_clock 0) 2) (sample_clock 1))
              (assessments sample_db)).
Proof.
  split; [vm_compute; reflexivity|].
  split; [vm_compute; tauto|].
  split; [vm_compute; reflexivity|].
  vm_compute. discriminate.
Qed.

(** C3 (the code where it departs from the claim).  A restore command line
    that carries a mode flag and [--date-to] but neither [--all], [--type]
    nor [--date-from] is rejected with the selector error, whatever the
    value of [--date-to], before anything is read or written; yet the query
    the command builds for an upper bound alone is well defined. *)
Theorem date_to_alone_is_rejected fault strptime (date_to : option string)
    (w : World) (m : Model) (d : datetime) :
  restore_archived_records.handle fault strptime
    (restore_archived_records.mkOptions false None None date_to false true) w
  = (inl (CommandError
            "You must specify either --all, --type, or --date-from/--date-to"), w)
  /\ restore_archived_records.handle fault strptime
       (restore_archived_records.mkOptions false None None date_to true false) w
     = (inl (CommandError
               "You must specify either --all, --type, or --date-from/--date-to"), w)
  /\ restore_archived_records._get_queryset m None (Some d)
     = mkQS m [is_archived_eq true; timestamp__lte d].
Proof. repeat split. Qed.

(** The failing command line of C3 on sample data:
    [restore_archived_records --date-to=2023-12-31 --execute]. *)
Example date_to_alone_sample :
  restore_archived_records.handle no_fault sample_strptime
    (restore_archived_records.mkOptions false None None (Some "2023-12-31")
       false true)
    (sample_world archived_db ["yes"])
  = (inl (CommandError
            "You must specify either --all, --type, or --date-from/--date-to"),
     sample_world archived_db ["yes"]).
Proof. reflexivity. Qed.

(** Specification scenario 7: assessments aged three years, one year and six
    months; [--years=2 --execute] with an affirmative answer archives
    exactly the first, and the line written for assessments counts 1. *)
Example archive_three_assessments :
  map (fun r => (pk r, is_archived r)) (assessments sample_db_archived)
  = [(1, true); (2, false); (3, false)]
  /\ In (Count "Archived assessment records" 1)
        (stdout (snd (archive_old_records.handle sample_clock no_fault
                        (archive_old_records.mkOptions 2 false true false)
                        (sample_world sample_db ["yes"])))).
Proof. split; [reflexivity | vm_compute; tauto]. Qed.

(* ===================================================================== *)
(** ** Further properties of the two commands *)
(* ===================================================================== *)

Import Frames.

(** *** Rows are neither created nor deleted, and only the two archival
    columns are ever written *)

Lemma skeleton_update_rows {B} (ls : list Lookup) (b : bool)
    (a : option datetime) (rows : list (Row B)) :
  map skeleton (update_rows ls b a rows) = map skeleton rows.
Proof.
  unfold update_rows. rewrite map_map. apply map_ext. intros r.
  destruct (matches ls r); reflexivity.
Qed.

Lemma skeleton_update_rows_upto {B} (n : nat) (ls : list Lookup) (b : bool)
    (a : option datetime) (rows : list (Row B)) :
  map skeleton (update_rows_upto n ls b a rows) = map skeleton rows.
Proof.
  revert n. induction rows as [|r rows IH]; intros n.
  - destruct n; reflexivity.
  - destruct n as [|n]; [reflexivity|]. simpl.
    destruct (matches ls r); simpl; rewrite IH; reflexivity.
Qed.

Lemma same_rows_refl (d : DB) : same_rows d d.
Proof. intros m. reflexivity. Qed.

Lemma same_rows_trans (a b c : DB) :
  same_rows a b -> same_rows b c -> same_rows a c.
Proof. intros Hab Hbc m. rewrite Hbc. apply Hab. Qed.

Lemma qs_update_same_rows fault (qs : QuerySet) (b : bool) (a : option datetime) :
  stable same_rows (qs_update fault qs b a).
Proof.
  intros w m. unfold qs_update.
  destruct (Model_eq_dec m (model qs)) as [E|NE].
  - subst m. destruct (fault (model qs)); simpl; rewrite table_set_table.
    + apply skeleton_update_rows_upto.
    + apply skeleton_update_rows.
  - destruct (fault (model qs)); simpl;
      rewrite table_set_table_other by exact NE; reflexivity.
Qed.

(** Opens an updating method for a relation every bulk update is stable
    for. *)
Ltac update_steps lemma :=
  repeat first
    [ solve [auto with stable]
    | apply lemma
    | apply stable_bind; [assumption | | intros ?]
    | match goal with
      | |- stable _ (if ?c then _ else _) => destruct c
      end ].

Lemma archive_records_same_rows clock fault cutoff include_logs :
  stable same_rows
    (archive_old_records._archive_records clock fault cutoff include_logs).
Proof.
  pose proof same_rows_refl. pose proof same_rows_trans.
  unfold archive_old_records._archive_records.
  apply stable_atomic; [assumption|].
  update_steps qs_update_same_rows.
Qed.

Lemma restore_records_same_rows fault restore_all record_type date_from date_to :
  stable same_rows
    (restore_archived_records._restore_records fault restore_all record_type
       date_from date_to).
Proof.
  pose proof same_rows_refl. pose proof same_rows_trans.
  unfold restore_archived_records._restore_records.
  apply stable_atomic; [assumption|].
  update_steps qs_update_same_rows.
Qed.

(** X5.  Whatever the command line, the clock, the console input and the
    store do, a run of the archive or of the restore command leaves every
    table with the same rows in the same order, each with the primary key,
    business columns and timestamp it had: nothing is created or deleted,
    and only [is_archived] and [archived_at] are ever written. *)
Theorem commands_only_write_archival_columns :
  (forall clock fault (options : archive_old_records.Options) (w : World),
      same_rows (db w)
        (db (snd (archive_old_records.handle clock fault options w))))
  /\
  (forall fault strptime (options : restore_archived_records.Options) (w : World),
      same_rows (db w)
        (db (snd (restore_archived_records.handle fault strptime options w)))).
Proof.
  split.
  - intros clock fault options w.
    apply (archive_handle_stable same_rows_refl same_rows_trans).
    intros. apply archive_records_same_rows.
  - intros fault strptime options w.
    apply (restore_handle_stable same_rows_refl same_rows_trans).
    intros. apply restore_records_same_rows.
Qed.

(** *** Each command leaves the rows of the other state alone *)

Lemma nth_update_rows_unmatched {B} (ls : list Lookup) (b : bool)
    (a : option datetime) (rows : list (Row B)) (i : nat) (r : Row B) :
  nth_error rows i = Some r -> matches ls r = false ->
  nth_error (update_rows ls b a rows) i = Some r.
Proof.
  intros Hn Hm. unfold update_rows. rewrite nth_error_map, Hn. simpl.
  rewrite Hm. reflexivity.
Qed.

Lemma nth_update_rows_upto_unmatched {B} (n : nat) (ls : list Lookup) (b : bool)
    (a : option datetime) (rows : list (Row B)) (i : nat) (r : Row B) :
  nth_error rows i = Some r -> matches ls r = false ->
  nth_error (update_rows_upto n ls b a rows) i = Some r.
Proof.
  revert n i. induction rows as [|r0 rows IH]; intros n i Hn Hm.
  - destruct i; discriminate.
  - destruct n as [|n]; [exact Hn|]. simpl.
    destruct i as [|i]; simpl in Hn.
    + injection Hn as ->. rewrite Hm. reflexivity.
    + destruct (matches ls r0); simpl; apply IH; assumption.
Qed.

Lemma untouched_where_refl (flag : bool) (d : DB) : untouched_where flag d d.
Proof. intros m i r H _. exact H. Qed.

Lemma untouched_where_trans (flag : bool) (a b c : DB) :
  untouched_where flag a b -> untouched_where flag b c -> untouched_where flag a c.
Proof. intros Hab Hbc m i r Hn Hf. apply Hbc; [apply Hab|]; assumption. Qed.

Lemma qs_update_untouched (flag : bool) fault (qs : QuerySet) (b : bool)
    (a : option datetime) :
  (forall B (r : Row B), matches (lookups qs) r = true -> is_archived r <> flag) ->
  stable (untouched_where flag) (qs_update fault qs b a).
Proof.
  intros Hsel w m i r Hn Hf.
  assert (Hm : matches (lookups qs) r = false).
  { destruct (matches (lookups qs) r) eqn:E; [|reflexivity].
    exfalso. exact (Hsel _ r E Hf). }
  unfold qs_update.
  destruct (Model_eq_dec m (model qs)) as [E|NE].
  - subst m. destruct (fault (model qs)); simpl; rewrite table_set_table.
    + apply nth_update_rows_upto_unmatched; assumption.
    + apply nth_update_rows_unmatched; assumption.
  - destruct (fault (model qs)); simpl;
      rewrite table_set_table_other by exact NE; exact Hn.
Qed.

Lemma archive_update_untouched fault (m : Model) (cutoff now : datetime) :
  stable (untouched_where true)
    (qs_update fault (archive_old_records.old_unarchived m cutoff) true (Some now)).
Proof.
  apply qs_update_untouched. intros B r. simpl. apply old_unarchived_flips.
Qed.

Lemma restore_update_untouched fault (m : Model) (a b : option datetime) :
  stable (untouched_where false)
    (qs_update fault (restore_archived_records._get_queryset m a b) false None).
Proof.
  apply qs_update_untouched. intros B r. rewrite lookups_get_queryset. simpl.
  apply window_flips.
Qed.

Lemma archive_records_untouched clock fault cutoff include_logs :
  stable (untouched_where true)
    (archive_old_records._archive_records clock fault cutoff include_logs).
Proof.
  pose proof (@untouched_where_refl true).
  pose proof (@untouched_where_trans true).
  unfold archive_old_records._archive_records.
  apply stable_atomic; [assumption|].
  update_steps archive_update_untouched.
Qed.

Lemma restore_records_untouched fault restore_all record_type date_from date_to :
  stable (untouched_where false)
    (restore_archived_records._restore_records fault restore_all record_type
       date_from date_to).
Proof.
  pose proof (@untouched_where_refl false).
  pose proof (@untouched_where_trans false).
  unfold restore_archived_records._restore_records.
  apply stable_atomic; [assumption|].
  update_steps restore_update_untouched.
Qed.

(** X6.  On every input, the archive command leaves each row that is already
    archived exactly as it is (it never restores a row and never moves an
    [archived_at] that is set), and the restore command leaves each row
    that is not archived exactly as it is (it never archives a row). *)
Theorem commands_leave_the_other_state_alone :
  (forall clock fault (options : archive_old_records.Options) (w : World),
      untouched_where true (db w)
        (db (snd (archive_old_records.handle clock fault options w))))
  /\
  (forall fault strptime (options : restore_archived_records.Options) (w : World),
      untouched_where false (db w)
        (db (snd (restore_archived_records.handle fault strptime options w)))).
Proof.
  split.
  - intros clock fault options w.
    apply (archive_handle_stable (@untouched_where_refl true)
             (@untouched_where_trans true)).
    intros. apply archive_records_untouched.
  - intros fault strptime options w.
    apply (restore_handle_stable (@untouched_where_refl false)
             (@untouched_where_trans false)).
    intros. apply restore_records_untouched.
Qed.

(** *** Which exceptions a step can raise *)

Section RaisesOnly.

Variable P : Exc -> Prop.

Lemma raises_only_ret {A} (a : A) : raises_only P (ret a).
Proof. intros w e w' H. discriminate H. Qed.

Lemma raises_only_raise {A} (e : Exc) : P e -> raises_only P (@raise A e).
Proof. intros He w e' w' [= <- _]. exact He. Qed.

Lemma raises_only_write (l : Line) : raises_only P (write l).
Proof. intros w e w' H. discriminate H. Qed.

Lemma raises_only_timezone_now clock : raises_only P (timezone_now clock).
Proof. intros w e w' H. discriminate H. Qed.

Lemma raises_only_qs_count (qs : QuerySet) : raises_only P (qs_count qs).
Proof. intros w e w' H. discriminate H. Qed.

Lemma raises_only_input (prompt : string) :
  P EOFError -> raises_only P (input prompt).
Proof.
  intros He w e w'. unfold input. destruct (stdin w); intros [= <- _];
    exact He.
Qed.

Lemma raises_only_getitem (d : dict) (key : string) :
  P (KeyError key) -> raises_only P (getitem d key).
Proof.
  intros He w e w'. unfold getitem. destruct (dict_get key d).
  - intros H. discriminate H.
  - intros [= <- _]. exact He.
Qed.

Lemma raises_only_minus_days (t d : Z) :
  P OverflowError -> raises_only P (minus_days t d).
Proof.
  intros He w e w'. unfold minus_days.
  destruct ((d <? -999999999) || (999999999 <? d));
    [intros [= <- _]; exact He|].
  destruct ((t - d * us_per_day <? datetime_min)
            || (datetime_max <? t - d * us_per_day)).
  - intros [= <- _]. exact He.
  - intros H. discriminate H.
Qed.

Lemma raises_only_qs_update fault (qs : QuerySet) (b : bool) (a : option datetime) :
  (forall m, P (DatabaseError m)) -> raises_only P (qs_update fault qs b a).
Proof.
  intros He w e w'. unfold qs_update. destruct (fault (model qs)).
  - intros [= <- _]. apply He.
  - intros H. discriminate H.
Qed.

Lemma raises_only_bind {A B} (c : M A) (k : A -> M B) :
  raises_only P c -> (forall a, raises_only P (k a)) -> raises_only P (bind c k).
Proof.
  intros Hc Hk w e w'. unfold bind.
  destruct (c w) as [[e0|a] w1] eqn:E.
  - intros [= <- _]. exact (Hc _ _ _ E).
  - intros H. exact (Hk a _ _ _ H).
Qed.

Lemma raises_only_atomic {A} (body : M A) :
  raises_only P body -> raises_only P (atomic body).
Proof.
  intros Hb w e w'. unfold atomic.
  destruct (body w) as [[e0|a] w1] eqn:E.
  - intros [= <- _]. exact (Hb _ _ _ E).
  - intros H. discriminate H.
Qed.

End RaisesOnly.

(** Opens a command whose leaves raise only exceptions other than
    [CommandError]. *)
Ltac no_command_error_steps :=
  repeat first
    [ apply raises_only_ret
    | apply raises_only_write
    | apply raises_only_timezone_now
    | apply raises_only_qs_count
    | apply raises_only_input; intros ? ?; discriminate
    | apply raises_only_getitem; intros ? ?; discriminate
    | apply raises_only_minus_days; intros ? ?; discriminate
    | apply raises_only_qs_update; intros ? ? ?; discriminate
    | apply raises_only_atomic
    | apply raises_only_bind; [ | intros ?]
    | match goal with
      | |- raises_only _ (if ?c then _ else _) => destruct c
      end ].

Lemma archive_valid_never_command_error clock fault (y : Z) (d e il : bool) :
  d <> e -> 1 <= y ->
  raises_only not_command_error
    (archive_old_records.handle clock fault (archive_old_records.mkOptions y d e il)).
Proof.
  intros Hde Hy. unfold archive_old_records.handle. simpl.
  replace (y <? 1) with false by (symmetry; apply Z.ltb_ge; lia).
  destruct d, e; try congruence; simpl;
    unfold archive_old_records._count_records,
      archive_old_records._display_summary,
      archive_old_records._confirm_archiving,
      archive_old_records._archive_records,
      archive_old_records._display_results;
    no_command_error_steps.
Qed.

(** X1.  The archive command raises [CommandError] exactly when the mode
    flags are not one of each (both [--dry-run] and [--execute], or neither)
    or [--years] is below 1; it then has read no clock and no input, written
    nothing and changed nothing. *)
Theorem archive_command_error_iff clock fault
    (options : archive_old_records.Options) (w : World) :
  ((exists msg, fst (archive_old_records.handle clock fault options w)
                = inl (CommandError msg))
   <-> (archive_old_records.dry_run options = archive_old_records.execute options
        \/ archive_old_records.years options < 1))
  /\ ((archive_old_records.dry_run options = archive_old_records.execute options
       \/ archive_old_records.years options < 1) ->
      snd (archive_old_records.handle clock fault options w) = w).
Proof.
  destruct options as [y d e il]. simpl.
  assert (Hbad : d = e \/ y < 1 ->
                 exists msg,
                   archive_old_records.handle clock fault
                     (archive_old_records.mkOptions y d e il) w
                   = (inl (CommandError msg), w)).
  { intros H. unfold archive_old_records.handle. simpl.
    destruct d, e; simpl; try (eexists; reflexivity);
      (destruct H as [H|H]; [discriminate H|]);
      (replace (y <? 1) with true by (symmetry; apply Z.ltb_lt; exact H));
      eexists; reflexivity. }
  split; [split|].
  - intros [msg Hmsg].
    destruct (Bool.bool_dec d e) as [E|NE]; [left; exact E|].
    destruct (Z_lt_ge_dec y 1) as [L|G]; [right; exact L|].
    exfalso.
    destruct (archive_old_records.handle clock fault
                (archive_old_records.mkOptions y d e il) w) as [r w'] eqn:Erun.
    simpl in Hmsg. subst r.
    exact (@archive_valid_never_command_error clock fault y d e il NE
             ltac:(lia) _ _ _ Erun msg eq_refl).
  - intros H. destruct (Hbad H) as [msg ->]. exists msg. reflexivity.
  - intros H. destruct (Hbad H) as [msg ->]. reflexivity.
Qed.

Lemma archive_command_error_iff_witness :
  snd (archive_old_records.handle sample_clock no_fault
         (archive_old_records.mkOptions 0 false true false)
         (sample_world sample_db ["yes"]))
  = sample_world sample_db ["yes"].
Proof.
  apply (proj2 (archive_command_error_iff sample_clock no_fault
                  (archive_old_records.mkOptions 0 false true false)
                  (sample_world sample_db ["yes"]))).
  right. simpl. lia.
Defined.

Lemma parse_date_never_command_error strptime (arg : option string)
    (msg : string) (a : option datetime) :
  parsed strptime arg = Some a ->
  raises_only not_command_error
    (restore_archived_records.parse_date strptime arg msg).
Proof.
  intros H w e w' Hrun. rewrite (@parse_date_run strptime arg msg a w H) in Hrun.
  discriminate Hrun.
Qed.

Lemma restore_valid_never_command_error fault strptime
    (al : bool) (ty df dt : option string) (d e : bool) (a b : option datetime) :
  d <> e ->
  al || truthy ty || truthy df = true ->
  parsed strptime df = Some a ->
  parsed strptime dt = Some b ->
  raises_only not_command_error
    (restore_archived_records.handle fault strptime
       (restore_archived_records.mkOptions al ty df dt d e)).
Proof.
  intros Hde Hsel Ha Hb. unfold restore_archived_records.handle. simpl.
  replace (negb al && negb (truthy ty) && negb (truthy df)) with false
    by (destruct al, (truthy ty), (truthy df); simpl in *; congruence).
  destruct d, e; try congruence; simpl;
    (apply raises_only_bind;
     [eapply parse_date_never_command_error; exact Ha | intros ?]);
    (apply raises_only_bind;
     [eapply parse_date_never_command_error; exact Hb | intros ?]);
    unfold restore_archived_records._count_records,
      restore_archived_records._display_summary,
      restore_archived_records._confirm_restoration,
      restore_archived_records._restore_records,
      restore_archived_records._display_results;
    no_command_error_steps.
Qed.

(** X2.  The restore command raises [CommandError] exactly when the mode
    flags are not one of each, or none of [--all], a non-empty [--type] and a
    non-empty [--date-from] is given, or a non-empty [--date-from] or
    [--date-to] does not parse; it then has read no input, written nothing
    and changed nothing. *)
Theorem restore_command_error_iff fault strptime
    (options : restore_archived_records.Options) (w : World) :
  ((exists msg, fst (restore_archived_records.handle fault strptime options w)
                = inl (CommandError msg))
   <-> (restore_archived_records.dry_run options
        = restore_archived_records.execute options
        \/ (restore_archived_records.all options = false
            /\ truthy (restore_archived_records.type options) = false
            /\ truthy (restore_archived_records.date_from options) = false)
        \/ parsed strptime (restore_archived_records.date_from options) = None
        \/ parsed strptime (restore_archived_records.date_to options) = None))
  /\ ((exists msg, fst (restore_archived_records.handle fault strptime options w)
                   = inl (CommandError msg)) ->
      snd (restore_archived_records.handle fault strptime options w) = w).
Proof.
  destruct options as [al ty df dt d e]. simpl.
  assert (Hbad : d = e
                 \/ (al = false /\ truthy ty = false /\ truthy df = false)
                 \/ parsed strptime df = None
                 \/ parsed strptime dt = None ->
                 exists msg,
                   restore_archived_records.handle fault strptime
                     (restore_archived_records.mkOptions al ty df dt d e) w
                   = (inl (CommandError msg), w)).
  { intros H. unfold restore_archived_records.handle. simpl.
    destruct (Bool.bool_dec d e) as [E|NE].
    { subst e. destruct d; simpl; eexists; reflexivity. }
    replace (negb d && negb e) with false by (destruct d, e; simpl; congruence).
    replace (d && e) with false by (destruct d, e; simpl; congruence).
    destruct H as [H|H]; [contradiction|].
    destruct (negb al && negb (truthy ty) && negb (truthy df)) eqn:Esel;
      [eexists; reflexivity|].
    destruct H as [[H1 [H2 H3]]|H];
      [rewrite H1, H2, H3 in Esel; discriminate Esel|].
    destruct (parsed strptime df) as [a|] eqn:Ea.
    - rewrite (@bind_run _ _ _ _ _ _ _ (@parse_date_run strptime df _ a w Ea)).
      destruct H as [H|H]; [discriminate H|].
      rewrite (@bind_err _ _ _ _ _ _ _ (@parse_date_fail strptime dt _ w H)).
      eexists. reflexivity.
    - rewrite (@bind_err _ _ _ _ _ _ _ (@parse_date_fail strptime df _ w Ea)).
      eexists. reflexivity. }
  assert (Hgood : (exists msg,
                      fst (restore_archived_records.handle fault strptime
                             (restore_archived_records.mkOptions al ty df dt d e) w)
                      = inl (CommandError msg)) ->
                  d = e
                  \/ (al = false /\ truthy ty = false /\ truthy df = false)
                  \/ parsed strptime df = None
                  \/ parsed strptime dt = None).
  { intros [msg Hmsg].
    destruct (Bool.bool_dec d e) as [E|NE]; [left; exact E|].
    destruct (al || truthy ty || truthy df) eqn:Esel;
      [|right; left; destruct al, (truthy ty), (truthy df);
        simpl in Esel; try discriminate Esel; repeat split].
    destruct (parsed strptime df) as [a|] eqn:Ea; [|right; right; left; reflexivity].
    destruct (parsed strptime dt) as [b|] eqn:Eb; [|right; right; right; reflexivity].
    exfalso.
    destruct (restore_archived_records.handle fault strptime
                (restore_archived_records.mkOptions al ty df dt d e) w)
      as [r w'] eqn:Erun.
    simpl in Hmsg. subst r.
    exact (@restore_valid_never_command_error fault strptime al ty df dt d e a b
             NE Esel Ea Eb _ _ _ Erun msg eq_refl). }
  split; [split|].
  - exact Hgood.
  - intros H. destruct (Hbad H) as [msg ->]. exists msg. reflexivity.
  - intros H. destruct (Hbad (Hgood H)) as [msg ->]. reflexivity.
Qed.

Lemma restore_command_error_iff_witness :
  snd (restore_archived_records.handle no_fault sample_strptime
         (restore_archived_records.mkOptions true None (Some "01/01/2023") None
            false true)
         (sample_world archived_db ["yes"]))
  = sample_world archived_db ["yes"].
Proof.
  apply (proj2 (restore_command_error_iff no_fault sample_strptime
                  (restore_archived_records.mkOptions true None
                     (Some "01/01/2023") None false true)
                  (sample_world archived_db ["yes"]))).
  exists "Invalid date-from format. Use YYYY-MM-DD". reflexivity.
Defined.

(** X3.  With one mode flag and [--years] at least 1, when the cutoff would
    fall before [datetime.min] the archive command ends in [OverflowError]
    (not in [CommandError]) right after its first clock reading: nothing is
    counted, written or changed, and no input is read. *)
Theorem archive_cutoff_overflow clock fault (years : Z) (dry_run execute : bool)
    (include_logs : bool) (w : World) :
  dry_run <> execute ->
  1 <= years ->
  cutoff_of (clock (ticks w)) years < datetime_min ->
  archive_old_records.handle clock fault
    (archive_old_records.mkOptions years dry_run execute include_logs) w
  = (inl OverflowError, mkWorld (db w) (S (ticks w)) (stdin w) (stdout w)).
Proof.
  intros Hde Hy Hc. unfold archive_old_records.handle. simpl.
  replace (negb dry_run && negb execute) with false
    by (destruct dry_run, execute; simpl; congruence).
  replace (dry_run && execute) with false
    by (destruct dry_run, execute; simpl; congruence).
  replace (years <? 1) with false by (symmetry; apply Z.ltb_ge; lia).
  unfold bind at 1. simpl.
  assert (Hm : forall w0, minus_days (clock (ticks w)) (365 * years) w0
                          = (inl OverflowError, w0)).
  { intros w0. unfold minus_days.
    destruct ((365 * years <? -999999999) || (999999999 <? 365 * years));
      [reflexivity|].
    unfold cutoff_of in Hc.
    replace (clock (ticks w) - 365 * years * us_per_day <? datetime_min) with true
      by (symmetry; apply Z.ltb_lt; exact Hc).
    reflexivity. }
  unfold bind at 1. rewrite Hm. reflexivity.
Qed.

Lemma archive_cutoff_overflow_witness :
  archive_old_records.handle sample_clock no_fault
    (archive_old_records.mkOptions 3000 false true false)
    (sample_world sample_db ["yes"])
  = (inl OverflowError, mkWorld sample_db 1 ["yes"] []).
Proof.
  apply (@archive_cutoff_overflow sample_clock no_fault 3000 false true false
           (sample_world sample_db ["yes"])).
  - discriminate.
  - lia.
  - vm_compute. reflexivity.
Defined.

(** *** A run that fails has changed nothing *)

Lemma fails_clean_of_stable {A} (c : M A) : stable eq c -> fails_clean c.
Proof.
  intros Hs w e w' H. specialize (Hs w). rewrite H in Hs. simpl in Hs.
  symmetry. exact Hs.
Qed.

Lemma fails_clean_bind {A B} (c : M A) (k : A -> M B) :
  stable eq c -> (forall a, fails_clean (k a)) -> fails_clean (bind c k).
Proof.
  intros Hc Hk w e w'. unfold bind. specialize (Hc w).
  destruct (c w) as [[e0|a] w1]; simpl in Hc.
  - intros [= _ <-]. symmetry. exact Hc.
  - intros H. rewrite Hc. exact (Hk a _ _ _ H).
Qed.

Lemma archive_records_total_key clock fault (cutoff : datetime) (il : bool)
    (w w1 : World) (counts : dict) :
  archive_old_records._archive_records clock fault cutoff il w = (inr counts, w1) ->
  dict_get "total" counts <> None.
Proof.
  unfold archive_old_records._archive_records, atomic, bind, qs_update,
    timezone_now.
  simpl.
  repeat match goal with
         | |- context [if ?c then _ else _] => destruct c eqn:?; simpl
         | |- context [fault ?k] =>
             lazymatch goal with
             | H : fault k = _ |- _ => rewrite H
             | _ => destruct (fault k) eqn:?
             end; simpl
         end;
    intros H; try discriminate H; injection H as <- _; discriminate.
Qed.

Lemma restore_records_total_key fault (al : bool) (ty : option string)
    (a b : option datetime) (w w1 : World) (counts : dict) :
  restore_archived_records._restore_records fault al ty a b w = (inr counts, w1) ->
  dict_get "total" counts <> None.
Proof.
  unfold restore_archived_records._restore_records, atomic, bind, qs_update.
  rewrite !lookups_get_queryset.
  repeat match goal with
         | |- context [if ?c then _ else _] => destruct c eqn:?; simpl
         | |- context [fault ?k] =>
             lazymatch goal with
             | H : fault k = _ |- _ => rewrite H
             | _ => destruct (fault k) eqn:?
             end; simpl
         end;
    intros H; try discriminate H; injection H as <- _; discriminate.
Qed.

Lemma archive_update_fails_clean clock fault (cutoff : datetime) (il : bool) :
  fails_clean
    (bind (archive_old_records._archive_records clock fault cutoff il)
       (fun archived_counts => archive_old_records._display_results archived_counts)).
Proof.
  intros w e w'. unfold bind.
  destruct (archive_old_records._archive_records clock fault cutoff il w)
    as [[e0|counts] w1] eqn:E.
  - intros [= _ <-]. unfold archive_old_records._archive_records in E.
    exact (atomic_rollback _ _ E).
  - intros H.
    destruct (@display_results_run counts w1 (@archive_records_total_key _ _ _ _ _ _ _ E))
      as [out Hd].
    rewrite Hd in H. discriminate H.
Qed.

Lemma restore_update_fails_clean fault (al : bool) (ty : option string)
    (a b : option datetime) :
  fails_clean
    (bind (restore_archived_records._restore_records fault al ty a b)
       (fun restored_counts =>
          restore_archived_records._display_results restored_counts)).
Proof.
  intros w e w'. unfold bind.
  destruct (restore_archived_records._restore_records fault al ty a b w)
    as [[e0|counts] w1] eqn:E.
  - intros [= _ <-]. unfold restore_archived_records._restore_records in E.
    exact (atomic_rollback _ _ E).
  - intros H.
    destruct (@restore_results_run counts w1 (@restore_records_total_key _ _ _ _ _ _ _ _ E))
      as [out Hd].
    rewrite Hd in H. discriminate H.
Qed.

(** X4.  On every input: when a run of the archive or of the restore command
    ends in an exception of any kind (a rejected command line, an overflow,
    end of input at the prompt, a database error), every table is as it was
    before the run. *)
Theorem failed_run_changes_nothing :
  (forall clock fault (options : archive_old_records.Options) (w w' : World)
          (e : Exc),
      archive_old_records.handle clock fault options w = (inl e, w') ->
      db w' = db w)
  /\
  (forall fault strptime (options : restore_archived_records.Options)
          (w w' : World) (e : Exc),
      restore_archived_records.handle fault strptime options w = (inl e, w') ->
      db w' = db w).
Proof.
  assert (Hr : forall d : DB, d = d) by reflexivity.
  assert (Ht : forall a b c : DB, a = b -> b = c -> a = c) by (intros; congruence).
  split.
  - intros clock fault options w w' e H.
    revert w e w' H.
    change (fails_clean (archive_old_records.handle clock fault options)).
    unfold archive_old_records.handle.
    destruct (negb (archive_old_records.dry_run options)
              && negb (archive_old_records.execute options));
      [apply fails_clean_of_stable; stable_steps|].
    destruct (archive_old_records.dry_run options
              && archive_old_records.execute options);
      [apply fails_clean_of_stable; stable_steps|].
    destruct (archive_old_records.years options <? 1);
      [apply fails_clean_of_stable; stable_steps|].
    apply fails_clean_bind; [stable_steps | intros t].
    apply fails_clean_bind; [stable_steps | intros c].
    apply fails_clean_bind; [stable_steps | intros _].
    apply fails_clean_bind; [apply archive_count_reads; assumption | intros counts].
    apply fails_clean_bind; [apply archive_summary_reads; assumption | intros _].
    destruct (archive_old_records.dry_run options);
      [apply fails_clean_of_stable; stable_steps|].
    apply fails_clean_bind; [apply archive_confirm_reads; assumption | intros ok].
    destruct (negb ok); [apply fails_clean_of_stable; stable_steps|].
    apply fails_clean_bind; [stable_steps | intros _].
    apply archive_update_fails_clean.
  - intros fault strptime options w w' e H.
    revert w e w' H.
    change (fails_clean (restore_archived_records.handle fault strptime options)).
    unfold restore_archived_records.handle.
    destruct (negb (restore_archived_records.dry_run options)
              && negb (restore_archived_records.execute options));
      [apply fails_clean_of_stable; stable_steps|].
    destruct (restore_archived_records.dry_run options
              && restore_archived_records.execute options);
      [apply fails_clean_of_stable; stable_steps|].
    destruct (negb (restore_archived_records.all options)
              && negb (truthy (restore_archived_records.type options))
              && negb (truthy (restore_archived_records.date_from options)));
      [apply fails_clean_of_stable; stable_steps|].
    apply fails_clean_bind; [apply parse_date_reads; assumption | intros a].
    apply fails_clean_bind; [apply parse_date_reads; assumption | intros b].
    apply fails_clean_bind; [stable_steps | intros _].
    apply fails_clean_bind; [apply restore_count_reads; assumption | intros counts].
    apply fails_clean_bind; [apply restore_summary_reads; assumption | intros _].
    destruct (restore_archived_records.dry_run options);
      [apply fails_clean_of_stable; stable_steps|].
    apply fails_clean_bind; [apply restore_confirm_reads; assumption | intros ok].
    destruct (negb ok); [apply fails_clean_of_stable; stable_steps|].
    apply fails_clean_bind; [stable_steps | intros _].
    apply restore_update_fails_clean.
Qed.

Lemma failed_run_changes_nothing_witness :
  db (snd (archive_old_records.handle sample_clock (reports_fail_after 0)
             (archive_old_records.mkOptions 2 false true false)
             (sample_world sample_db ["yes"]))) = sample_db.
Proof.
  refine (proj1 failed_run_changes_nothing sample_clock (reports_fail_after 0)
            (archive_old_records.mkOptions 2 false true false)
            (sample_world sample_db ["yes"]) _ (DatabaseError ReportRecord) _).
  vm_compute. reflexivity.
Defined.

(** *** Previewed and reported counts *)

(** X7.  On a store that does not fail, the dictionary the archive update
    returns is the very dictionary the preview computes on the same
    database: every kind's reported count, and the total, equal the
    previewed ones. *)
Theorem archive_reports_what_it_previewed clock fault (cutoff : datetime)
    (include_logs : bool) (w w0 : World) :
  reliable fault ->
  db w0 = db w ->
  fst (archive_old_records._archive_records clock fault cutoff include_logs w)
  = fst (archive_old_records._count_records cutoff include_logs w0).
Proof.
  intros Hf Hdb. rewrite (@archive_records_run clock fault cutoff include_logs w Hf).
  rewrite archive_count_run, Hdb. reflexivity.
Qed.

Lemma archive_reports_what_it_previewed_witness :
  fst (archive_old_records._archive_records sample_clock no_fault
         (cutoff_of (sample_clock 0) 2) true (sample_world sample_db []))
  = fst (archive_old_records._count_records (cutoff_of (sample_clock 0) 2) true
           (sample_world sample_db ["yes"])).
Proof.
  apply (@archive_reports_what_it_previewed sample_clock no_fault
           (cutoff_of (sample_clock 0) 2) true
           (sample_world sample_db []) (sample_world sample_db ["yes"])).
  - intros m. reflexivity.
  - reflexivity.
Defined.

(** X8.  On a store that does not fail, the dictionary the restore update
    returns has an entry for a kind exactly when the kind is selected
    ([--all], or [--type] naming it), holding the number of that kind's
    archived rows inside the bounds; a kind that is not selected has no
    entry at all (the preview has 0 for it); the totals of update and
    preview are equal. *)
Theorem restore_reports_selected_kinds fault (restore_all : bool)
    (record_type : option string) (date_from date_to : option datetime)
    (w : World) :
  reliable fault ->
  exists counts,
    fst (restore_archived_records._restore_records fault restore_all record_type
           date_from date_to w) = inr counts
    /\ (forall m,
          dict_get (kind_name m) counts
          = if selected restore_all record_type m
            then Some (count_rows (window_lookups date_from date_to)
                         (table m (db w)))
            else None)
    /\ dict_get "total" counts
       = previewed_total
           (restore_archived_records._count_records restore_all record_type
              date_from date_to) w.
Proof.
  intros Hf. rewrite restore_previewed_total.
  unfold restore_archived_records._restore_records, atomic, bind, qs_update,
    restore_tally, selected.
  rewrite !lookups_get_queryset. simpl kind_name.
  destruct (restore_all || str_eq record_type "assessments") eqn:Sa,
           (restore_all || str_eq record_type "reports") eqn:Sr,
           (restore_all || str_eq record_type "certificates") eqn:Sc,
           (restore_all || str_eq record_type "flood_activities") eqn:Sf,
           (restore_all || str_eq record_type "user_logs") eqn:Sl;
    simpl; rewrite ?Hf; simpl;
    (eexists; split; [reflexivity|]; split;
     [intros m; destruct m; simpl kind_name;
      rewrite ?Sa, ?Sr, ?Sc, ?Sf, ?Sl; reflexivity
     | simpl; f_equal; lia]).
Qed.

Lemma restore_reports_selected_kinds_witness :
  exists counts,
    fst (restore_archived_records._restore_records no_fault false (Some "reports")
           None None (sample_world archived_db [])) = inr counts
    /\ (forall m,
          dict_get (kind_name m) counts
          = if selected false (Some "reports") m
            then Some (count_rows (window_lookups None None)
                         (table m archived_db))
            else None)
    /\ dict_get "total" counts
       = previewed_total
           (restore_archived_records._count_records false (Some "reports")
              None None) (sample_world archived_db []).
Proof.
  apply (@restore_reports_selected_kinds no_fault false (Some "reports") None None
           (sample_world archived_db [])).
  intros m. reflexivity.
Defined.

(** *** Restoring twice, and an empty window *)

Lemma restore_records_run_total fault (al : bool) (ty : option string)
    (a b : option datetime) (w : World) :
  reliable fault ->
  exists counts w2,
    restore_archived_records._restore_records fault al ty a b w = (inr counts, w2)
    /\ db w2 = restore_db al ty a b (db w)
    /\ dict_get "total" counts = dict_get "total" (restore_tally al ty a b (db w)).
Proof.
  intros Hf.
  unfold restore_archived_records._restore_records, atomic, bind, qs_update,
    restore_db, map_tables, restore_tally, selected.
  rewrite !lookups_get_queryset. simpl kind_name.
  destruct (al || str_eq ty "assessments"),
           (al || str_eq ty "reports"),
           (al || str_eq ty "certificates"),
           (al || str_eq ty "flood_activities"),
           (al || str_eq ty "user_logs");
    simpl; rewrite ?Hf; simpl; rewrite ?update_rows_restore;
    destruct w as [[ta tr tc tf tl] tk si so]; simpl;
    (eexists; eexists; split; [reflexivity|]; split;
     [reflexivity | simpl; f_equal; lia]).
Qed.

Lemma in_window_restore_row {B} (a b : option datetime) (r : Row B) :
  in_window a b (restore_row a b r) = false.
Proof.
  unfold restore_row. destruct (in_window a b r) eqn:E; [reflexivity | exact E].
Qed.

Lemma count_after_restore {B} (a b : option datetime) (rows : list (Row B)) :
  count_rows (window_lookups a b) (map (restore_row a b) rows) = O.
Proof.
  unfold count_rows. induction rows as [|r rows IH]; [reflexivity|].
  cbn [map filter]. rewrite matches_window, in_window_restore_row. exact IH.
Qed.

Lemma restore_tally_after_restore (al : bool) (ty : option string)
    (a b : option datetime) (d : DB) :
  dict_get "total" (restore_tally al ty a b (restore_db al ty a b d)) = Some O.
Proof.
  unfold restore_tally. rewrite tally_total. unfold restore_db, map_tables. simpl.
  destruct (selected al ty AssessmentRecord), (selected al ty ReportRecord),
           (selected al ty CertificateRecord), (selected al ty FloodRecordActivity),
           (selected al ty UserLog);
    rewrite ?count_after_restore; reflexivity.
Qed.

(** X9.  On a store that does not fail, a second restore update with the same
    selector and bounds, made on what the first one left, leaves every table
    as it is, and the preview on that database totals 0. *)
Theorem restore_twice_mutates_nothing fault (restore_all : bool)
    (record_type : option string) (date_from date_to : option datetime)
    (w : World) :
  reliable fault ->
  exists counts1 w1 counts2 w2,
    restore_archived_records._restore_records fault restore_all record_type
      date_from date_to w = (inr counts1, w1)
    /\ restore_archived_records._restore_records fault restore_all record_type
         date_from date_to w1 = (inr counts2, w2)
    /\ db w2 = db w1
    /\ dict_get "total" counts2 = Some O
    /\ previewed_total
         (restore_archived_records._count_records restore_all record_type
            date_from date_to) w1 = Some O.
Proof.
  intros Hf.
  destruct (@restore_records_run fault restore_all record_type date_from date_to
              w Hf) as [counts1 [out1 [H1 _]]].
  rewrite H1. eexists. eexists.
  match goal with
  | |- context [restore_archived_records._restore_records _ _ _ _ _ ?W] =>
      destruct (@restore_records_run_total fault restore_all record_type
                  date_from date_to W Hf) as [counts2 [w2 [H2 [Hdb Htot]]]]
  end.
  exists counts2, w2. split; [reflexivity|]. split; [exact H2|].
  simpl db in Hdb, Htot. rewrite restore_previewed_total. simpl db.
  rewrite restore_tally_after_restore in Htot.
  split; [|split; [exact Htot | apply restore_tally_after_restore]].
  rewrite Hdb. apply restore_db_unchanged. apply restore_tally_after_restore.
Qed.

Lemma restore_twice_mutates_nothing_witness :
  exists counts1 w1 counts2 w2,
    restore_archived_records._restore_records no_fault true None None None
      (sample_world archived_db []) = (inr counts1, w1)
    /\ restore_archived_records._restore_records no_fault true None None None w1
       = (inr counts2, w2)
    /\ db w2 = db w1
    /\ dict_get "total" counts2 = Some O
    /\ previewed_total
         (restore_archived_records._count_records true None None None) w1 = Some O.
Proof.
  apply (@restore_twice_mutates_nothing no_fault true None None None
           (sample_world archived_db [])).
  intros m. reflexivity.
Defined.

Lemma count_rows_empty_window {B} (a b : datetime) (rows : list (Row B)) :
  b < a ->
  count_rows (window_lookups (Some a) (Some b)) rows = O.
Proof.
  intros Hba. unfold count_rows.
  induction rows as [|r rows IH]; [reflexivity|].
  cbn [filter]. rewrite matches_window. unfold in_window.
  replace (is_archived r && (a <=? timestamp r) && (timestamp r <=? b)) with false;
    [exact IH|].
  destruct (Z.leb_spec a (timestamp r)), (Z.leb_spec (timestamp r) b);
    rewrite ?andb_false_r; try reflexivity; lia.
Qed.

(** X10.  With a [--date-from] that parses to a later instant than
    [--date-to], the restore command in execute mode finds nothing: it
    writes its nothing-to-do message, does not ask for confirmation,
    returns normally and changes no table, whatever the selector. *)
Theorem restore_inverted_range_restores_nothing fault strptime
    (all : bool) (type : option string) (s_from s_to : string) (a b : datetime)
    (w : World) :
  s_from <> "" -> s_to <> "" ->
  strptime s_from = Some a ->
  strptime s_to = Some b ->
  b < a ->
  fst (restore_archived_records.handle fault strptime
         (restore_archived_records.mkOptions all type (Some s_from) (Some s_to)
            false true) w) = inr tt
  /\ db (snd (restore_archived_records.handle fault strptime
                (restore_archived_records.mkOptions all type (Some s_from)
                   (Some s_to) false true) w)) = db w
  /\ stdin (snd (restore_archived_records.handle fault strptime
                   (restore_archived_records.mkOptions all type (Some s_from)
                      (Some s_to) false true) w)) = stdin w
  /\ In (Text "No records to restore.")
        (stdout (snd (restore_archived_records.handle fault strptime
                        (restore_archived_records.mkOptions all type (Some s_from)
                           (Some s_to) false true) w))).
Proof.
  intros Hs1 Hs2 Ha Hb Hba.
  assert (Hpa : parsed strptime (Some s_from) = Some (Some a)).
  { unfold parsed, truthy. destruct (String.eqb_spec s_from ""); [contradiction|].
    simpl. rewrite Ha. reflexivity. }
  assert (Hpb : parsed strptime (Some s_to) = Some (Some b)).
  { unfold parsed, truthy. destruct (String.eqb_spec s_to ""); [contradiction|].
    simpl. rewrite Hb. reflexivity. }
  assert (Hsel : all || truthy type || truthy (Some s_from) = true).
  { unfold truthy at 2. destruct (String.eqb_spec s_from ""); [contradiction|].
    simpl. apply orb_true_r. }
  assert (Htot : previewed_total
                   (restore_archived_records._count_records all type
                      (Some a) (Some b)) w = Some O).
  { rewrite restore_previewed_total. unfold restore_tally. rewrite tally_total.
    rewrite !(count_rows_empty_window _ Hba).
    destruct (selected all type AssessmentRecord), (selected all type ReportRecord),
             (selected all type CertificateRecord),
             (selected all type FloodRecordActivity), (selected all type UserLog);
      reflexivity. }
  destruct (@restore_nothing_to_do fault strptime all type (Some s_from) (Some s_to)
              (Some a) (Some b) w Hsel Hpa Hpb Htot) as [out ->].
  simpl. repeat split. right. left. reflexivity.
Qed.

Lemma restore_inverted_range_restores_nothing_witness :
  fst (restore_archived_records.handle no_fault sample_strptime
         (restore_archived_records.mkOptions true None (Some "2023-12-31")
            (Some "2023-01-01") false true)
         (sample_world archived_db ["yes"])) = inr tt
  /\ db (snd (restore_archived_records.handle no_fault sample_strptime
                (restore_archived_records.mkOptions true None (Some "2023-12-31")
                   (Some "2023-01-01") false true)
                (sample_world archived_db ["yes"]))) = archived_db
  /\ stdin (snd (restore_archived_records.handle no_fault sample_strptime
                   (restore_archived_records.mkOptions true None (Some "2023-12-31")
                      (Some "2023-01-01") false true)
                   (sample_world archived_db ["yes"]))) = ["yes"]
  /\ In (Text "No records to restore.")
        (stdout (snd (restore_archived_records.handle no_fault sample_strptime
                        (restore_archived_records.mkOptions true None
                           (Some "2023-12-31") (Some "2023-01-01") false true)
                        (sample_world archived_db ["yes"])))).
Proof.
  apply (@restore_inverted_range_restores_nothing no_fault sample_strptime
           true None "2023-12-31" "2023-01-01" (day 738884) (day 738520)
           (sample_world archived_db ["yes"])).
  - discriminate.
  - discriminate.
  - reflexivity.
  - reflexivity.
  - vm_compute. reflexivity.
Defined.

(** *** End of input at the prompt *)

Lemma archive_eof clock fault (y : Z) (il : bool) (w : World) (total : nat) :
  1 <= y -> clock (ticks w) <= datetime_max ->
  datetime_min <= cutoff_of (clock (ticks w)) y ->
  previewed_total
    (archive_old_records._count_records (cutoff_of (clock (ticks w)) y) il) w
  = Some total ->
  (0 < total)%nat ->
  stdin w = [] ->
  exists out,
    archive_old_records.handle clock fault
      (archive_old_records.mkOptions y false true il) w
    = (inl EOFError,
       mkWorld (db w) (S (ticks w)) [] (Text confirm_prompt :: out)).
Proof.
  intros Hy Ht Hc Htot Hpos Hin.
  rewrite archive_previewed_total in Htot.
  destruct (archive_handle_execute clock fault il w Hy Ht Hc) as [head ->].
  unfold bind at 1. rewrite (@archive_confirm_run _ _ _ Htot).
  destruct total as [|n]; [lia|]. simpl. rewrite Hin. simpl.
  eexists. reflexivity.
Qed.

Lemma restore_eof fault strptime (al : bool) (ty df dt : option string)
    (a b : option datetime) (w : World) (total : nat) :
  al || truthy ty || truthy df = true ->
  parsed strptime df = Some a ->
  parsed strptime dt = Some b ->
  previewed_total (restore_archived_records._count_records al ty a b) w
  = Some total ->
  (0 < total)%nat ->
  stdin w = [] ->
  exists out,
    restore_archived_records.handle fault strptime
      (restore_archived_records.mkOptions al ty df dt false true) w
    = (inl EOFError, mkWorld (db w) (ticks w) [] (Text confirm_prompt :: out)).
Proof.
  intros Hsel Ha Hb Htot Hpos Hin.
  rewrite restore_previewed_total in Htot.
  destruct (@restore_handle_execute fault strptime al ty df dt a b w Hsel Ha Hb)
    as [head ->].
  unfold bind at 1. rewrite (@restore_confirm_run _ _ _ Htot).
  destruct total as [|n]; [lia|]. simpl. rewrite Hin. simpl.
  eexists. reflexivity.
Qed.

(** X11.  In execute mode with a positive previewed total, when standard
    input is exhausted the command ends in [EOFError] at the prompt: the
    warning and the prompt have been written, nothing has been updated.
    This holds for the archive and for the restore command, whatever the
    store would do. *)
Theorem end_of_input_at_the_prompt :
  (forall clock fault (years : Z) (include_logs : bool) (w : World) (total : nat),
      1 <= years ->
      clock (ticks w) <= datetime_max ->
      datetime_min <= cutoff_of (clock (ticks w)) years ->
      previewed_total
        (archive_old_records._count_records
           (cutoff_of (clock (ticks w)) years) include_logs) w = Some total ->
      (0 < total)%nat ->
      stdin w = [] ->
      fst (archive_old_records.handle clock fault
             (archive_old_records.mkOptions years false true include_logs) w)
      = inl EOFError
      /\ db (snd (archive_old_records.handle clock fault
                    (archive_old_records.mkOptions years false true include_logs)
                    w)) = db w
      /\ hd_error (stdout (snd (archive_old_records.handle clock fault
                                  (archive_old_records.mkOptions years false true
                                     include_logs) w)))
         = Some (Text confirm_prompt))
  /\
  (forall fault strptime (all : bool) (type date_from date_to : option string)
          (a b : option datetime) (w : World) (total : nat),
      all || truthy type || truthy date_from = true ->
      parsed strptime date_from = Some a ->
      parsed strptime date_to = Some b ->
      previewed_total
        (restore_archived_records._count_records all type a b) w = Some total ->
      (0 < total)%nat ->
      stdin w = [] ->
      fst (restore_archived_records.handle fault strptime
             (restore_archived_records.mkOptions all type date_from date_to
                false true) w)
      = inl EOFError
      /\ db (snd (restore_archived_records.handle fault strptime
                    (restore_archived_records.mkOptions all type date_from date_to
                       false true) w)) = db w
      /\ hd_error (stdout (snd (restore_archived_records.handle fault strptime
                                  (restore_archived_records.mkOptions all type
                                     date_from date_to false true) w)))
         = Some (Text confirm_prompt)).
Proof.
  split.
  - intros clock fault y il w total Hy Ht Hc Htot Hpos Hin.
    destruct (@archive_eof clock fault y il w total Hy Ht Hc Htot Hpos Hin)
      as [out ->].
    split; [reflexivity|]. split; reflexivity.
  - intros fault strptime al ty df dt a b w total Hsel Ha Hb Htot Hpos Hin.
    destruct (@restore_eof fault strptime al ty df dt a b w total
                Hsel Ha Hb Htot Hpos Hin) as [out ->].
    split; [reflexivity|]. split; reflexivity.
Qed.

Lemma end_of_input_at_the_prompt_witness :
  fst (archive_old_records.handle sample_clock no_fault
         (archive_old_records.mkOptions 2 false true false)
         (sample_world sample_db []))
  = inl EOFError
  /\ db (snd (archive_old_records.handle sample_clock no_fault
                (archive_old_records.mkOptions 2 false true false)
                (sample_world sample_db []))) = sample_db
  /\ hd_error (stdout (snd (archive_old_records.handle sample_clock no_fault
                              (archive_old_records.mkOptions 2 false true false)
                              (sample_world sample_db []))))
     = Some (Text confirm_prompt).
Proof.
  refine (proj1 end_of_input_at_the_prompt sample_clock no_fault 2 false
            (sample_world sample_db []) 2%nat _ _ _ _ _ _).
  - lia.
  - vm_compute. discriminate.
  - vm_compute. discriminate.
  - vm_compute. reflexivity.
  - lia.
  - reflexivity.
Defined.

(** *** A dry run asks nothing *)

Lemma keeps_stdin_ret {A} (a : A) : keeps_stdin (ret a).
Proof. intros w. reflexivity. Qed.

Lemma keeps_stdin_raise {A} (e : Exc) : keeps_stdin (@raise A e).
Proof. intros w. reflexivity. Qed.

Lemma keeps_stdin_write (l : Line) : keeps_stdin (write l).
Proof. intros w. reflexivity. Qed.

Lemma keeps_stdin_timezone_now clock : keeps_stdin (timezone_now clock).
Proof. intros w. reflexivity. Qed.

Lemma keeps_stdin_qs_count (qs : QuerySet) : keeps_stdin (qs_count qs).
Proof. intros w. reflexivity. Qed.

Lemma keeps_stdin_getitem (d : dict) (key : string) : keeps_stdin (getitem d key).
Proof. intros w. unfold getitem. destruct (dict_get key d); reflexivity. Qed.

Lemma keeps_stdin_minus_days (t d : Z) : keeps_stdin (minus_days t d).
Proof.
  intros w. unfold minus_days.
  destruct ((d <? -999999999) || (999999999 <? d)); [reflexivity|].
  destruct ((t - d * us_per_day <? datetime_min)
            || (datetime_max <? t - d * us_per_day)); reflexivity.
Qed.

Lemma keeps_stdin_bind {A B} (c : M A) (k : A -> M B) :
  keeps_stdin c -> (forall a, keeps_stdin (k a)) -> keeps_stdin (bind c k).
Proof.
  intros Hc Hk w. unfold bind. specialize (Hc w).
  destruct (c w) as [[e|a] w1]; simpl in *; [exact Hc|].
  rewrite Hk. exact Hc.
Qed.

Lemma keeps_stdin_parse_date strptime (arg : option string) (msg : string) :
  keeps_stdin (restore_archived_records.parse_date strptime arg msg).
Proof.
  intros w. unfold restore_archived_records.parse_date.
  destruct arg as [s|]; [|reflexivity].
  destruct (truthy (Some s)); [|reflexivity].
  destruct (strptime s); reflexivity.
Qed.

Ltac keeps_stdin_steps :=
  repeat first
    [ apply keeps_stdin_ret
    | apply keeps_stdin_raise
    | apply keeps_stdin_write
    | apply keeps_stdin_timezone_now
    | apply keeps_stdin_qs_count
    | apply keeps_stdin_getitem
    | apply keeps_stdin_minus_days
    | apply keeps_stdin_parse_date
    | apply keeps_stdin_bind; [ | intros ?]
    | match goal with
      | |- keeps_stdin (if ?c then _ else _) => destruct c
      end ].

(** X12.  A dry run of either command never reads standard input: on every
    command line, clock, store behaviour and database, the lines waiting on
    standard input are all still there when the run ends, also when it ends
    in an error. *)
Theorem dry_run_reads_no_input :
  (forall clock fault (options : archive_old_records.Options) (w : World),
      archive_old_records.dry_run options = true ->
      stdin (snd (archive_old_records.handle clock fault options w)) = stdin w)
  /\
  (forall fault strptime (options : restore_archived_records.Options) (w : World),
      restore_archived_records.dry_run options = true ->
      stdin (snd (restore_archived_records.handle fault strptime options w))
      = stdin w).
Proof.
  split.
  - intros clock fault [y d e il] w Hd. simpl in Hd. subst d. revert w.
    change (keeps_stdin (archive_old_records.handle clock fault
                           (archive_old_records.mkOptions y true e il))).
    unfold archive_old_records.handle. simpl.
    destruct e; simpl; [keeps_stdin_steps|].
    unfold archive_old_records._count_records,
      archive_old_records._display_summary.
    keeps_stdin_steps.
  - intros fault strptime [al ty df dt d e] w Hd. simpl in Hd. subst d. revert w.
    change (keeps_stdin (restore_archived_records.handle fault strptime
                           (restore_archived_records.mkOptions al ty df dt true e))).
    unfold restore_archived_records.handle. simpl.
    destruct e; simpl; [keeps_stdin_steps|].
    unfold restore_archived_records._count_records,
      restore_archived_records._display_summary.
    keeps_stdin_steps.
Qed.

Lemma dry_run_reads_no_input_witness :
  stdin (snd (archive_old_records.handle sample_clock no_fault
                (archive_old_records.mkOptions 2 true false true)
                (sample_world sample_db ["yes"; "no"]))) = ["yes"; "no"].
Proof.
  apply (proj1 dry_run_reads_no_input sample_clock no_fault
           (archive_old_records.mkOptions 2 true false true)
           (sample_world sample_db ["yes"; "no"])).
  reflexivity.
Defined.

(** *** A larger threshold never archives more *)

Lemma count_rows_le {B} (ls ls' : list Lookup) (rows : list (Row B)) :
  (forall r : Row B, matches ls r = true -> matches ls' r = true) ->
  (count_rows ls rows <= count_rows ls' rows)%nat.
Proof.
  intros H. unfold count_rows.
  induction rows as [|r rows IH]; [apply Nat.le_refl|].
  cbn [filter]. destruct (matches ls r) eqn:E.
  - rewrite (H r E). simpl. lia.
  - destruct (matches ls' r); simpl; lia.
Qed.

Lemma old_unarchived_mono {B} (c c' : datetime) (r : Row B) :
  c <= c' ->
  matches [timestamp__lt c; is_archived_eq false] r = true ->
  matches [timestamp__lt c'; is_archived_eq false] r = true.
Proof.
  intros Hc. rewrite !matches_old_unarchived. unfold qualifies.
  destruct (Z.ltb_spec (timestamp r) c) as [Hlt|Hge]; [|discriminate].
  intros Hq. replace (timestamp r <? c') with true
    by (symmetry; apply Z.ltb_lt; lia).
  exact Hq.
Qed.

(** X13.  For the same clock reading and database, raising [--years] never
    raises a count of the preview: for every key of the dictionary (each
    kind and the total), the number counted with the larger threshold is at
    most the number counted with the smaller one. *)
Theorem larger_threshold_counts_no_more (now : datetime) (years1 years2 : Z)
    (include_logs : bool) (w : World) :
  years1 <= years2 ->
  exists counts1 counts2,
    fst (archive_old_records._count_records (cutoff_of now years1) include_logs w)
    = inr counts1
    /\ fst (archive_old_records._count_records (cutoff_of now years2)
              include_logs w) = inr counts2
    /\ forall key n1 n2,
         dict_get key counts1 = Some n1 ->
         dict_get key counts2 = Some n2 ->
         (n2 <= n1)%nat.
Proof.
  intros Hy. rewrite !archive_count_run. eexists. eexists.
  split; [reflexivity|]. split; [reflexivity|].
  assert (Hc : cutoff_of now years2 <= cutoff_of now years1).
  { unfold cutoff_of, us_per_day. lia. }
  pose proof (fun B (rows : list (Row B)) =>
                @count_rows_le B _ _ rows
                  (fun r => @old_unarchived_mono B _ _ r Hc)) as Hle.
  pose proof (Hle _ (assessments (db w))) as Ha.
  pose proof (Hle _ (reports (db w))) as Hr.
  pose proof (Hle _ (certificates (db w))) as Hce.
  pose proof (Hle _ (flood_activities (db w))) as Hfl.
  pose proof (Hle _ (user_logs (db w))) as Hlo.
  intros key n1 n2. unfold archive_tally, tally. cbn [dict_get].
  repeat match goal with
         | |- context [String.eqb ?a key] => destruct (String.eqb a key)
         end;
    try discriminate;
    destruct include_logs; intros [= H1] [= H2]; lia.
Qed.

Lemma larger_threshold_counts_no_more_witness :
  exists counts1 counts2,
    fst (archive_old_records._count_records (cutoff_of (sample_clock 0) 1) true
           (sample_world sample_db []))
    = inr counts1
    /\ fst (archive_old_records._count_records (cutoff_of (sample_clock 0) 2) true
              (sample_world sample_db [])) = inr counts2
    /\ forall key n1 n2,
         dict_get key counts1 = Some n1 ->
         dict_get key counts2 = Some n2 ->
         (n2 <= n1)%nat.
Proof.
  apply (@larger_threshold_counts_no_more (sample_clock 0) 1 2 true
           (sample_world sample_db [])).
  lia.
Defined.

(** *** Archive, then restore everything *)

Lemma restore_all_archive_row {B} (cutoff now : datetime) (r : Row B) :
  is_archived r = false -> archived_at r = None ->
  restore_row None None (archive_row cutoff now r) = r.
Proof.
  intros Ha Hn. destruct r as [k f t ar at_]. simpl in Ha, Hn. subst ar at_.
  unfold archive_row, qualifies. simpl.
  destruct (t <? cutoff); reflexivity.
Qed.

(** X14.  On a database where nothing is archived yet (every row has
    [is_archived] false and [archived_at] null), a confirmed execute run of
    the archive command followed by a confirmed [--all --execute] run of the
    restore command, on a store that does not fail, gives back exactly the
    database it started from, row for row and column for column. *)
Theorem archive_then_restore_all_is_identity clock fault strptime
    (years : Z) (include_logs : bool) (w w1 : World)
    (yes1 yes2 : string) (rest1 rest2 : list string) :
  reliable fault ->
  all_active (db w) ->
  1 <= years ->
  clock (ticks w) <= datetime_max ->
  datetime_min <= cutoff_of (clock (ticks w)) years ->
  stdin w = yes1 :: rest1 -> lower yes1 = "yes" ->
  db w1 = db (snd (archive_old_records.handle clock fault
                     (archive_old_records.mkOptions years false true include_logs)
                     w)) ->
  stdin w1 = yes2 :: rest2 -> lower yes2 = "yes" ->
  fst (restore_archived_records.handle fault strptime
         (restore_archived_records.mkOptions true None None None false true) w1)
  = inr tt
  /\ db (snd (restore_archived_records.handle fault strptime
                (restore_archived_records.mkOptions true None None None false true)
                w1)) = db w.
Proof.
  intros Hf Hact Hy Ht Hc Hin1 Hyes1 Hdb1 Hin2 Hyes2.
  destruct (@archive_execute_db clock fault years include_logs w yes1 rest1
              Hf Hy Ht Hc Hin1 Hyes1) as [_ Harch].
  destruct (@restore_execute_db fault strptime true None None None None None w1
              yes2 rest2 Hf eq_refl eq_refl eq_refl Hin2 Hyes2) as [Hres Hrest].
  split; [exact Hres|].
  rewrite Hrest, Hdb1, Harch. apply DB_ext. intros m.
  unfold restore_db, archive_db. rewrite !table_map_tables.
  change (selected true None m) with true. cbv iota.
  destruct (participates include_logs m).
  - rewrite map_map. rewrite <- (map_id (table m (db w))) at 2.
    apply map_ext_in. intros r Hr.
    destruct (Hact m r Hr) as [Ha Hn].
    apply restore_all_archive_row; assumption.
  - rewrite <- (map_id (table m (db w))) at 2.
    apply map_ext_in. intros r Hr.
    destruct (Hact m r Hr) as [Ha Hn].
    unfold restore_row, in_window. rewrite Ha. reflexivity.
Qed.

Lemma sample_db_all_active : all_active sample_db.
Proof.
  intros m r H. destruct m; simpl in H;
    repeat (destruct H as [H|H]; [subst r; split; reflexivity|]); contradiction.
Qed.

Lemma archive_then_restore_all_is_identity_witness :
  fst (restore_archived_records.handle no_fault sample_strptime
         (restore_archived_records.mkOptions true None None None false true)
         (sample_world sample_db_archived ["yes"]))
  = inr tt
  /\ db (snd (restore_archived_records.handle no_fault sample_strptime
                (restore_archived_records.mkOptions true None None None false true)
                (sample_world sample_db_archived ["yes"]))) = sample_db.
Proof.
  refine (@archive_then_restore_all_is_identity sample_clock no_fault
            sample_strptime 2 false
            (sample_world sample_db ["yes"])
            (sample_world sample_db_archived ["yes"])
            "yes" "yes" [] [] _ _ _ _ _ _ _ _ _ _).
  - intros m. reflexivity.
  - exact sample_db_all_active.
  - lia.
  - vm_compute. discriminate.
  - vm_compute. discriminate.
  - reflexivity.
  - reflexivity.
  - vm_compute. reflexivity.
  - reflexivity.
  - reflexivity.
Defined.

(* ===================================================================== *)
(** ** Properties of the validators *)
(* ===================================================================== *)

Import validators.

Lemma is_special_In (c : char) :
  is_special c = true <-> In c special_characters.
Proof.
  unfold is_special. rewrite existsb_exists. split.
  - intros [x [Hx Heq]]. apply N.eqb_eq in Heq. subst x. exact Hx.
  - intros H. exists c. split; [exact H | apply N.eqb_refl].
Qed.

(** X15.  [PasswordStrengthValidator.validate] accepts a password exactly
    when it holds at least one uppercase character, one lowercase character,
    one digit and one character of the special list; nothing else (length
    included) is looked at. *)
Theorem password_accepted_iff (isupper islower isdigit : char -> bool)
    (password : str) :
  validate isupper islower isdigit password = inr tt
  <-> ((exists c, In c password /\ isupper c = true)
       /\ (exists c, In c password /\ islower c = true)
       /\ (exists c, In c password /\ isdigit c = true)
       /\ (exists c, In c password /\ In c special_characters)).
Proof.
  unfold validate.
  rewrite <- !existsb_exists.
  assert (Hs : (exists c, In c password /\ In c special_characters)
               <-> existsb is_special password = true).
  { rewrite existsb_exists. split; intros [c [H1 H2]]; exists c;
      (split; [exact H1 | apply is_special_In; exact H2]). }
  rewrite Hs.
  destruct (existsb isupper password), (existsb islower password),
           (existsb isdigit password), (existsb is_special password);
    simpl; split; try discriminate; try tauto;
    intros [? [? [? ?]]]; discriminate.
Qed.

(** X16.  A password that [validate] accepts stays accepted when characters
    are added in front of it and behind it. *)
Theorem password_accepted_inside (isupper islower isdigit : char -> bool)
    (before password after : str) :
  validate isupper islower isdigit password = inr tt ->
  validate isupper islower isdigit (before ++ password ++ after)%list = inr tt.
Proof.
  unfold validate. rewrite !existsb_app.
  destruct (existsb isupper password); [|discriminate].
  destruct (existsb islower password); [|discriminate].
  destruct (existsb isdigit password); [|discriminate].
  destruct (existsb is_special password); [|discriminate].
  intros _. simpl. rewrite !orb_true_r. reflexivity.
Qed.

Lemma password_accepted_inside_witness :
  validate ascii_upper ascii_lower ascii_digit
    (literal "xx" ++ literal "Ab1!" ++ literal "yy")%list = inr tt.
Proof.
  apply (@password_accepted_inside ascii_upper ascii_lower ascii_digit
           (literal "xx") (literal "Ab1!") (literal "yy")).
  reflexivity.
Defined.

(** X17.  The validator has no length test of its own, but since no
    character is at once uppercase and lowercase, a cased character is not a
    digit, and the characters of the special list are neither, every
    password it accepts has at least four characters. *)
Theorem password_accepted_length (isupper islower isdigit : char -> bool)
    (password : str) :
  (forall c, isupper c = true -> islower c = false) ->
  (forall c, isupper c = true -> isdigit c = false) ->
  (forall c, islower c = true -> isdigit c = false) ->
  (forall c, In c special_characters ->
             isupper c = false /\ islower c = false /\ isdigit c = false) ->
  validate isupper islower isdigit password = inr tt ->
  (4 <= List.length password)%nat.
Proof.
  intros Hul Hud Hld Hsp Hok.
  apply password_accepted_iff in Hok.
  destruct Hok as [[u [Hu1 Hu2]] [[l [Hl1 Hl2]] [[d [Hd1 Hd2]] [s [Hs1 Hs2]]]]].
  destruct (Hsp s Hs2) as [Hsu [Hsl Hsd]].
  assert (Hnd : NoDup [u; l; d; s]).
  { repeat constructor; simpl; intuition; subst;
      try (rewrite (Hul _ Hu2) in Hl2; discriminate);
      try (rewrite (Hud _ Hu2) in Hd2; discriminate);
      try (rewrite (Hld _ Hl2) in Hd2; discriminate);
      congruence. }
  assert (Hincl : incl [u; l; d; s] password).
  { intros x Hx. simpl in Hx. intuition; subst; assumption. }
  exact (NoDup_incl_length Hnd Hincl).
Qed.

Lemma password_accepted_length_witness :
  (4 <= List.length (literal "Ab1!"))%nat.
Proof.
  apply (@password_accepted_length ascii_upper ascii_lower ascii_digit
           (literal "Ab1!")).
  - intros c. unfold ascii_upper, ascii_lower. intros H.
    apply andb_true_iff in H. destruct H as [_ H]. apply N.leb_le in H.
    apply andb_false_iff. left. apply N.leb_gt. lia.
  - intros c. unfold ascii_upper, ascii_digit. intros H.
    apply andb_true_iff in H. destruct H as [H _]. apply N.leb_le in H.
    apply andb_false_iff. right. apply N.leb_gt. lia.
  - intros c. unfold ascii_lower, ascii_digit. intros H.
    apply andb_true_iff in H. destruct H as [H _]. apply N.leb_le in H.
    apply andb_false_iff. right. apply N.leb_gt. lia.
  - intros c H. vm_compute in H.
    repeat (destruct H as [H|H]; [subst c; vm_compute; repeat split|]).
    contradiction.
  - reflexivity.
Defined.

(** X18.  [StaffIDValidator.__call__] returns its argument unchanged, and it
    accepts exactly the values made of two letters A to Z followed by four
    decimal digits, and those same six characters followed by one newline
    (Python's [$] also matches just before a newline that ends the string);
    every other value raises the format error. *)
Theorem staff_id_accepted_iff (unicode_decimal : char -> bool)
    (value v : str) :
  call unicode_decimal value = inr v
  <-> (v = value
       /\ exists a b d1 d2 d3 d4,
            A_to_Z a = true /\ A_to_Z b = true
            /\ unicode_decimal d1 = true /\ unicode_decimal d2 = true
            /\ unicode_decimal d3 = true /\ unicode_decimal d4 = true
            /\ (value = [a; b; d1; d2; d3; d4]
                \/ value = [a; b; d1; d2; d3; d4; 10%N])).
Proof.
  unfold call, re_match, staff_id_pattern. split.
  - intros H.
    destruct value as [|a value]; [discriminate H|]. simpl in H.
    destruct (A_to_Z a) eqn:Ea; [|discriminate H].
    destruct value as [|b value]; [discriminate H|]. simpl in H.
    destruct (A_to_Z b) eqn:Eb; [|discriminate H].
    destruct value as [|d1 value]; [discriminate H|]. simpl in H.
    destruct (unicode_decimal d1) eqn:E1; [|discriminate H].
    destruct value as [|d2 value]; [discriminate H|]. simpl in H.
    destruct (unicode_decimal d2) eqn:E2; [|discriminate H].
    destruct value as [|d3 value]; [discriminate H|]. simpl in H.
    destruct (unicode_decimal d3) eqn:E3; [|discriminate H].
    destruct value as [|d4 value]; [discriminate H|]. simpl in H.
    destruct (unicode_decimal d4) eqn:E4; [|discriminate H].
    destruct value as [|c [|c' rest]]; simpl in H.
    + injection H as <-. split; [reflexivity|].
      exists a, b, d1, d2, d3, d4. repeat split; try assumption. left. reflexivity.
    + destruct (N.eqb_spec c 10) as [->|NE]; simpl in H; [|discriminate H].
      injection H as <-. split; [reflexivity|].
      exists a, b, d1, d2, d3, d4. repeat split; try assumption. right. reflexivity.
    + discriminate H.
  - intros [Hv [a [b [d1 [d2 [d3 [d4 [Ha [Hb [H1 [H2 [H3 [H4 Hshape]]]]]]]]]]]]].
    subst v. destruct Hshape as [Hs|Hs]; subst value;
      simpl; rewrite Ha, Hb, H1, H2, H3, H4; reflexivity.
Qed.

(** The value of the error message's own example, and the same value with a
    newline behind it. *)
Example staff_id_samples :
  call ascii_digit (literal "AB1234") = inr (literal "AB1234")
  /\ call ascii_digit (literal "AB1234" ++ [10%N])%list
     = inr (literal "AB1234" ++ [10%N])%list
  /\ call ascii_digit (literal "ab1234")
     = inl "Staff ID must be in format: 2 uppercase letters followed by 4 digits (e.g., AB1234)"
  /\ call ascii_digit (literal "AB12345")
     = inl "Staff ID must be in format: 2 uppercase letters followed by 4 digits (e.g., AB1234)".
Proof. repeat split. Qed.

(* ===================================================================== *)
(** ** Properties of [FloodSusceptibility.save] *)
(* ===================================================================== *)

Import flood_susceptibility.

(** X19.  [save] derives [haz_desc] from [haz_code] alone: for a code of the
    column's [choices] it is the label the choices give, for any other code
    it is [Unknown]; a description set by the caller is overwritten, the
    other columns are handed on as they are, and saving a saved instance
    changes nothing. *)
Theorem save_derives_description (self : FloodSusceptibility) :
  (forall code label,
      In (code, label) haz_code_choices ->
      haz_code self = code ->
      haz_desc (save self) = label)
  /\ ((forall label, ~ In (haz_code self, label) haz_code_choices) ->
      haz_desc (save self) = "Unknown")
  /\ (forall desc,
        save (mkFloodSusceptibility (lgu self) (psgc_lgu self) (haz_class self)
                (haz_code self) desc (haz_area_ha self) (geometry self))
        = save self)
  /\ save (save self) = save self
  /\ (lgu (save self), psgc_lgu (save self), haz_class (save self),
      haz_code (save self), haz_area_ha (save self), geometry (save self))
     = (lgu self, psgc_lgu self, haz_class self, haz_code self,
        haz_area_ha self, geometry self).
Proof.
  split; [|split; [|split; [|split]]].
  - intros code label Hin Hc. unfold save. simpl. rewrite Hc.
    simpl in Hin.
    repeat (destruct Hin as [Hin|Hin]; [injection Hin as <- <-; reflexivity|]).
    contradiction.
  - intros Hno. unfold save, haz_desc_map. cbn [haz_desc dict_get_default].
    destruct (String.eqb_spec "VHF" (haz_code self)) as [E|_];
      [exfalso; apply (Hno "Very High Flood Susceptibility");
       rewrite <- E; simpl; tauto|].
    destruct (String.eqb_spec "HF" (haz_code self)) as [E|_];
      [exfalso; apply (Hno "High Flood Susceptibility");
       rewrite <- E; simpl; tauto|].
    destruct (String.eqb_spec "MF" (haz_code self)) as [E|_];
      [exfalso; apply (Hno "Moderate Flood Susceptibility");
       rewrite <- E; simpl; tauto|].
    destruct (String.eqb_spec "LF" (haz_code self)) as [E|_];
      [exfalso; apply (Hno "Low Flood Susceptibility");
       rewrite <- E; simpl; tauto|].
    reflexivity.
  - intros desc. reflexivity.
  - reflexivity.
  - reflexivity.
Qed.

Lemma save_derives_description_witness :
  haz_desc (save (mkFloodSusceptibility "Silay City" "64526000" "Flooding" "MF"
                    "typed by hand" 2070000000 "MULTIPOLYGON EMPTY"))
  = "Moderate Flood Susceptibility"
  /\ haz_desc (save (mkFloodSusceptibility "Silay City" "64526000" "Flooding" "XXX"
                       "" 520000000 "MULTIPOLYGON EMPTY"))
     = "Unknown".
Proof.
  split.
  - apply (proj1 (save_derives_description
                    (mkFloodSusceptibility "Silay City" "64526000" "Flooding" "MF"
                       "typed by hand" 2070000000 "MULTIPOLYGON EMPTY"))
             "MF" "Moderate Flood Susceptibility").
    + simpl. tauto.
    + reflexivity.
  - apply (proj1 (proj2 (save_derives_description
                           (mkFloodSusceptibility "Silay City" "64526000" "Flooding"
                              "XXX" "" 520000000 "MULTIPOLYGON EMPTY")))).
    intros label H. simpl in H.
    repeat (destruct H as [H|H]; [discriminate H|]). contradiction.
Defined.

Lemma password_accepted_iff_witness :
  validate ascii_upper ascii_lower ascii_digit (literal "Ab1!") = inr tt.
Proof.
  apply (proj2 (password_accepted_iff ascii_upper ascii_lower ascii_digit
                  (literal "Ab1!"))).
  split; [|split; [|split]].
  - exists 65%N. split; [simpl; tauto | reflexivity].
  - exists 98%N. split; [simpl; tauto | reflexivity].
  - exists 49%N. split; [simpl; tauto | reflexivity].
  - exists 33%N. split; [simpl; tauto | simpl; tauto].
Defined.

Lemma staff_id_accepted_iff_witness :
  call ascii_digit (literal "AB1234" ++ [10%N])%list
  = inr (literal "AB1234" ++ [10%N])%list.
Proof.
  apply (proj2 (staff_id_accepted_iff ascii_digit
                  (literal "AB1234" ++ [10%N])%list
                  (literal "AB1234" ++ [10%N])%list)).
  split; [reflexivity|].
  exists 65%N, 66%N, 49%N, 50%N, 51%N, 52%N.
  repeat split. right. reflexivity.
Defined.
